(** * gcli2api: the OAuth flow orchestrator, the credential store and the user manager

    A shallow embedding of

    - [src/services/auth_service.py]: [AuthCallbackHandler.do_GET] and the
      methods of [AuthService] ([find_available_port], [create_auth_url],
      [handle_callback], [get_auth_flow], [complete_auth_flow],
      [save_credentials], [cleanup_auth_flows], [_shutdown_flow_server]);
    - [src/storage/mysql_manager.py]: [MySQLCacheBackend.load_data] and
      [write_data], and the credential operations of [MySQLManager] (the
      blob, the health state and the usage statistics of a record);
    - [src/user_manager.py], [src/dependencies.py] and [src/routers/auth.py]:
      the accounts and tokens of [UserManager] (on SQLite; and, for the
      methods that read or delete by token or by user id, on either
      backend), the dependencies [get_current_user_id] and [require_admin],
      and the handlers of [POST /auth/login] and [POST /auth/refresh-token];
    - [src/utils.py]: the file names that carry the prefix of a user;

    followed by the properties proved about them.

    Conventions.  Python code that mutates [self] or can raise is written in
    the state-and-exception monad [Py.M]: a computation maps the process state
    to an outcome ([Return v] or [Raise e]) and the state it leaves behind, so
    that mutations made before an exception survive it, as in Python.  Calls
    that leave the process (the OAuth client library, the HTTP listener
    objects, the database driver) are parameters: a record gives the result
    of each call.  [time.time()] returns a float number of seconds; the model
    keeps it as a rational, which represents every finite float exactly.
    The one loop that waits ([complete_auth_flow], lines 315-318) runs on
    fuel, and the statements about it say how much is enough. *)

From Stdlib Require Import QArith Qround Lqa String List Permutation Sorted.
From stdpp Require Import gmap strings list pretty.

Open Scope string_scope.

(* ================================================================== *)
(** * Part I: definitions                                              *)
(* ================================================================== *)

(** ** Python values, exceptions and the monad of methods *)

Module Py.

(** The exception classes that occur in the modelled code.  All of them
    derive from [Exception], so [except Exception] catches each one. *)
Inductive exn_class :=
| TypeError | ValueError | KeyError | AttributeError | RuntimeError
| ImportError | OSError | OverflowError | DatabaseError | HTTPException (status : Z)
| OtherException.

(** An exception object: its class and [str(e)]. *)
Record exn := Exn { exn_cls : exn_class; exn_str : string }.

(** What running a piece of code gives: a value, a raised exception, or
    [OutOfFuel] when the model of a loop was given too few iterations.
    [OutOfFuel] is not a Python exception: no handler catches it. *)
Inductive outcome (A : Type) :=
| Return (a : A)
| Raise (e : exn)
| OutOfFuel.
Arguments Return {A} a.
Arguments Raise {A} e.
Arguments OutOfFuel {A}.

Definition M (S A : Type) : Type := S -> outcome A * S.

Definition ret {S A} (a : A) : M S A := fun s => (Return a, s).

Definition bind {S A B} (c : M S A) (k : A -> M S B) : M S B :=
  fun s => match c s with
           | (Return a, s') => k a s'
           | (Raise e, s') => (Raise e, s')
           | (OutOfFuel, s') => (OutOfFuel, s')
           end.

Definition raise {S A} (e : exn) : M S A := fun s => (Raise e, s).

Definition get_state {S} : M S S := fun s => (Return s, s).

Definition modify {S} (f : S -> S) : M S unit := fun s => (Return tt, f s).

(** [try: c  except Exception as e: h e] *)
Definition try_except {S A} (c : M S A) (h : exn -> M S A) : M S A :=
  fun s => match c s with
           | (Return a, s') => (Return a, s')
           | (Raise e, s') => h e s'
           | (OutOfFuel, s') => (OutOfFuel, s')
           end.

(** [with enter as x: body x] (and [async with]), inside a function.  The
    body gives [Some b] when it leaves the block by [return b] and [None]
    when it runs to its end.  [enter] stands for the evaluation of the
    context expression and [__enter__]: when it raises, the block is not
    entered and [exit] is not called.  Otherwise [exit] is [__exit__], called
    however the body is left, with the exception the body raised, if any;
    its value is the truth value of what [__exit__] returns.  What [exit]
    raises replaces the outcome of the body; when the body raised and [exit]
    returns a true value, the exception is suppressed and execution goes on
    after the block. *)
Definition with_ {S A B} (enter : M S A) (exit : option exn -> M S bool)
    (body : A -> M S (option B)) : M S (option B) :=
  fun s =>
    match enter s with
    | (Return x, s1) =>
        match body x s1 with
        | (Return r, s2) =>
            match exit None s2 with
            | (Return _, s3) => (Return r, s3)
            | (Raise e, s3) => (Raise e, s3)
            | (OutOfFuel, s3) => (OutOfFuel, s3)
            end
        | (Raise e, s2) =>
            match exit (Some e) s2 with
            | (Return suppress, s3) =>
                if suppress : bool then (Return None, s3) else (Raise e, s3)
            | (Raise e', s3) => (Raise e', s3)
            | (OutOfFuel, s3) => (OutOfFuel, s3)
            end
        | (OutOfFuel, s2) => (OutOfFuel, s2)
        end
    | (Raise e, s1) => (Raise e, s1)
    | (OutOfFuel, s1) => (OutOfFuel, s1)
    end.

(** [for x in xs: body x] *)
Fixpoint for_each {S A} (xs : list A) (body : A -> M S unit) : M S unit :=
  match xs with
  | [] => ret tt
  | x :: xs' => bind (body x) (fun _ => for_each xs' body)
  end.

(** What a call to a collaborator outside the process gives: a value or an
    exception. *)
Inductive result (A : Type) :=
| Ok (a : A)
| Error (e : exn).
Arguments Ok {A} a.
Arguments Error {A} e.

(** Making such a call. *)
Definition lift {S A} (r : result A) : M S A :=
  fun s => match r with
           | Ok a => (Return a, s)
           | Error e => (Raise e, s)
           end.

(** Truthiness ([if x:], [not x]) of an optional string: [None] and the
    empty string are falsy. *)
Definition truthy (o : option string) : bool :=
  match o with
  | Some s => negb (String.eqb s "")
  | None => false
  end.

(** Truthiness of a string. *)
Definition truthy_str (s : string) : bool := negb (String.eqb s "").

End Py.

Export Py.

Declare Scope py_scope.
Delimit Scope py_scope with py.
Notation "x <- c ;; k" := (Py.bind c (fun x => k))
  (at level 100, c at next level, right associativity) : py_scope.
Notation "c ;;; k" := (Py.bind c (fun _ => k))
  (at level 100, right associativity) : py_scope.

(** ** Insertion-ordered dictionaries with string keys

    A Python [dict] iterates in insertion order; [auth_flows] is iterated
    (first match wins in [get_auth_flow]) and sorted with a stable sort, so its
    order is part of the model: an association list whose keys are distinct. *)

Module Dict.

Definition t (V : Type) : Type := list (string * V).

Section Ops.
Context {V : Type}.

(** [d.get(k)] *)
Fixpoint get (d : t V) (k : string) : option V :=
  match d with
  | [] => None
  | (k', v) :: d' => if String.eqb k k' then Some v else get d' k
  end.

(** [d.get(k, default)] *)
Definition get_default (d : t V) (k : string) (default : V) : V :=
  match get d k with
  | Some v => v
  | None => default
  end.

(** [k in d] *)
Definition contains (d : t V) (k : string) : bool :=
  match get d k with
  | Some _ => true
  | None => false
  end.

(** [d[k] = v]: an existing key keeps its position, a new key goes last. *)
Fixpoint set (d : t V) (k : string) (v : V) : t V :=
  match d with
  | [] => [(k, v)]
  | (k', v') :: d' =>
      if String.eqb k k' then (k', v) :: d' else (k', v') :: set d' k v
  end.

(** The dictionary left by [del d[k]] when [k] is a key. *)
Fixpoint remove (d : t V) (k : string) : t V :=
  match d with
  | [] => []
  | (k', v') :: d' =>
      if String.eqb k k' then d' else (k', v') :: remove d' k
  end.

(** [d.keys()] *)
Definition keys (d : t V) : list string := map fst d.

(** [dict(pairs)] *)
Definition of_items (pairs : list (string * V)) : t V :=
  fold_left (fun d kv => set d (fst kv) (snd kv)) pairs [].

(** [d.update(other)] *)
Definition update (d other : t V) : t V :=
  fold_left (fun d kv => set d (fst kv) (snd kv)) other d.

(** [not d] is [True] exactly for the empty dictionary. *)
Definition truthy (d : t V) : bool :=
  match d with
  | [] => false
  | _ :: _ => true
  end.

End Ops.

End Dict.

(** ** JSON values *)

#[local] Set Warnings "-register-all".

Inductive json :=
| JNull
| JBool (b : bool)
| JNum (q : Q)
| JStr (s : string)
| JList (l : list json)
| JDict (d : list (string * json)).

(** ** The process state *)

(** A handle on an [HTTPServer] object (the local listener of a flow). *)
Definition http_server := nat.

(** A handle on a [Flow] object of [src.google_oauth_api]. *)
Definition flow_handle := nat.

(** The dictionary registered by [create_auth_url] under a state token
    (auth_service.py, lines 205-218), one field per key.  [create_auth_url] is
    the only place that builds one, and it always sets every key; the
    ["server_thread"] is never read again and is left out. *)
Module FlowData.

Record t := Make {
  flow : flow_handle;
  project_id : option string;
  user_session : option string;
  callback_port : Z;
  callback_url : string;
  server : option http_server;
  code : option string;
  completed : bool;
  created_at : Q;
  auto_project_detection : bool;
  get_all_projects : bool
}.

(** [flow_data["code"] = c] *)
Definition set_code (c : option string) (d : t) : t :=
  Make (flow d) (project_id d) (user_session d) (callback_port d)
    (callback_url d) (server d) c (completed d) (created_at d)
    (auto_project_detection d) (get_all_projects d).

(** [flow_data["completed"] = b] *)
Definition set_completed (b : bool) (d : t) : t :=
  Make (flow d) (project_id d) (user_session d) (callback_port d)
    (callback_url d) (server d) (code d) b (created_at d)
    (auto_project_detection d) (get_all_projects d).

End FlowData.

(** Effects that leave the process or destroy a flow record, in program
    order.  [ServerShutdown] and [ServerClose] are the calls
    [server.shutdown()] and [server.server_close()]; [FlowRemoved] marks the
    point at which a key leaves [auth_flows] ([del], or the re-assignment of
    the whole dictionary); the remaining ones are calls to collaborators. *)
Inductive event :=
| ServerShutdown (srv : http_server)
| ServerClose (srv : http_server)
| FlowRemoved (state : string)
| Sleep (seconds : Q)
| EnableRequiredApis (project : string).

(** A value of the credentials table: the dictionary with the keys
    ["credential"], ["state"] and ["stats"]. *)
Definition entry : Type := Dict.t json.

(** Modelled from the spec: [UnifiedCacheManager] of
    [src/storage/cache_manager.py], which is not among the sources.  Spec 3
    and 4.1: an in-memory mapping from key to value with a dirty flag; [get]
    returns the in-memory value or the default and never touches the store,
    [set] updates memory at once, marks the table dirty and reports success,
    [delete] removes from memory and marks dirty, [getAll] returns a snapshot
    of the full map. *)
Record UnifiedCacheManager := Cache {
  cache_data : gmap string entry;
  cache_dirty : bool
}.

(** The fields of [MySQLManager] that the credential operations use. *)
Record MySQLManager := Manager {
  _initialized : bool;
  _credentials_cache_manager : UnifiedCacheManager;
  _operation_count : nat;
  _operation_times : list Q
}.

Record world := World {
  clock : Q;                       (* what [time.time()] returns now *)
  sleeps : nat;                    (* [asyncio.sleep] calls completed so far *)
  log : list event;
  auth_flows : Dict.t FlowData.t;   (* [AuthService.auth_flows] *)
  storage : MySQLManager           (* the adapter behind [get_storage_adapter()] *)
}.

Definition set_auth_flows (f : Dict.t FlowData.t) (w : world) : world :=
  World (clock w) (sleeps w) (log w) f (storage w).

Definition set_storage (m : MySQLManager) (w : world) : world :=
  World (clock w) (sleeps w) (log w) (auth_flows w) m.

Definition set_cache (c : UnifiedCacheManager) (m : MySQLManager) : MySQLManager :=
  Manager (_initialized m) c (_operation_count m) (_operation_times m).

Definition emit (e : event) : Py.M world unit :=
  Py.modify (fun w => World (clock w) (sleeps w) (log w ++ [e])%list (auth_flows w) (storage w)).

(** [time.time()] *)
Definition time_time : Py.M world Q :=
  fun w => (Return (clock w), w).

Open Scope py_scope.

(** [x < y] on rationals, as a boolean. *)
Definition Qltb (x y : Q) : bool := negb (Qle_bool y x).

(** ** [src/storage/mysql_manager.py] *)

Module Storage.

Definition with_storage (f : MySQLManager -> MySQLManager) : Py.M world unit :=
  Py.modify (fun w => set_storage (f (storage w)) w).

(** *** The cache the manager delegates to *)

(** Modelled from the spec: [UnifiedCacheManager.get(key)], spec 4.1
    "returns the in-memory value or default; never touches the Store".  The
    value is [None] when the key is absent; callers supply their default. *)
Definition cache_get (key : string) : Py.M world (option entry) :=
  fun w => (Return (cache_data (_credentials_cache_manager (storage w)) !! key), w).

(** Modelled from the spec: [UnifiedCacheManager.set(key, value)], spec 4.1
    "updates memory immediately and marks the table dirty; returns success
    synchronously to the caller". *)
Definition cache_set (key : string) (value : entry) : Py.M world bool :=
  with_storage (fun m =>
    set_cache (Cache (<[key := value]> (cache_data (_credentials_cache_manager m))) true) m) ;;;
  Py.ret true.

(** Modelled from the spec: [UnifiedCacheManager.get_all()], spec 4.1
    "returns a snapshot copy of the full map". *)
Definition cache_get_all : Py.M world (gmap string entry) :=
  fun w => (Return (cache_data (_credentials_cache_manager (storage w))), w).

(** *** [MySQLManager] *)

Definition _ensure_initialized : Py.M world unit :=
  w <- Py.get_state ;;
  if _initialized (storage w) then Py.ret tt
  else Py.raise (Exn RuntimeError "MySQL manager not initialized").

Definition _get_default_state : Py.M world (Dict.t json) :=
  now <- time_time ;;
  Py.ret [("error_codes", JList []);
          ("disabled", JBool false);
          ("last_success", JNum now);
          ("user_email", JNull)].

Definition _get_default_stats : Dict.t json :=
  [("call_timestamps", JList [])].

Definition bump_operation_count : Py.M world unit :=
  with_storage (fun m =>
    Manager (_initialized m) (_credentials_cache_manager m)
            (S (_operation_count m)) (_operation_times m)).

(** [self._operation_times.append(x)] on a [deque(maxlen=5000)]: once full,
    the oldest sample is dropped. *)
Definition record_operation_time (x : Q) : Py.M world unit :=
  with_storage (fun m =>
    let times := (_operation_times m ++ [x])%list in
    Manager (_initialized m) (_credentials_cache_manager m) (_operation_count m)
            (skipn (length times - 5000) times)).

Definition store_credential (filename : string) (credential_data : Dict.t json)
  : Py.M world bool :=
  _ensure_initialized ;;;
  start_time <- time_time ;;
  Py.try_except
    (existing <- cache_get filename ;;
     let existing_data := default [] existing in
     default_state <- _get_default_state ;;
     let credential_entry : entry :=
       [("credential", JDict credential_data);
        ("state", Dict.get_default existing_data "state" (JDict default_state));
        ("stats", Dict.get_default existing_data "stats" (JDict _get_default_stats))] in
     success <- cache_set filename credential_entry ;;
     bump_operation_count ;;;
     finish <- time_time ;;
     record_operation_time (finish - start_time)%Q ;;;
     Py.ret success)
    (fun _ => Py.ret false).

Definition get_credential (filename : string) : Py.M world (option json) :=
  _ensure_initialized ;;;
  Py.try_except
    (credential_entry <- cache_get filename ;;
     bump_operation_count ;;;
     match credential_entry with
     | Some e =>
         if Dict.truthy e && Dict.contains e "credential"
         then match Dict.get e "credential" with
              | Some c => Py.ret (Some c)
              | None => Py.raise (Exn KeyError "'credential'")
              end
         else Py.ret None
     | None => Py.ret None
     end)
    (fun _ => Py.ret None).

(** [list(all_data.keys())]; the order of the keys is not modelled. *)
Definition list_credentials : Py.M world (list string) :=
  _ensure_initialized ;;;
  Py.try_except
    (all_data <- cache_get_all ;;
     Py.ret (elements (dom all_data)))
    (fun _ => Py.ret []).

(** [existing_data["state"].update(state_updates)] *)
Definition update_state_field (existing_data : entry) (state_updates : Dict.t json)
  : Py.M world entry :=
  match Dict.get existing_data "state" with
  | None => Py.raise (Exn KeyError "'state'")
  | Some (JDict st) =>
      Py.ret (Dict.set existing_data "state" (JDict (Dict.update st state_updates)))
  | Some _ => Py.raise (Exn AttributeError "object has no attribute 'update'")
  end.

Definition update_credential_state (filename : string) (state_updates : Dict.t json)
  : Py.M world bool :=
  _ensure_initialized ;;;
  Py.try_except
    (existing <- cache_get filename ;;
     let existing_data := default [] existing in
     existing_data <-
       (if negb (Dict.truthy existing_data)
        then default_state <- _get_default_state ;;
             Py.ret ([("credential", JDict []);
                      ("state", JDict default_state);
                      ("stats", JDict _get_default_stats)] : entry)
        else Py.ret existing_data) ;;
     updated <- update_state_field existing_data state_updates ;;
     cache_set filename updated)
    (fun _ => Py.ret false).

Definition get_all_credential_states : Py.M world (gmap string json) :=
  _ensure_initialized ;;;
  Py.try_except
    (all_data <- cache_get_all ;;
     default_state <- _get_default_state ;;
     let states := (fun data : entry =>
                      Dict.get_default data "state" (JDict default_state)) <$> all_data in
     Py.ret states)
    (fun _ => Py.ret ∅).

(** Modelled from the spec: [UnifiedCacheManager.delete(key)], spec 4.1
    "removes from memory, marks dirty".  The spec does not say which flag the
    call returns: [reports] gives it, from whether the key was present. *)
Definition cache_delete (reports : bool -> bool) (key : string) : Py.M world bool :=
  w <- Py.get_state ;;
  let present :=
    bool_decide (is_Some (cache_data (_credentials_cache_manager (storage w)) !! key)) in
  with_storage (fun m =>
    set_cache (Cache (delete key (cache_data (_credentials_cache_manager m))) true) m) ;;;
  Py.ret (reports present).

Definition delete_credential (reports : bool -> bool) (filename : string)
  : Py.M world bool :=
  _ensure_initialized ;;;
  Py.try_except (cache_delete reports filename) (fun _ => Py.ret false).

Definition get_credential_state (filename : string) : Py.M world json :=
  _ensure_initialized ;;;
  Py.try_except
    (credential_entry <- cache_get filename ;;
     match credential_entry with
     | Some e =>
         if Dict.truthy e && Dict.contains e "state"
         then match Dict.get e "state" with
              | Some st => Py.ret st
              | None => Py.raise (Exn KeyError "'state'")
              end
         else default_state <- _get_default_state ;; Py.ret (JDict default_state)
     | None => default_state <- _get_default_state ;; Py.ret (JDict default_state)
     end)
    (fun _ => default_state <- _get_default_state ;; Py.ret (JDict default_state)).

(** [existing_data["stats"].update(stats_updates)] *)
Definition update_stats_field (existing_data : entry) (stats_updates : Dict.t json)
  : Py.M world entry :=
  match Dict.get existing_data "stats" with
  | None => Py.raise (Exn KeyError "'stats'")
  | Some (JDict st) =>
      Py.ret (Dict.set existing_data "stats" (JDict (Dict.update st stats_updates)))
  | Some _ => Py.raise (Exn AttributeError "object has no attribute 'update'")
  end.

Definition update_usage_stats (filename : string) (stats_updates : Dict.t json)
  : Py.M world bool :=
  _ensure_initialized ;;;
  Py.try_except
    (existing <- cache_get filename ;;
     let existing_data := default [] existing in
     existing_data <-
       (if negb (Dict.truthy existing_data)
        then default_state <- _get_default_state ;;
             Py.ret ([("credential", JDict []);
                      ("state", JDict default_state);
                      ("stats", JDict _get_default_stats)] : entry)
        else Py.ret existing_data) ;;
     updated <- update_stats_field existing_data stats_updates ;;
     cache_set filename updated)
    (fun _ => Py.ret false).

Definition get_usage_stats (filename : string) : Py.M world json :=
  _ensure_initialized ;;;
  Py.try_except
    (credential_entry <- cache_get filename ;;
     match credential_entry with
     | Some e =>
         if Dict.truthy e && Dict.contains e "stats"
         then match Dict.get e "stats" with
              | Some st => Py.ret st
              | None => Py.raise (Exn KeyError "'stats'")
              end
         else Py.ret (JDict _get_default_stats)
     | None => Py.ret (JDict _get_default_stats)
     end)
    (fun _ => Py.ret (JDict _get_default_stats)).

Definition get_all_usage_stats : Py.M world (gmap string json) :=
  _ensure_initialized ;;;
  Py.try_except
    (all_data <- cache_get_all ;;
     let stats := (fun data : entry =>
                     Dict.get_default data "stats" (JDict _get_default_stats)) <$> all_data in
     Py.ret stats)
    (fun _ => Py.ret ∅).

End Storage.

(** ** [src/services/auth_service.py] *)

Module Auth.

Definition SCOPES : list string :=
  ["https://www.googleapis.com/auth/cloud-platform";
   "https://www.googleapis.com/auth/userinfo.email";
   "https://www.googleapis.com/auth/userinfo.profile"].

Definition MAX_AUTH_FLOWS : nat := 20.

(** *** Collaborators *)

(** A [datetime]: its ISO text without offset, and the text of its UTC
    offset when it is timezone-aware. *)
Record datetime := DateTime { dt_iso : string; dt_tzinfo : option string }.

Definition isoformat (d : datetime) : string :=
  dt_iso d ++ default "" (dt_tzinfo d).

(** [Credentials] of [src.google_oauth_api], as far as the service reads it. *)
Record Credentials := MkCredentials {
  access_token : string;
  refresh_token : option string;
  expires_at : option datetime
}.

(** A project dictionary returned by [get_user_projects]; the service only
    reads its ["projectId"]. *)
Definition project : Type := Dict.t string.

(** The collaborators of the service: [src.google_oauth_api] and [config]
    (neither is among the sources), the listener objects of [http.server],
    the browser that may follow the redirect, and the scheduler.  Each
    function gives the outcome of the corresponding call. *)
Record env := Env {
  exchange_code : flow_handle -> option string -> Py.result Credentials;
  get_user_projects : Credentials -> Py.result (list project);
  select_default_project : list project -> Py.result (option string);
  enable_required_apis : Credentials -> string -> Py.result unit;
  get_oauth_client_id : Py.result string;
  get_oauth_client_secret : Py.result string;
  import_oauthlib : Py.result unit;
  server_shutdown : http_server -> Py.result unit;
  server_server_close : http_server -> Py.result unit;
  (** the redirect request, if the browser ever sends it: the time at which
      the listener thread handles it, and its [code] and [state] query
      parameters *)
  redirect : option (Q * option string * option string);
  (** by how much the [n]-th [asyncio.sleep] oversleeps *)
  sleep_lag : nat -> Q
}.

(** The dictionaries [complete_auth_flow] returns. *)
Record creds_summary := CredsSummary {
  cs_token : string;
  cs_project_id : string;
  cs_expires_at : option string
}.

Inductive response :=
(** [{"success": False, "error": error}] *)
| Failure (error : string)
(** [{"success": False, "error": error, "requires_project_selection": True,
      "available_projects": available_projects}] *)
| SelectionRequired (error : string) (available_projects : list project)
(** [{"success": True, "credentials": credentials, "file_path": file_path}] *)
| Success (credentials : creds_summary) (file_path : string).

Definition success (r : response) : bool :=
  match r with
  | Success _ _ => true
  | _ => false
  end.

(** [r.get("requires_project_selection")] *)
Definition requires_project_selection (r : response) : bool :=
  match r with
  | SelectionRequired _ _ => true
  | _ => false
  end.

(** *** [AuthService] *)

Definition _shutdown_flow_server (e : env) (state : string) : Py.M world unit :=
  w <- Py.get_state ;;
  match Dict.get (auth_flows w) state with
  | Some flow_data =>
      match FlowData.server flow_data with
      | Some srv =>
          Py.try_except
            (emit (ServerShutdown srv) ;;;
             Py.lift (server_shutdown e srv) ;;;
             emit (ServerClose srv) ;;;
             Py.lift (server_server_close e srv))
            (fun _ => Py.ret tt)
      | None => Py.ret tt
      end
  | None => Py.ret tt
  end.

(** [del self.auth_flows[state]] *)
Definition del_auth_flow (state : string) : Py.M world unit :=
  w <- Py.get_state ;;
  if Dict.contains (auth_flows w) state
  then emit (FlowRemoved state) ;;;
       Py.modify (fun w => set_auth_flows (Dict.remove (auth_flows w) state) w)
  else Py.raise (Exn KeyError state).

(** [self.auth_flows = new_auth_flows]: every key that is not in the new
    dictionary leaves the map here. *)
Definition assign_auth_flows (new_auth_flows : Dict.t FlowData.t) : Py.M world unit :=
  w <- Py.get_state ;;
  Py.for_each
    (List.filter (fun s => negb (Dict.contains new_auth_flows s)) (Dict.keys (auth_flows w)))
    (fun s => emit (FlowRemoved s)) ;;;
  Py.modify (set_auth_flows new_auth_flows).

(** [sorted(items, key=lambda x: x[1].get("created_at", 0), reverse=True)]:
    Python's sort is stable, also with [reverse=True], so items with equal
    keys keep their relative order. *)
Fixpoint insert_by_created_at (x : string * FlowData.t) (l : list (string * FlowData.t))
  : list (string * FlowData.t) :=
  match l with
  | [] => [x]
  | y :: l' =>
      if Qltb (FlowData.created_at (snd x)) (FlowData.created_at (snd y))
      then y :: insert_by_created_at x l'
      else x :: y :: l'
  end.

Definition sorted_newest_first (items : list (string * FlowData.t))
  : list (string * FlowData.t) :=
  fold_right insert_by_created_at [] items.

(** The states selected by
    [[state for state, data in items if now - data.get("created_at", 0) > 1800]] *)
Definition expired_states (now : Q) (flows : Dict.t FlowData.t) : list string :=
  map fst (List.filter (fun sd => Qltb 1800 (now - FlowData.created_at (snd sd))) flows).

Definition cleanup_auth_flows (e : env) : Py.M world unit :=
  now <- time_time ;;
  w <- Py.get_state ;;
  let expired := expired_states now (auth_flows w) in
  Py.for_each expired (fun state =>
    _shutdown_flow_server e state ;;;
    del_auth_flow state) ;;;
  w <- Py.get_state ;;
  if (10 <? length (auth_flows w))%nat then
    let sorted_flows := sorted_newest_first (auth_flows w) in
    let new_auth_flows := Dict.of_items (take 10 sorted_flows) in
    Py.for_each (auth_flows w) (fun '(state, flow_data) =>
      if negb (Dict.contains new_auth_flows state)
      then _shutdown_flow_server e state
      else Py.ret tt) ;;;
    assign_auth_flows new_auth_flows
  else Py.ret tt.

Definition handle_callback (state code : string) : Py.M world bool :=
  w <- Py.get_state ;;
  match Dict.get (auth_flows w) state with
  | Some flow_data =>
      Py.modify (set_auth_flows
        (Dict.set (auth_flows w) state
           (FlowData.set_completed true (FlowData.set_code (Some code) flow_data)))) ;;;
      Py.ret true
  | None => Py.ret false
  end.

(** [AuthCallbackHandler.do_GET], on the query parameters of the request;
    the value is the status of the reply.  The service instance exists: the
    module creates it when it is imported (line 405). *)
Definition do_GET (code state : option string) : Py.M world Z :=
  match code, state with
  | Some c, Some s =>
      if Py.truthy_str c && Py.truthy_str s
      then ok <- handle_callback s c ;;
           Py.ret (if ok then 200%Z else 400%Z)
      else Py.ret 400%Z
  | _, _ => Py.ret 400%Z
  end.

(** One [for s, data in self.auth_flows.items()] loop of [get_auth_flow]:
    [inl] is the early [return s, data], [inr] the values of the local
    variables [state] and [flow_data] after the loop. *)
Fixpoint scan_flows (selected : FlowData.t -> bool) (user_session : option string)
    (items : list (string * FlowData.t))
    (found : option string * option FlowData.t)
  : (string * FlowData.t) + (option string * option FlowData.t) :=
  match items with
  | [] => inr found
  | (s, data) :: rest =>
      if selected data then
        if Py.truthy user_session
           && bool_decide (FlowData.user_session data = user_session)
        then inl (s, data)
        else if negb (Py.truthy (fst found))
             then scan_flows selected user_session rest (Some s, Some data)
             else scan_flows selected user_session rest found
      else scan_flows selected user_session rest found
  end.

Definition get_auth_flow (project_id user_session : option string)
  : Py.M world (option string * option FlowData.t) :=
  w <- Py.get_state ;;
  let items := auth_flows w in
  let first :=
    if Py.truthy project_id
    then scan_flows (fun data => bool_decide (FlowData.project_id data = project_id))
           user_session items (None, None)
    else inr (None, None) in
  match first with
  | inl (s, data) => Py.ret (Some s, Some data)
  | inr (state, flow_data) =>
      if negb (Py.truthy state) then
        match scan_flows FlowData.auto_project_detection user_session items
                (state, flow_data) with
        | inl (s, data) => Py.ret (Some s, Some data)
        | inr found => Py.ret found
        end
      else Py.ret (state, flow_data)
  end.

(** [await asyncio.sleep(seconds)]: the clock moves on by [seconds] and by
    what the scheduler adds; if the redirect request falls into that interval,
    the listener thread handles it meanwhile. *)
Definition asyncio_sleep (e : env) (seconds : Q) : Py.M world unit :=
  w <- Py.get_state ;;
  let woken := (clock w + seconds + sleep_lag e (sleeps w))%Q in
  emit (Sleep seconds) ;;;
  Py.modify (fun w => World woken (S (sleeps w)) (log w) (auth_flows w) (storage w)) ;;;
  match redirect e with
  | Some (arrival, code, state) =>
      if Qltb (clock w) arrival && Qle_bool arrival woken
      then do_GET code state ;;; Py.ret tt
      else Py.ret tt
  | None => Py.ret tt
  end.

(** [flow_data.get(...)] inside [complete_auth_flow]: [flow_data] is a
    reference to the dictionary stored in [auth_flows] under [state], the
    object the listener thread writes to, so every read sees the stored
    record. *)
Definition read_flow (state : string) (flow_data : FlowData.t) : Py.M world FlowData.t :=
  w <- Py.get_state ;;
  Py.ret (Dict.get_default (auth_flows w) state flow_data).

(** Lines 315-318:
    [while time.time() - start_time < 300:
         if flow_data.get("code"): break
         await asyncio.sleep(0.5)] *)
Fixpoint wait_for_code (e : env) (fuel : nat) (state : string) (flow_data : FlowData.t)
    (start_time : Q) : Py.M world unit :=
  match fuel with
  | O => fun w => (OutOfFuel, w)
  | S fuel' =>
      now <- time_time ;;
      if Qltb (now - start_time) 300 then
        current <- read_flow state flow_data ;;
        if Py.truthy (FlowData.code current) then Py.ret tt
        else asyncio_sleep e (1 # 2) ;;;
             wait_for_code e fuel' state flow_data start_time
      else Py.ret tt
  end.

(** [int(x)] on a float: truncation towards zero. *)
Definition py_int (x : Q) : Z := Z.quot (Qnum x) (Z.pos (Qden x)).

Definition save_credentials (e : env) (creds : Credentials) (project_id : string)
  : Py.M world string :=
  now <- time_time ;;
  let timestamp := py_int now in
  let filename := project_id ++ "-" ++ pretty timestamp ++ ".json" in
  client_id <- Py.lift (get_oauth_client_id e) ;;
  client_secret <- Py.lift (get_oauth_client_secret e) ;;
  let creds_data : Dict.t json :=
    [("client_id", JStr client_id);
     ("client_secret", JStr client_secret);
     ("token", JStr (access_token creds));
     ("refresh_token", from_option JStr JNull (refresh_token creds));
     ("scopes", JList (map JStr SCOPES));
     ("token_uri", JStr "https://oauth2.googleapis.com/token");
     ("project_id", JStr project_id)] in
  let creds_data :=
    match expires_at creds with
    | Some expires =>
        let expiry_utc :=
          match dt_tzinfo expires with
          | None => DateTime (dt_iso expires) (Some "+00:00")
          | Some _ => expires
          end in
        Dict.set creds_data "expiry" (JStr (isoformat expiry_utc))
    | None => creds_data
    end in
  success <- Storage.store_credential filename creds_data ;;
  if success : bool then
    Py.try_except
      (now <- time_time ;;
       let default_state : Dict.t json :=
         [("error_codes", JList []);
          ("disabled", JBool false);
          ("last_success", JNum now);
          ("user_email", JNull)] in
       Storage.update_credential_state filename default_state ;;;
       Py.ret tt)
      (fun _ => Py.ret tt) ;;;
    Py.ret filename
  else Py.raise (Exn OtherException ("保存凭证失败: " ++ filename)).

(** Lines 335-350, the automatic detection of the project: [inl] is a
    [return] of the method, [inr] the value of [project_id] afterwards. *)
Definition detect_project (e : env) (credentials : Credentials) (flow_data : FlowData.t)
    (project_id : option string) : Py.M world (response + option string) :=
  if FlowData.auto_project_detection flow_data && negb (Py.truthy project_id) then
    user_projects <- Py.lift (get_user_projects e credentials) ;;
    match user_projects with
    | [] => Py.ret (inl (Failure "No projects found"))
    | [only] => Py.ret (inr (Dict.get only "projectId"))
    | _ =>
        project_id <- Py.lift (select_default_project e user_projects) ;;
        if negb (Py.truthy project_id)
        then Py.ret (inl (SelectionRequired "Multiple projects found" user_projects))
        else Py.ret (inr project_id)
    end
  else Py.ret (inr project_id).

(** Lines 352-373: what follows the detection of the project. *)
Definition finish_flow (e : env) (state : string) (credentials : Credentials)
    (project_id : option string) : Py.M world response :=
  match project_id with
  | Some project_id =>
      if Py.truthy_str project_id then
        emit (EnableRequiredApis project_id) ;;;
        Py.lift (enable_required_apis e credentials project_id) ;;;
        saved_filename <- save_credentials e credentials project_id ;;
        let creds_data :=
          CredsSummary (access_token credentials) project_id
            (isoformat <$> expires_at credentials) in
        _shutdown_flow_server e state ;;;
        del_auth_flow state ;;;
        Py.ret (Success creds_data saved_filename)
      else Py.ret (Failure "Missing Project ID")
  | None => Py.ret (Failure "Missing Project ID")
  end.

(** Lines 323-377: from the arrival of the code on. *)
Definition exchange_and_finish (e : env) (state : string) (flow_data : FlowData.t)
    (project_id : option string) : Py.M world response :=
  current <- read_flow state flow_data ;;
  let auth_code := FlowData.code current in
  let flow := FlowData.flow current in
  Py.lift (import_oauthlib e) ;;;
  Py.try_except
    (credentials <- Py.lift (exchange_code e flow auth_code) ;;
     detected <- detect_project e credentials current project_id ;;
     match detected with
     | inl result => Py.ret result
     | inr project_id => finish_flow e state credentials project_id
     end)
    (fun ex => Py.ret (Failure (exn_str ex))).

(** Lines 311-321: [true] when the wait ended without a code. *)
Definition wait_for_callback (e : env) (fuel : nat) (state : string)
    (flow_data : FlowData.t) : Py.M world bool :=
  current <- read_flow state flow_data ;;
  if negb (Py.truthy (FlowData.code current)) then
    start_time <- time_time ;;
    wait_for_code e fuel state flow_data start_time ;;;
    current <- read_flow state flow_data ;;
    Py.ret (negb (Py.truthy (FlowData.code current)))
  else Py.ret false.

Definition complete_auth_flow (e : env) (fuel : nat) (project_id user_session : option string)
  : Py.M world response :=
  Py.try_except
    (found <- get_auth_flow project_id user_session ;;
     match found with
     | (Some state, Some flow_data) =>
         if negb (Py.truthy_str state)
         then Py.ret (Failure "未找到对应的认证流程")
         else
           let recorded :=
             negb (Py.truthy project_id)
             && negb (FlowData.auto_project_detection flow_data) in
           let project_id :=
             if recorded then FlowData.project_id flow_data else project_id in
           if recorded && negb (Py.truthy project_id)
           then Py.ret (Failure "Missing Project ID")
           else
             timed_out <- wait_for_callback e fuel state flow_data ;;
             if timed_out : bool
             then Py.ret (Failure "Callback timeout")
             else exchange_and_finish e state flow_data project_id
     | _ => Py.ret (Failure "未找到对应的认证流程")
     end)
    (fun ex => Py.ret (Failure (exn_str ex))).

(** *** Starting a flow *)

(** What [create_auth_url] needs from outside: the configured port, which
    ports can be bound, the objects it creates ([HTTPServer], its thread,
    [Flow]) and the random part of the state token. *)
Record start_env := StartEnv {
  get_callback_port : Py.result Z;
  (** lines 130-131 in the turn of the loop for a port: [socket.socket(..)]
      and [setsockopt(..)] *)
  open_socket : Z -> Py.result unit;
  (** whether the system binds a socket to a port of 0..65535 *)
  port_free : Z -> bool;
  os_assigned_port : Py.result Z;
  new_http_server : Z -> Py.result http_server;
  thread_start : http_server -> Py.result unit;
  new_flow : string -> string -> string -> flow_handle;
  uuid4 : string;
  get_auth_url : flow_handle -> string -> Py.result string
}.

(** The dictionaries [create_auth_url] returns. *)
Inductive start_response :=
(** [{"success": False, "error": error}] *)
| StartFailure (error : string)
(** [{"auth_url": .., "state": .., "callback_port": .., "success": True,
      "auto_project_detection": .., "detected_project_id": ..}] *)
| Started (auth_url state : string) (callback_port : Z)
    (auto_detection : bool) (detected_project_id : option string).

(** [s.bind(("0.0.0.0", port))] looks at the port before it asks the
    system: a port outside 0..65535 raises [OverflowError], which is not an
    [OSError]. *)
Definition valid_port (port : Z) : bool := (0 <=? port)%Z && (port <=? 65535)%Z.

(** Lines 129-135, one turn of the loop: [Some port] is the [return port],
    [None] the [continue] after an [OSError]; any other exception leaves the
    loop and the method. *)
Definition try_port (s : start_env) (port : Z) : Py.M world (option Z) :=
  Py.try_except
    (Py.lift (open_socket s port) ;;;
     if valid_port port then
       if port_free s port then Py.ret (Some port)
       else Py.raise (Exn OSError "[Errno 98] Address already in use")
     else Py.raise (Exn OverflowError "bind(): port must be 0-65535."))
    (fun ex =>
       match exn_cls ex with
       | OSError => Py.ret None
       | _ => Py.raise ex
       end).

(** [for port in ports:] with that body; [None] when the loop ends without
    a [return]. *)
Fixpoint scan_ports (s : start_env) (ports : list Z) : Py.M world (option Z) :=
  match ports with
  | [] => Py.ret None
  | port :: rest =>
      found <- try_port s port ;;
      match found with
      | Some port => Py.ret (Some port)
      | None => scan_ports s rest
      end
  end.

Definition find_available_port (s : start_env) (start_port : option Z) : Py.M world Z :=
  start_port <-
    match start_port with
    | None => Py.lift (get_callback_port s)
    | Some port => Py.ret port
    end ;;
  found <- scan_ports s (map (fun i => (start_port + Z.of_nat i)%Z) (seq 0 100)) ;;
  match found with
  | Some port => Py.ret port
  | None =>
      Py.try_except (Py.lift (os_assigned_port s))
        (fun ex =>
           match exn_cls ex with
           | OSError => Py.raise (Exn RuntimeError "无法找到可用端口")
           | _ => Py.raise ex
           end)
  end.

Definition create_callback_server (s : start_env) (port : Z) : Py.M world http_server :=
  Py.try_except (Py.lift (new_http_server s port)) (fun ex => Py.raise ex).

Definition create_auth_url (e : env) (s : start_env) (project_id user_session : option string)
    (get_all_projects : bool) : Py.M world start_response :=
  Py.try_except
    (callback_port <- find_available_port s None ;;
     let callback_url := "http://localhost:" ++ pretty callback_port in
     started <-
       Py.try_except
         (callback_server <- create_callback_server s callback_port ;;
          Py.lift (thread_start s callback_server) ;;;
          Py.ret (inr callback_server))
         (fun ex => Py.ret (inl (StartFailure (exn_str ex)))) ;;
     match started with
     | inl failure => Py.ret failure
     | inr callback_server =>
         client_id <- Py.lift (get_oauth_client_id e) ;;
         client_secret <- Py.lift (get_oauth_client_secret e) ;;
         let flow := new_flow s client_id client_secret callback_url in
         let state :=
           match user_session with
           | Some session =>
               if Py.truthy_str session then session ++ "_" ++ uuid4 s else uuid4 s
           | None => uuid4 s
           end in
         auth_url <- Py.lift (get_auth_url s flow state) ;;
         w <- Py.get_state ;;
         (if (MAX_AUTH_FLOWS <=? length (auth_flows w))%nat
          then cleanup_auth_flows e
          else Py.ret tt) ;;;
         now <- time_time ;;
         Py.modify (fun w =>
           set_auth_flows
             (Dict.set (auth_flows w) state
                (FlowData.Make flow project_id user_session callback_port callback_url
                   (Some callback_server) None false now
                   (bool_decide (project_id = None)) get_all_projects))
             w) ;;;
         Py.ret (Started auth_url state callback_port
                   (bool_decide (project_id = None)) project_id)
     end)
    (fun ex => Py.ret (StartFailure (exn_str ex))).

End Auth.

(** ** [MySQLCacheBackend.load_data] (mysql_manager.py, lines 32-54) *)

Module Backend.

(** What the driver hands back for the [data] column. *)
Inductive column :=
| ColStr (text : string)
| ColDict (d : Dict.t json)
| ColOther (type_name : string).

(** The database as seen by one [load_data] call: the outcome of each call
    made on the pool, the connection and the cursor, and of [json.loads].
    A row is a tuple of columns, [None] standing for SQL [NULL]; [fetchone]
    gives [None] when no row matches. *)
Record store := Store {
  acquire : Py.result unit;
  cursor : Py.result unit;
  execute : Py.result unit;
  fetchone : Py.result (option (list (option column)));
  json_loads : string -> Py.result json
}.

Definition load_data (db : store) : Py.M unit json :=
  Py.try_except
    (Py.lift (acquire db) ;;;
     Py.lift (cursor db) ;;;
     Py.lift (execute db) ;;;
     row <- Py.lift (fetchone db) ;;
     match row with
     | Some (Some data :: _) =>
         match data with
         | ColStr text => Py.lift (json_loads db text)
         | ColDict d => Py.ret (JDict d)
         | ColOther _ => Py.ret (JDict [])
         end
     | _ => Py.ret (JDict [])
     end)
    (fun _ => Py.ret (JDict [])).

(** The database as seen by one [write_data] call: the outcome of
    [json.dumps(data, default=str)] and of each call made on the pool, the
    connection and the cursor; [write_execute] is given the serialized
    document.  [write_acquire] and [write_cursor] are the entries into the
    two [async with] blocks ([self._pool.acquire()] and [conn.cursor()], each
    with its [__aenter__]); [release] and [cursor_close] are their
    [__aexit__], given the exception with which the block is left, if any. *)
Record write_store := WriteStore {
  write_acquire : Py.result unit;
  write_cursor : Py.result unit;
  json_dumps : json -> Py.result string;
  write_execute : string -> Py.result unit;
  commit : Py.result unit;
  cursor_close : option Py.exn -> Py.result bool;
  release : option Py.exn -> Py.result bool
}.

(** The value is [Some True], [Some False], or [None] when the method ends
    without a [return] (Python's [None]): that takes a context manager that
    suppresses an exception, after which the [try] statement and the method
    end. *)
Definition write_data (db : write_store) (data : json) : Py.M unit (option bool) :=
  Py.try_except
    (Py.with_ (Py.lift (write_acquire db)) (fun exc => Py.lift (release db exc))
       (fun _ =>
          Py.with_ (Py.lift (write_cursor db)) (fun exc => Py.lift (cursor_close db exc))
            (fun _ =>
               json_data <- Py.lift (json_dumps db data) ;;
               Py.lift (write_execute db json_data) ;;;
               Py.lift (commit db) ;;;
               Py.ret (Some true))))
    (fun _ => Py.ret (Some false)).

End Backend.

(** ** [UserManager.login] (user_manager.py) and [POST /auth/login] (routers/auth.py) *)

Module Login.

(** A row of the [users] table. *)
Record user_row := UserRow {
  u_id : string;
  u_username : string;
  u_password_hash : string;
  u_role : string;
  u_api_key : string;
  u_disabled : bool
}.

(** The database of the user manager, the audit log, and the clock. *)
Record state := State {
  users : list user_row;
  tokens : list (string * string * Q);
  audit : list (string * string);
  now : Q
}.

(** What is outside the code: the hash function, the random token, and
    whether a statement fails in the database. *)
Record env := Env {
  sha256_hex : string -> string;
  token_urlsafe : string;
  select_fails : option Py.exn;
  insert_fails : option Py.exn
}.

Definition _hash_password (e : env) (password : string) : string :=
  sha256_hex e (password ++ "gcli_static_salt").

(** [self._execute("SELECT id, role, api_key, disabled FROM users WHERE
    username=? AND password_hash=?", ..., fetch_one=True)] *)
Definition select_user (e : env) (username pwd_hash : string)
  : Py.M state (option user_row) :=
  match select_fails e with
  | Some ex => Py.raise ex
  | None =>
      st <- Py.get_state ;;
      Py.ret (find (fun u => String.eqb (u_username u) username
                             && String.eqb (u_password_hash u) pwd_hash)
                (users st))
  end.

(** [self._execute("INSERT INTO tokens (token, user_id, expires_at) VALUES
    (?, ?, ?)", ...)] *)
Definition insert_token (e : env) (token user_id : string) (expires_at : Q)
  : Py.M state unit :=
  match insert_fails e with
  | Some ex => Py.raise ex
  | None =>
      Py.modify (fun st =>
        State (users st) (tokens st ++ [(token, user_id, expires_at)])%list
              (audit st) (now st))
  end.

(** [UserManager.login]: [None], or the dictionary it returns. *)
Definition login (e : env) (username password : string)
  : Py.M state (option (Dict.t json)) :=
  let pwd_hash := _hash_password e password in
  row <- select_user e username pwd_hash ;;
  match row with
  | Some row =>
      let user_id := u_id row in
      let disabled := u_disabled row in
      if disabled then Py.ret None
      else
        let token := token_urlsafe e in
        st <- Py.get_state ;;
        let expires_at := (now st + 30 * 24 * 3600)%Q in
        insert_token e token user_id expires_at ;;;
        Py.ret (Some [("token", JStr token);
                      ("user_id", JStr user_id);
                      ("role", JStr (u_role row));
                      ("api_key", JStr (u_api_key row))])
  | None => Py.ret None
  end.

(** [a, b, c = value] for a value that is [None] or a dictionary: [None] is
    not iterable; a dictionary iterates over its keys, and there must be
    exactly three of them. *)
Definition unpack3 (value : option (Dict.t json)) : Py.result (string * string * string) :=
  match value with
  | None => Error (Exn TypeError "cannot unpack non-iterable NoneType object")
  | Some d =>
      match Dict.keys d with
      | [a; b; c] => Ok (a, b, c)
      | _ :: _ :: _ :: _ :: _ =>
          Error (Exn ValueError "too many values to unpack (expected 3)")
      | _ => Error (Exn ValueError "not enough values to unpack (expected 3)")
      end
  end.

Definition log_event (event_type user : string) : Py.M state unit :=
  Py.modify (fun st =>
    State (users st) (tokens st) (audit st ++ [(event_type, user)])%list (now st)).

(** The body of the reply [{"token": token, "is_admin": is_admin,
    "user_id": user_id}]. *)
Record token_response := TokenResponse {
  tr_token : string;
  tr_is_admin : string;
  tr_user_id : string
}.

(** The handler of [POST /auth/login]. *)
Definition login_route (e : env) (username password : string)
  : Py.M state token_response :=
  result <- login e username password ;;
  unpacked <- Py.lift (unpack3 result) ;;
  let '(token, is_admin, user_id) := unpacked in
  if Py.truthy_str token then
    log_event "login_success" user_id ;;;
    Py.ret (TokenResponse token is_admin user_id)
  else
    log_event "login_failed" "unknown" ;;;
    Py.raise (Exn (HTTPException 401) "用户名或密码错误").

End Login.

(** ** [src/utils.py] *)

Module Utils.

(** [s[n:]] *)
Fixpoint drop_chars (n : nat) (s : string) : string :=
  match n, s with
  | O, _ => s
  | S n', String _ s' => drop_chars n' s'
  | S _, EmptyString => EmptyString
  end.

(** [f"u_{user_id}_"] *)
Definition user_prefix (user_id : string) : string := "u_" ++ user_id ++ "_".

Definition get_user_filename (user_id filename : string) : string :=
  let prefix := user_prefix user_id in
  if String.prefix prefix filename then filename
  else prefix ++ filename.

Definition strip_user_prefix (user_id filename : string) : string :=
  let prefix := user_prefix user_id in
  if String.prefix prefix filename then drop_chars (String.length prefix) filename
  else filename.

End Utils.

(** ** The other methods of [UserManager] (user_manager.py) and the
    dependencies of the routes (dependencies.py)

    The tables are those of [Login.state]; a statement is modelled by the
    rows it selects, or by the table it leaves.  Text is compared as the
    default backend, SQLite, compares it: exactly.  The module [Collated]
    below has the methods that read or delete by token or by user id for
    either backend, with the comparison of the database as a parameter. *)

Module Users.

(** What [Login.env] gives, and for the statements [login] does not use: the
    random identifiers of [register], and whether a [DELETE] or an [UPDATE]
    fails in the database.  A [SELECT] fails as [Login.select_fails] says, an
    [INSERT] as [Login.insert_fails] says. *)
Record env := Env {
  login_env : Login.env;
  token_hex : string;                 (* [secrets.token_hex(8)] *)
  api_key_token : string;             (* [secrets.token_urlsafe(24)] *)
  delete_fails : option Py.exn;
  update_fails : option Py.exn
}.

(** [self._execute(query, params, fetch_one=True)] for a [SELECT] whose rows
    in the state [st] are [rows st]: the first row, or [None]. *)
Definition fetch_one {A} (e : env) (rows : Login.state -> list A)
  : Py.M Login.state (option A) :=
  match Login.select_fails (login_env e) with
  | Some ex => Py.raise ex
  | None => st <- Py.get_state ;; Py.ret (head (rows st))
  end.

(** [self._execute(query, params)] for a [DELETE] that leaves the tables as
    [f] says. *)
Definition execute_delete (e : env) (f : Login.state -> Login.state)
  : Py.M Login.state unit :=
  match delete_fails e with
  | Some ex => Py.raise ex
  | None => Py.modify f
  end.

(** [self._execute(query, params)] for an [UPDATE]. *)
Definition execute_update (e : env) (f : Login.state -> Login.state)
  : Py.M Login.state unit :=
  match update_fails e with
  | Some ex => Py.raise ex
  | None => Py.modify f
  end.

Definition set_users (us : list Login.user_row) (st : Login.state) : Login.state :=
  Login.State us (Login.tokens st) (Login.audit st) (Login.now st).

Definition set_tokens (ts : list (string * string * Q)) (st : Login.state) : Login.state :=
  Login.State (Login.users st) ts (Login.audit st) (Login.now st).

(** The rows of [SELECT t.user_id, t.expires_at, u.disabled FROM tokens t
    JOIN users u ON t.user_id = u.id WHERE t.token=?] on SQLite, where [=]
    on text is exact ([Collated.token_rows] has the statement for either
    backend).  [tokens.token] and [users.id] are primary keys, so a database
    holds at most one such row. *)
Definition token_rows (token : string) (st : Login.state) : list (string * Q * bool) :=
  flat_map
    (fun t : string * string * Q =>
       let '(tok, user_id, expires_at) := t in
       if String.eqb tok token
       then map (fun u => (user_id, expires_at, Login.u_disabled u))
              (List.filter (fun u => String.eqb (Login.u_id u) user_id) (Login.users st))
       else [])
    (Login.tokens st).

(** [DELETE FROM tokens WHERE token=?] on SQLite ([Collated.delete_token]
    has it for either backend). *)
Definition delete_token (e : env) (token : string) : Py.M Login.state unit :=
  execute_delete e (fun st =>
    set_tokens (List.filter (fun t => negb (String.eqb (fst (fst t)) token)) (Login.tokens st))
      st).

Definition verify_token (e : env) (token : string) : Py.M Login.state (option string) :=
  if negb (Py.truthy_str token) then Py.ret None
  else
    row <- fetch_one e (token_rows token) ;;
    match row with
    | Some (user_id, expires_at, disabled) =>
        if disabled : bool then Py.ret None
        else
          st <- Py.get_state ;;
          if Qltb (Login.now st) expires_at then Py.ret (Some user_id)
          else delete_token e token ;;; Py.ret None
    | None => Py.ret None
    end.

Definition logout (e : env) (token : string) : Py.M Login.state unit :=
  delete_token e token.

(** The rows of [SELECT ... FROM users WHERE id=?] *)
Definition users_by_id (user_id : string) (st : Login.state) : list Login.user_row :=
  List.filter (fun u => String.eqb (Login.u_id u) user_id) (Login.users st).

(** The rows of [SELECT ... FROM users WHERE username=?] *)
Definition users_by_username (username : string) (st : Login.state) : list Login.user_row :=
  List.filter (fun u => String.eqb (Login.u_username u) username) (Login.users st).

(** The rows of [SELECT ... FROM users WHERE api_key=?] *)
Definition users_by_api_key (api_key : string) (st : Login.state) : list Login.user_row :=
  List.filter (fun u => String.eqb (Login.u_api_key u) api_key) (Login.users st).

Definition get_user_role (e : env) (user_id : string) : Py.M Login.state string :=
  row <- fetch_one e (users_by_id user_id) ;;
  Py.ret (match row with
          | Some row => Login.u_role row
          | None => "user"
          end).

Definition get_user_by_username (e : env) (username : string)
  : Py.M Login.state (option string) :=
  row <- fetch_one e (users_by_username username) ;;
  Py.ret (Login.u_id <$> row).

Definition get_user_by_api_key (e : env) (api_key : string)
  : Py.M Login.state (option string) :=
  row <- fetch_one e (users_by_api_key api_key) ;;
  match row with
  | Some row => if Login.u_disabled row then Py.ret None else Py.ret (Some (Login.u_id row))
  | None => Py.ret None
  end.

(** [get_user]: the row the returned dictionary is built from, or [None]. *)
Definition get_user (e : env) (user_id : string) : Py.M Login.state (option Login.user_row) :=
  fetch_one e (users_by_id user_id).

(** [INSERT INTO users (id, username, password_hash, created_at, role,
    api_key) VALUES (...)]: [id] is the primary key, [username] and [api_key]
    are [UNIQUE]; [disabled] takes its default, 0. *)
Definition insert_user (e : env) (user_id username pwd_hash role api_key : string)
  : Py.M Login.state unit :=
  st <- Py.get_state ;;
  if existsb (fun u => String.eqb (Login.u_id u) user_id
                       || String.eqb (Login.u_username u) username
                       || String.eqb (Login.u_api_key u) api_key)
       (Login.users st)
  then Py.raise (Exn DatabaseError "UNIQUE constraint failed")
  else
    match Login.insert_fails (login_env e) with
    | Some ex => Py.raise ex
    | None =>
        Py.modify (fun st =>
          set_users
            (Login.users st ++ [Login.UserRow user_id username pwd_hash role api_key false])%list
            st)
    end.

Definition register (e : env) (username password role : string) : Py.M Login.state bool :=
  Py.try_except
    (let user_id := token_hex e in
     let pwd_hash := Login._hash_password (login_env e) password in
     let api_key := "sk-gcli-" ++ api_key_token e in
     insert_user e user_id username pwd_hash role api_key ;;;
     Py.ret true)
    (fun _ => Py.ret false).

(** [UPDATE users SET password_hash=? WHERE id=?] *)
Definition change_password (e : env) (user_id new_password : string)
  : Py.M Login.state bool :=
  let pwd_hash := Login._hash_password (login_env e) new_password in
  Py.try_except
    (execute_update e (fun st =>
       set_users
         (map (fun u =>
                 if String.eqb (Login.u_id u) user_id
                 then Login.UserRow (Login.u_id u) (Login.u_username u) pwd_hash
                        (Login.u_role u) (Login.u_api_key u) (Login.u_disabled u)
                 else u)
              (Login.users st))
         st) ;;;
     Py.ret true)
    (fun _ => Py.ret false).

(** Lines 293-295 compare [user_id] with the id of "admin" and then [pass]:
    the comparison has no effect.  The two [DELETE] statements are those of
    SQLite, which match the id exactly ([Collated.delete_user] has the method
    for either backend). *)
Definition delete_user (e : env) (user_id : string) : Py.M Login.state bool :=
  admin_id <- get_user_by_username e "admin" ;;
  Py.try_except
    (execute_delete e (fun st =>
       set_tokens
         (List.filter (fun t => negb (String.eqb (snd (fst t)) user_id)) (Login.tokens st))
         st) ;;;
     execute_delete e (fun st =>
       set_users
         (List.filter (fun u => negb (String.eqb (Login.u_id u) user_id)) (Login.users st))
         st) ;;;
     Py.ret true)
    (fun _ => Py.ret false).

(** [update_user_status]: the [quota_daily] column is not among the columns
    of [Login.user_row]; setting it changes none of them. *)
Definition update_user_status (e : env) (user_id : string) (disabled : option bool)
    (quota_daily : option Z) : Py.M Login.state unit :=
  match disabled, quota_daily with
  | None, None => Py.ret tt
  | _, _ =>
      execute_update e (fun st =>
        set_users
          (map (fun u =>
                  if String.eqb (Login.u_id u) user_id
                  then Login.UserRow (Login.u_id u) (Login.u_username u)
                         (Login.u_password_hash u) (Login.u_role u) (Login.u_api_key u)
                         (default (Login.u_disabled u) disabled)
                  else u)
               (Login.users st))
          st)
  end.


(** [user_manager.create_access_token(user_id)] (routers/auth.py, line 63):
    [UserManager] defines no attribute of that name (user_manager.py, lines
    22-431, has neither such a method nor a [__getattr__]), so looking it up
    raises [AttributeError] before anything is called. *)
Definition create_access_token (user_id : string) : Py.M Login.state string :=
  Py.raise (Exn AttributeError "'UserManager' object has no attribute 'create_access_token'").

(** *** dependencies.py *)

Definition get_current_user_id (e : env) (token : string) : Py.M Login.state string :=
  user_id <- verify_token e token ;;
  match user_id with
  | Some user_id =>
      if Py.truthy_str user_id then Py.ret user_id
      else Py.raise (Exn (HTTPException 401) "无效或过期的登录凭证")
  | None => Py.raise (Exn (HTTPException 401) "无效或过期的登录凭证")
  end.

Definition get_current_user_role (e : env) (token : string) : Py.M Login.state string :=
  user_id <- get_current_user_id e token ;;
  get_user_role e user_id.

Definition require_admin (e : env) (token : string) : Py.M Login.state unit :=
  role <- get_current_user_role e token ;;
  if negb (String.eqb role "admin")
  then Py.raise (Exn (HTTPException 403) "需要管理员权限")
  else Py.ret tt.

End Users.

(** ** The user manager on either backend

    [UserManager] runs its statements on SQLite or, when [MYSQL_URI] is set,
    on MySQL (user_manager.py, lines 38-47 and 196-216).  The two compare
    text differently: SQLite compares its [TEXT] columns exactly; the MySQL
    tables of lines 87-108 have the collation [utf8mb4_unicode_ci], for
    which strings that differ only in case (or in accents, or in trailing
    spaces) are equal.  Here are the methods of [Users] that read or delete
    by token or by user id, with the comparison [same] of the database in
    the place of the exact one: every [WHERE] and [ON] condition of a
    statement is evaluated with [same].  [String.eqb] gives the definitions
    of [Users], the SQLite backend; an equivalence that ignores case gives
    the MySQL backend.  What Python itself compares ([role != "admin"]) is
    compared exactly on both. *)

Module Collated.
Section Comparison.

Variable same : string -> string -> bool.

(** The rows of [SELECT t.user_id, t.expires_at, u.disabled FROM tokens t
    JOIN users u ON t.user_id = u.id WHERE t.token=?]. *)
Definition token_rows (token : string) (st : Login.state) : list (string * Q * bool) :=
  flat_map
    (fun t : string * string * Q =>
       let '(tok, user_id, expires_at) := t in
       if same tok token
       then map (fun u => (user_id, expires_at, Login.u_disabled u))
              (List.filter (fun u => same (Login.u_id u) user_id) (Login.users st))
       else [])
    (Login.tokens st).

(** [DELETE FROM tokens WHERE token=?] *)
Definition delete_token (e : Users.env) (token : string) : Py.M Login.state unit :=
  Users.execute_delete e (fun st =>
    Users.set_tokens
      (List.filter (fun t => negb (same (fst (fst t)) token)) (Login.tokens st)) st).

Definition verify_token (e : Users.env) (token : string)
  : Py.M Login.state (option string) :=
  if negb (Py.truthy_str token) then Py.ret None
  else
    row <- Users.fetch_one e (token_rows token) ;;
    match row with
    | Some (user_id, expires_at, disabled) =>
        if disabled : bool then Py.ret None
        else
          st <- Py.get_state ;;
          if Qltb (Login.now st) expires_at then Py.ret (Some user_id)
          else delete_token e token ;;; Py.ret None
    | None => Py.ret None
    end.

Definition logout (e : Users.env) (token : string) : Py.M Login.state unit :=
  delete_token e token.

(** The rows of [SELECT ... FROM users WHERE id=?] *)
Definition users_by_id (user_id : string) (st : Login.state) : list Login.user_row :=
  List.filter (fun u => same (Login.u_id u) user_id) (Login.users st).

(** The rows of [SELECT ... FROM users WHERE username=?] *)
Definition users_by_username (username : string) (st : Login.state)
  : list Login.user_row :=
  List.filter (fun u => same (Login.u_username u) username) (Login.users st).

Definition get_user_role (e : Users.env) (user_id : string) : Py.M Login.state string :=
  row <- Users.fetch_one e (users_by_id user_id) ;;
  Py.ret (match row with
          | Some row => Login.u_role row
          | None => "user"
          end).

Definition get_user_by_username (e : Users.env) (username : string)
  : Py.M Login.state (option string) :=
  row <- Users.fetch_one e (users_by_username username) ;;
  Py.ret (Login.u_id <$> row).

(** Lines 293-295 compare [user_id] with the id of "admin" and then [pass]:
    the comparison has no effect.  On MySQL the second [DELETE] cascades to
    the tokens that refer to the deleted users (line 106): those are tokens
    whose [user_id] the first [DELETE] has matched already. *)
Definition delete_user (e : Users.env) (user_id : string) : Py.M Login.state bool :=
  admin_id <- get_user_by_username e "admin" ;;
  Py.try_except
    (Users.execute_delete e (fun st =>
       Users.set_tokens
         (List.filter (fun t => negb (same (snd (fst t)) user_id)) (Login.tokens st))
         st) ;;;
     Users.execute_delete e (fun st =>
       Users.set_users
         (List.filter (fun u => negb (same (Login.u_id u) user_id)) (Login.users st))
         st) ;;;
     Py.ret true)
    (fun _ => Py.ret false).

Definition get_current_user_id (e : Users.env) (token : string)
  : Py.M Login.state string :=
  user_id <- verify_token e token ;;
  match user_id with
  | Some user_id =>
      if Py.truthy_str user_id then Py.ret user_id
      else Py.raise (Exn (HTTPException 401) "无效或过期的登录凭证")
  | None => Py.raise (Exn (HTTPException 401) "无效或过期的登录凭证")
  end.

Definition get_current_user_role (e : Users.env) (token : string)
  : Py.M Login.state string :=
  user_id <- get_current_user_id e token ;;
  get_user_role e user_id.

Definition require_admin (e : Users.env) (token : string) : Py.M Login.state unit :=
  role <- get_current_user_role e token ;;
  if negb (String.eqb role "admin")
  then Py.raise (Exn (HTTPException 403) "需要管理员权限")
  else Py.ret tt.

End Comparison.
End Collated.

(** ** [POST /auth/refresh-token] (routers/auth.py) *)

Module Routes.

(** The body of the reply [{"token": new_token, "is_admin": is_admin,
    "user_id": user_id}]. *)
Record refresh_response := RefreshResponse {
  rr_token : string;
  rr_is_admin : bool;
  rr_user_id : string
}.

(** The handler of [POST /auth/refresh-token], with its dependency
    [get_current_user_id] applied to the bearer token of the request. *)
Definition refresh_user_token (e : Users.env) (token : string)
  : Py.M Login.state refresh_response :=
  user_id <- Users.get_current_user_id e token ;;
  Py.try_except
    (user_info <- Users.get_user e user_id ;;
     match user_info with
     | None => Py.raise (Exn (HTTPException 404) "User not found")
     | Some _ =>
         role <- Users.get_user_role e user_id ;;
         let is_admin := String.eqb role "admin" in
         new_token <- Users.create_access_token user_id ;;
         Py.ret (RefreshResponse new_token is_admin user_id)
     end)
    (fun ex => Py.raise (Exn (HTTPException 500) (exn_str ex))).

End Routes.

(** ** Vocabulary of the statements *)

Module Trace.

(** The world after some more effects. *)
Definition add_log (evs : list event) (w : world) : world :=
  World (clock w) (sleeps w) (log w ++ evs)%list (auth_flows w) (storage w).

(** The calls [_shutdown_flow_server] makes for a record: none when there is
    no record or no listener, else [shutdown()], and [server_close()] if
    [shutdown()] returned. *)
Definition shutdown_events (e : Auth.env) (flow_data : option FlowData.t) : list event :=
  match flow_data with
  | Some fd =>
      match FlowData.server fd with
      | Some srv =>
          ServerShutdown srv ::
          match Auth.server_shutdown e srv with
          | Ok _ => [ServerClose srv]
          | Error _ => []
          end
      | None => []
      end
  | None => []
  end.

(** [del d[k]] for each [k] of [ks] in turn. *)
Definition remove_all {V} (ks : list string) (d : Dict.t V) : Dict.t V :=
  fold_left Dict.remove ks d.

(** A flow is expired at [now] when [now - created_at > 1800]. *)
Definition expired (now : Q) (sd : string * FlowData.t) : bool :=
  Qltb 1800 (now - FlowData.created_at (snd sd)).

(** The records that are not expired at [now]. *)
Definition live_flows (now : Q) (flows : Dict.t FlowData.t) : Dict.t FlowData.t :=
  List.filter (fun sd => negb (expired now sd)) flows.

(** The effects of the expiry loop (lines 95-97) over the states [ks]. *)
Definition expiry_events (e : Auth.env) (flows : Dict.t FlowData.t) (ks : list string)
  : list event :=
  flat_map (fun s => shutdown_events e (Dict.get flows s) ++ [FlowRemoved s])%list ks.

(** The effects of the loop of lines 106-108 over [items]. *)
Definition eviction_events (e : Auth.env) (flows new_auth_flows : Dict.t FlowData.t)
    (items : list (string * FlowData.t)) : list event :=
  flat_map (fun sd => if negb (Dict.contains new_auth_flows (fst sd))
                      then shutdown_events e (Dict.get flows (fst sd))
                      else []) items.

(** The keys that leave the map when [new_auth_flows] replaces [flows]. *)
Definition dropped_keys (flows new_auth_flows : Dict.t FlowData.t) : list string :=
  List.filter (fun s => negb (Dict.contains new_auth_flows s)) (Dict.keys flows).

(** [newer_first x y]: [x] was created no earlier than [y], so [x] may stand
    before [y] in a list sorted newest first. *)
Definition newer_first (x y : string * FlowData.t) : Prop :=
  (FlowData.created_at (snd y) <= FlowData.created_at (snd x))%Q.

(** The world [cleanup_auth_flows] leaves behind. *)
Definition after_cleanup (e : Auth.env) (w : world) : world :=
  let flows := auth_flows w in
  let live := live_flows (clock w) flows in
  let w1 :=
    set_auth_flows live
      (add_log (expiry_events e flows (Auth.expired_states (clock w) flows)) w) in
  if (10 <? length live)%nat then
    let new_auth_flows := Dict.of_items (take 10 (Auth.sorted_newest_first live)) in
    set_auth_flows new_auth_flows
      (add_log (eviction_events e live new_auth_flows live
                ++ map FlowRemoved (dropped_keys live new_auth_flows))%list w1)
  else w1.

(** The credentials table of a world. *)
Definition credentials_table (w : world) : gmap string entry :=
  cache_data (_credentials_cache_manager (storage w)).

(** What [_get_default_state()] returns at time [now]. *)
Definition default_state_at (now : Q) : Dict.t json :=
  [("error_codes", JList []);
   ("disabled", JBool false);
   ("last_success", JNum now);
   ("user_email", JNull)].

(** The world in which the secret blob recorded under [filename], if there is
    such a record, is replaced by [blob]. *)
Definition replace_secret (filename : string) (blob : json) (w : world) : world :=
  set_storage
    (set_cache
       (Cache (alter (fun e : entry => Dict.set e "credential" blob) filename
                 (credentials_table w))
              (cache_dirty (_credentials_cache_manager (storage w))))
       (storage w))
    w.

(** No redirect is handled in the interval from [t0] (excluded) to [t1]
    (included): the browser never sends one, or the listener handled it at
    [t0] or before, or it handles it after [t1]. *)
Definition no_redirect_between (e : Auth.env) (t0 t1 : Q) : Prop :=
  match Auth.redirect e with
  | None => True
  | Some (arrival, _, _) => (arrival <= t0)%Q \/ (t1 < arrival)%Q
  end.

(** No redirect delivers a code to the flow [state] in the interval from
    [t0] (excluded) to [t1] (included): the browser never sends a request,
    or the listener handles it at [t0] or before, or after [t1], or the
    request names another state (or none), or it carries no code.  Requests
    for other flows may be handled meanwhile. *)
Definition no_code_between (e : Auth.env) (state : string) (t0 t1 : Q) : Prop :=
  match Auth.redirect e with
  | None => True
  | Some (arrival, code, st) =>
      (arrival <= t0)%Q \/ (t1 < arrival)%Q \/ st <> Some state \/ Py.truthy code = false
  end.

(** [fd'] is [fd] but for the two fields the listener writes, ["code"] and
    ["completed"]. *)
Definition same_but_code (fd fd' : FlowData.t) : Prop :=
  fd' = FlowData.set_completed (FlowData.completed fd')
          (FlowData.set_code (FlowData.code fd') fd).

(** From [w] to [w'] the credential store was left alone, and every record
    of the flow map is still registered and changed at most in the fields
    the listener writes. *)
Definition only_codes (w w' : world) : Prop :=
  storage w' = storage w
  /\ forall state fd,
       Dict.get (auth_flows w) state = Some fd ->
       exists fd', Dict.get (auth_flows w') state = Some fd' /\ same_but_code fd fd'.

(** The clock did not go back. *)
Definition clock_forward (w w' : world) : Prop := (clock w <= clock w')%Q.

(** The clock did not move. *)
Definition same_clock (w w' : world) : Prop := clock w' = clock w.

(** [n] polls, half a second each. *)
Definition half_seconds (n : nat) : Q := inject_Z (Z.of_nat n) * (1 # 2).

(** [preserves R c]: whatever the outcome of [c], the world it leaves is
    related by [R] to the world it started in. *)
Definition preserves {A} (R : world -> world -> Prop) (c : Py.M world A) : Prop :=
  forall w r w', c w = (r, w') -> R w w'.

(** [returns c]: [c] needs no fuel; it ends with a value or an exception. *)
Definition returns {A} (c : Py.M world A) : Prop :=
  forall w, fst (c w) <> OutOfFuel.

(** A record stored under [filename] is still stored. *)
Definition keeps_record (filename : string) (w w' : world) : Prop :=
  is_Some (cache_data (_credentials_cache_manager (storage w)) !! filename) ->
  is_Some (cache_data (_credentials_cache_manager (storage w')) !! filename).

(** Only the credential store changed. *)
Definition only_storage (w w' : world) : Prop :=
  clock w' = clock w /\ sleeps w' = sleeps w /\ log w' = log w
  /\ auth_flows w' = auth_flows w.

(** The listener recorded under a state token. *)
Definition server_of (flows : Dict.t FlowData.t) (state : string) : option http_server :=
  match Dict.get flows state with
  | Some flow_data => FlowData.server flow_data
  | None => None
  end.

(** Events that touch neither a listener nor the flow map. *)
Definition quiet_event (ev : event) : bool :=
  match ev with
  | Sleep _ | EnableRequiredApis _ => true
  | _ => false
  end.

(** From [w] to [w'] no listener was called and no flow record was added,
    dropped or given another listener. *)
Definition harmless (w w' : world) : Prop :=
  (exists evs, log w' = (log w ++ evs)%list /\ forallb quiet_event evs = true)
  /\ Dict.keys (auth_flows w') = Dict.keys (auth_flows w)
  /\ (forall state, server_of (auth_flows w') state = server_of (auth_flows w) state).

(** The world after lines 366-367 on [w1]: [_shutdown_flow_server(state)],
    then [del self.auth_flows[state]]. *)
Definition after_teardown (e : Auth.env) (state : string) (w1 : world) : world :=
  set_auth_flows (Dict.remove (auth_flows w1) state)
    (add_log (shutdown_events e (Dict.get (auth_flows w1) state) ++ [FlowRemoved state])%list
       w1).

(** From [w] to [w'] either nothing happened to listeners and records, or
    that held up to some world [w1] in which [state] was registered, and then
    the record of [state] was torn down. *)
Definition flow_run (e : Auth.env) (w w' : world) : Prop :=
  harmless w w'
  \/ exists w1 state,
       harmless w w1
       /\ Dict.contains (auth_flows w1) state = true
       /\ w' = after_teardown e state w1.

(** The listeners on which [shutdown()] is called, in order. *)
Fixpoint shut_servers (evs : list event) : list http_server :=
  match evs with
  | [] => []
  | ServerShutdown srv :: rest => srv :: shut_servers rest
  | _ :: rest => shut_servers rest
  end.

(** A check of a run against the rule "shut the listener down, once, before
    the record goes": replaying the events [evs] with the listeners [closed]
    so far, no listener is shut down a second time, and when a state leaves
    the map the listener its record had in [flows] is among the closed ones. *)
Fixpoint closed_first (flows : Dict.t FlowData.t) (closed : list http_server)
    (evs : list event) : bool :=
  match evs with
  | [] => true
  | ServerShutdown srv :: rest =>
      negb (bool_decide (srv ∈ closed)) && closed_first flows (srv :: closed) rest
  | FlowRemoved state :: rest =>
      match server_of flows state with
      | Some srv => bool_decide (srv ∈ closed)
      | None => true
      end && closed_first flows closed rest
  | _ :: rest => closed_first flows closed rest
  end.








(** The world in which the credentials table is [table], marked dirty. *)
Definition with_table (table : gmap string entry) (w : world) : world :=
  set_storage (set_cache (Cache table true) (storage w)) w.

(** The record [update_credential_state] and [update_usage_stats] start
    from: the stored one, or a fresh one when none is stored or the stored
    one is the empty dictionary. *)
Definition record_or_fresh (w : world) (filename : string) : entry :=
  let existing := default [] (credentials_table w !! filename) in
  if Dict.truthy existing then existing
  else [("credential", JDict []);
        ("state", JDict (default_state_at (clock w)));
        ("stats", JDict Storage._get_default_stats)].

(** The flows [get_auth_flow] looks at first: with a project id the flows
    started for that project, without one the flows started for automatic
    detection. *)
Definition candidate (project_id : option string) (sd : string * FlowData.t) : bool :=
  if Py.truthy project_id
  then bool_decide (FlowData.project_id (snd sd) = project_id)
  else FlowData.auto_project_detection (snd sd).

(** The flow was started by the session [user_session]. *)
Definition owned_by (user_session : option string) (sd : string * FlowData.t) : bool :=
  bool_decide (FlowData.user_session (snd sd) = user_session).

(** How a run that answers with a reply ends: without a success reply and
    with listeners and records left alone, or with a success reply after one
    record, registered until then, was torn down. *)
Definition settled (e : Auth.env) (w : world) (r : outcome Auth.response) (w' : world)
  : Prop :=
  (harmless w w' /\ forall c f, r <> Return (Auth.Success c f))
  \/ (exists w1 state c f,
        harmless w w1
        /\ Dict.contains (auth_flows w1) state = true
        /\ w' = after_teardown e state w1
        /\ r = Return (Auth.Success c f)).

(** How the turn of the loop of [find_available_port] for the port [q] ends:
    the port is bound and returned; or the turn ends with an [OSError] and
    the loop goes on; or it raises [ex], which is not an [OSError]. *)
Definition port_bound (s : Auth.start_env) (q : Z) : Prop :=
  (exists u, Auth.open_socket s q = Ok u)
  /\ Auth.valid_port q = true /\ Auth.port_free s q = true.

Definition port_skipped (s : Auth.start_env) (q : Z) : Prop :=
  (exists ex, Auth.open_socket s q = Error ex /\ exn_cls ex = OSError)
  \/ ((exists u, Auth.open_socket s q = Ok u)
      /\ Auth.valid_port q = true /\ Auth.port_free s q = false).

Definition port_refused (s : Auth.start_env) (q : Z) (ex : Py.exn) : Prop :=
  (Auth.open_socket s q = Error ex /\ exn_cls ex <> OSError)
  \/ ((exists u, Auth.open_socket s q = Ok u)
      /\ Auth.valid_port q = false
      /\ ex = Exn OverflowError "bind(): port must be 0-65535.").

(** The collaborators [e], with other answers to [get_user_projects] and
    [select_default_project]. *)
Definition with_project_listing (e : Auth.env)
    (projects : Auth.Credentials -> Py.result (list Auth.project))
    (select : list Auth.project -> Py.result (option string)) : Auth.env :=
  Auth.Env (Auth.exchange_code e) projects select (Auth.enable_required_apis e)
    (Auth.get_oauth_client_id e) (Auth.get_oauth_client_secret e) (Auth.import_oauthlib e)
    (Auth.server_shutdown e) (Auth.server_server_close e) (Auth.redirect e)
    (Auth.sleep_lag e).

(** The database of the user manager, read when the clock shows [t]. *)
Definition at_time (t : Q) (st : Login.state) : Login.state :=
  Login.State (Login.users st) (Login.tokens st) (Login.audit st) t.

End Trace.

(** ** Sample data, used to run the definitions on concrete inputs *)

Module Samples.

Definition flow_at (n : nat) (project : option string) (session : option string)
    (created : Q) : FlowData.t :=
  FlowData.Make n project session (8080 + Z.of_nat n) "http://localhost:8080"
    (Some n) None false created (bool_decide (project = None)) false.

Definition empty_manager : MySQLManager :=
  Manager true (Cache ∅ false) 0 [].

Definition world_of (t : Q) (flows : Dict.t FlowData.t) : world :=
  World t 0 [] flows empty_manager.

(** Two pending flows, registered at times 100 and 200. *)
Definition two_flows : Dict.t FlowData.t :=
  [("alice_1", flow_at 1 None (Some "alice") 100);
   ("bob_2", flow_at 2 (Some "proj-b") (Some "bob") 200)].

(** Twenty pending flows, registered at times 0, 100, ..., 1900. *)
Definition twenty_flows : Dict.t FlowData.t :=
  map (fun i => ("state-" ++ pretty i, flow_at i None None (inject_Z (100 * Z.of_nat i))))
      (seq 0 20).

(** Listener calls never fail. *)
Definition quiet_env : Auth.env :=
  Auth.Env
    (fun _ _ => Error (Exn OtherException "invalid_grant"))
    (fun _ => Ok [])
    (fun _ => Ok None)
    (fun _ _ => Ok tt)
    (Ok "client-id") (Ok "client-secret") (Ok tt)
    (fun _ => Ok tt) (fun _ => Ok tt)
    None (fun _ => 0%Q).


(** The flow of "alice", once the redirect has delivered its code. *)
Definition answered_flows : Dict.t FlowData.t :=
  [("alice_1", FlowData.set_completed true
                 (FlowData.set_code (Some "4/0AX") (flow_at 1 None (Some "alice") 100)));
   ("bob_2", flow_at 2 (Some "proj-b") (Some "bob") 200)].

Definition sample_credentials : Auth.Credentials :=
  Auth.MkCredentials "ya29.tok" (Some "1//refresh")
    (Some (Auth.DateTime "2026-01-01T00:00:00" None)).

(** Collaborators that succeed, with the given list of projects and no
    default among them. *)
Definition env_with_projects (projects : list Auth.project) : Auth.env :=
  Auth.Env
    (fun _ _ => Ok sample_credentials)
    (fun _ => Ok projects)
    (fun _ => Ok None)
    (fun _ _ => Ok tt)
    (Ok "client-id") (Ok "client-secret") (Ok tt)
    (fun _ => Ok tt) (fun _ => Ok tt)
    None (fun _ => 0%Q).

Definition project_one : Auth.project := [("projectId", "proj-1"); ("name", "One")].
Definition project_two : Auth.project := [("projectId", "proj-2"); ("name", "Two")].

(** The same collaborators, and a browser whose redirect for the flow of
    "alice" is handled at time 260.2. *)
Definition env_with_redirect (projects : list Auth.project) : Auth.env :=
  Auth.Env
    (fun _ _ => Ok sample_credentials)
    (fun _ => Ok projects)
    (fun _ => Ok None)
    (fun _ _ => Ok tt)
    (Ok "client-id") (Ok "client-secret") (Ok tt)
    (fun _ => Ok tt) (fun _ => Ok tt)
    (Some ((1301 # 5)%Q, Some "4/0AX", Some "alice_1")) (fun _ => 0%Q).

(** Collaborators that succeed, and a browser whose redirect, handled at
    time 260, is for the flow of "bob". *)
Definition env_stray_redirect : Auth.env :=
  Auth.Env
    (fun _ _ => Ok sample_credentials)
    (fun _ => Ok [project_one])
    (fun _ => Ok None)
    (fun _ _ => Ok tt)
    (Ok "client-id") (Ok "client-secret") (Ok tt)
    (fun _ => Ok tt) (fun _ => Ok tt)
    (Some (260%Q, Some "4/0BOB", Some "bob_2")) (fun _ => 0%Q).

(** A browser that follows the redirect at time 600, and a scheduler that
    oversleeps by a tenth of a second each time. *)
Definition env_late_redirect : Auth.env :=
  Auth.Env
    (fun _ _ => Ok sample_credentials)
    (fun _ => Ok [project_one])
    (fun _ => Ok None)
    (fun _ _ => Ok tt)
    (Ok "client-id") (Ok "client-secret") (Ok tt)
    (fun _ => Ok tt) (fun _ => Ok tt)
    (Some (600%Q, Some "4/0AX", Some "alice_1")) (fun _ => (1 # 10)%Q).

(** Port 8080 is taken, 8081 is free; the listener created is number 7. *)
Definition sample_start_env : Auth.start_env :=
  Auth.StartEnv (Ok 8080%Z) (fun _ => Ok tt) (fun port => (8081 <=? port)%Z) (Ok 49152%Z)
    (fun _ => Ok 7%nat) (fun _ => Ok tt) (fun _ _ _ => 3%nat)
    "0b5e" (fun _ state => Ok ("https://accounts.example/o/oauth2/auth?state=" ++ state)).

(** A table with one healthy, once-used credential and one disabled one. *)
Definition used_entry : entry :=
  [("credential", JDict [("token", JStr "ya29.old")]);
   ("state", JDict [("error_codes", JList [JNum 429]);
                    ("disabled", JBool false);
                    ("last_success", JNum 50);
                    ("user_email", JStr "a@example.com")]);
   ("stats", JDict [("call_timestamps", JList [JNum 40; JNum 50])])].

Definition disabled_entry : entry :=
  [("credential", JDict [("token", JStr "ya29.off")]);
   ("state", JDict [("error_codes", JList []);
                    ("disabled", JBool true);
                    ("last_success", JNum 10);
                    ("user_email", JNull)]);
   ("stats", JDict [("call_timestamps", JList [])])].

Definition stocked_manager : MySQLManager :=
  Manager true
    (Cache (<["a.json" := used_entry]> (<["b.json" := disabled_entry]> ∅)) false) 2 [].

Definition stocked_world : world :=
  World 1000 0 [] [] stocked_manager.

Definition new_blob : Dict.t json :=
  [("token", JStr "ya29.new"); ("project_id", JStr "proj-1")].

(** A database whose connection pool is exhausted. *)
Definition broken_store : Backend.store :=
  Backend.Store (Error (Exn OSError "Can't connect to MySQL server"))
    (Ok tt) (Ok tt) (Ok None) (fun _ => Ok JNull).

(** A user database with one active and one disabled account. *)
Definition login_env : Login.env :=
  Login.Env (fun s => "h:" ++ s) "tok-123" None None.

Definition login_state : Login.state :=
  Login.State
    [Login.UserRow "u1" "admin" "h:admingcli_static_salt" "admin" "sk-gcli-1" false;
     Login.UserRow "u2" "carol" "h:pwgcli_static_salt" "user" "sk-gcli-2" true]
    [] [] 5000.

(** The collaborators of the user manager: a database in which every
    statement goes through. *)
Definition users_env : Users.env :=
  Users.Env login_env "9f8e7d6c5b4a3f2e" "Zm9vYmFy" None None.

(** A comparison of text that ignores the case of the letters A-Z, as the
    collation of the MySQL tables does. *)
Definition lower_ascii (c : Ascii.ascii) : Ascii.ascii :=
  let n := Ascii.nat_of_ascii c in
  if (65 <=? n)%nat && (n <=? 90)%nat then Ascii.ascii_of_nat (n + 32) else c.

Fixpoint lower (s : string) : string :=
  match s with
  | EmptyString => EmptyString
  | String c rest => String (lower_ascii c) (lower rest)
  end.

Definition same_ci (a b : string) : bool := String.eqb (lower a) (lower b).

(** The accounts of [login_state] with three issued tokens, one of them
    expired by the time 5000. *)
Definition session_state : Login.state :=
  Login.State
    [Login.UserRow "u1" "admin" "h:admingcli_static_salt" "admin" "sk-gcli-1" false;
     Login.UserRow "u2" "carol" "h:pwgcli_static_salt" "user" "sk-gcli-2" true;
     Login.UserRow "u3" "dave" "h:dpwgcli_static_salt" "user" "sk-gcli-3" false]
    [("tok-a", "u1", 6000%Q); ("tok-c", "u2", 6000%Q); ("tok-old", "u3", 100%Q);
     ("tok-d", "u3", 9000%Q)]
    [] 5000.

End Samples.

(* ================================================================== *)
(** * Part II: properties                                              *)
(* ================================================================== *)

(** ** Dictionaries *)

Section DictFacts.
Context {V : Type}.
Implicit Types (d : Dict.t V) (k : string) (v : V).

Lemma dict_get_set_eq d k v : Dict.get (Dict.set d k v) k = Some v.
Proof.
  induction d as [|[k' v'] d IH]; simpl.
  - by rewrite String.eqb_refl.
  - destruct (String.eqb k k') eqn:E; simpl; rewrite ?E; auto.
Qed.

Lemma dict_get_set_ne d k k' v :
  k' <> k -> Dict.get (Dict.set d k v) k' = Dict.get d k'.
Proof.
  intros Hne. induction d as [|[k0 v0] d IH]; simpl.
  - destruct (String.eqb_spec k' k); congruence.
  - destruct (String.eqb_spec k k0) as [->|]; simpl.
    + destruct (String.eqb_spec k' k0); congruence.
    + by rewrite IH.
Qed.

Lemma dict_keys_set_present d k v :
  Dict.contains d k = true -> Dict.keys (Dict.set d k v) = Dict.keys d.
Proof.
  unfold Dict.contains, Dict.keys.
  induction d as [|[k0 v0] d IH]; simpl; [done|].
  destruct (String.eqb k k0) eqn:E; simpl; [done|].
  intros H. by rewrite IH.
Qed.

Lemma dict_get_Some_In d k v : Dict.get d k = Some v -> In (k, v) d.
Proof.
  induction d as [|[k0 v0] d IH]; simpl; [done|].
  destruct (String.eqb_spec k k0) as [->|]; [intros [= ->]; auto | auto].
Qed.

Lemma dict_get_None d k : Dict.get d k = None <-> ~ In k (Dict.keys d).
Proof.
  unfold Dict.keys. induction d as [|[k0 v0] d IH]; simpl; [tauto|].
  destruct (String.eqb_spec k k0) as [->|Hne].
  - split; [done | tauto].
  - rewrite IH. split; [intros H [E|E]; [congruence | tauto] | tauto].
Qed.

Lemma dict_contains_In d k : Dict.contains d k = true <-> In k (Dict.keys d).
Proof.
  unfold Dict.contains. destruct (Dict.get d k) eqn:E.
  - split; [intros _ | done].
    apply dict_get_Some_In in E. unfold Dict.keys.
    change k with (fst (k, v)). by apply in_map.
  - apply dict_get_None in E. split; [done | tauto].
Qed.

Lemma dict_In_get d k v :
  NoDup (Dict.keys d) -> In (k, v) d -> Dict.get d k = Some v.
Proof.
  unfold Dict.keys. induction d as [|[k0 v0] d IH]; simpl; [done|].
  intros Hnd [E|Hin].
  - injection E as -> ->. by rewrite String.eqb_refl.
  - apply NoDup_cons in Hnd as [Hk0 Hnd].
    destruct (String.eqb_spec k k0) as [->|]; [|auto].
    exfalso. apply Hk0. apply list_elem_of_In.
    change k0 with (fst (k0, v)). by apply in_map.
Qed.

End DictFacts.

(** ** [handle_callback] *)

(** C2.  [handle_callback state code] answers [False] and changes nothing
    when [state] is not a key of [auth_flows]; when it is, it answers [True],
    the record under [state] becomes the old one with [code] stored and
    [completed] set, every other record is the same as before, no key is added
    or dropped, and nothing else in the process changes. *)
Theorem handle_callback_spec (w : world) (state code : string) :
  match Dict.get (auth_flows w) state with
  | None => Auth.handle_callback state code w = (Return false, w)
  | Some flow_data =>
      exists w',
        Auth.handle_callback state code w = (Return true, w')
        /\ (exists updated,
              Dict.get (auth_flows w') state = Some updated
              /\ FlowData.code updated = Some code
              /\ FlowData.completed updated = true
              /\ updated = FlowData.set_completed true
                             (FlowData.set_code (Some code) flow_data))
        /\ (forall other, other <> state ->
              Dict.get (auth_flows w') other = Dict.get (auth_flows w) other)
        /\ Dict.keys (auth_flows w') = Dict.keys (auth_flows w)
        /\ clock w' = clock w /\ log w' = log w /\ storage w' = storage w
  end.
Proof.
  unfold Auth.handle_callback, Py.bind, Py.get_state, Py.modify, Py.ret.
  destruct (Dict.get (auth_flows w) state) as [flow_data|] eqn:Hget; [|done].
  eexists. split; [reflexivity|]. simpl.
  repeat split.
  - eexists. rewrite dict_get_set_eq. repeat split.
  - intros other Hne. by apply dict_get_set_ne.
  - apply dict_keys_set_present. unfold Dict.contains. by rewrite Hget.
Qed.

Lemma handle_callback_spec_witness :
  exists w',
    Auth.handle_callback "bob_2" "4/0AX" (Samples.world_of 250 Samples.two_flows)
      = (Return true, w')
    /\ Dict.get (auth_flows w') "alice_1"
       = Dict.get Samples.two_flows "alice_1".
Proof.
  pose proof (handle_callback_spec (Samples.world_of 250 Samples.two_flows)
                "bob_2" "4/0AX") as H.
  simpl in H. destruct H as (w' & Hrun & _ & Hother & _).
  exists w'. split; [exact Hrun|].
  apply (Hother "alice_1"). discriminate.
Defined.

(** ** Running the steps of [AuthService] *)

Ltac world_eq :=
  repeat match goal with w : world |- _ => destruct w end;
  repeat match goal with u : unit |- _ => destruct u end;
  unfold Trace.add_log, set_auth_flows; simpl;
  rewrite <- ?app_assoc, ?app_nil_r; simpl; reflexivity.

Lemma shutdown_flow_server_run e state w :
  Auth._shutdown_flow_server e state w
  = (Return tt,
     Trace.add_log (Trace.shutdown_events e (Dict.get (auth_flows w) state)) w).
Proof.
  unfold Auth._shutdown_flow_server, Trace.shutdown_events, Py.bind, Py.get_state.
  destruct (Dict.get (auth_flows w) state) as [fd|]; [|f_equal; world_eq].
  destruct (FlowData.server fd) as [srv|]; [|f_equal; world_eq].
  unfold Py.try_except, Py.bind, emit, Py.modify, Py.lift, Py.ret.
  destruct (Auth.server_shutdown e srv); simpl; [|f_equal; world_eq].
  destruct (Auth.server_server_close e srv) as [[]|]; simpl; f_equal; world_eq.
Qed.

Lemma del_auth_flow_run state w :
  Dict.contains (auth_flows w) state = true ->
  Auth.del_auth_flow state w
  = (Return tt,
     set_auth_flows (Dict.remove (auth_flows w) state)
       (Trace.add_log [FlowRemoved state] w)).
Proof.
  intros H. unfold Auth.del_auth_flow, Py.bind, Py.get_state.
  rewrite H. unfold emit, Py.modify. simpl. f_equal.
Qed.


Lemma dict_get_remove_ne {V} (d : Dict.t V) k k' :
  k' <> k -> Dict.get (Dict.remove d k) k' = Dict.get d k'.
Proof.
  intros Hne. induction d as [|[k0 v0] d IH]; simpl; [done|].
  destruct (String.eqb_spec k k0) as [->|]; simpl.
  - destruct (String.eqb_spec k' k0); congruence.
  - by rewrite IH.
Qed.

Lemma remove_all_cons_notin {V} (ks : list string) (d : Dict.t V) k0 v0 :
  ~ In k0 ks ->
  Trace.remove_all ks ((k0, v0) :: d) = (k0, v0) :: Trace.remove_all ks d.
Proof.
  unfold Trace.remove_all. revert d.
  induction ks as [|k ks IH]; intros d Hnot; simpl; [done|].
  destruct (String.eqb_spec k k0) as [->|Hne]; [exfalso; apply Hnot; by left|].
  apply IH. intros H. apply Hnot. by right.
Qed.

Lemma remove_all_filter {V} (P : string * V -> bool) (d : Dict.t V) :
  NoDup (Dict.keys d) ->
  Trace.remove_all (map fst (List.filter P d)) d
  = List.filter (fun kv => negb (P kv)) d.
Proof.
  unfold Dict.keys. induction d as [|[k v] d IH]; intros Hnd; [done|].
  simpl in Hnd. apply NoDup_cons in Hnd as [Hk Hnd].
  simpl. destruct (P (k, v)) eqn:HP; simpl.
  - unfold Trace.remove_all. simpl. rewrite String.eqb_refl. by apply IH.
  - rewrite remove_all_cons_notin; [by rewrite IH|].
    intros Hin. apply Hk. apply list_elem_of_In.
    apply in_map_iff in Hin as ([k' v'] & <- & Hin').
    apply filter_In in Hin' as [Hin' _].
    by apply (in_map fst) in Hin'.
Qed.


Lemma expiry_events_remove e (flows : Dict.t FlowData.t) k ks :
  ~ In k ks ->
  Trace.expiry_events e (Dict.remove flows k) ks = Trace.expiry_events e flows ks.
Proof.
  unfold Trace.expiry_events. induction ks as [|k' ks IH]; intros Hnot; simpl; [done|].
  rewrite dict_get_remove_ne; [|intros ->; apply Hnot; by left].
  rewrite IH; [done|]. intros H. apply Hnot. by right.
Qed.

Lemma expire_loop_run e ks : forall w,
  NoDup ks ->
  (forall k, In k ks -> Dict.contains (auth_flows w) k = true) ->
  Py.for_each ks (fun state =>
      Auth._shutdown_flow_server e state ;;; Auth.del_auth_flow state) w
  = (Return tt,
     set_auth_flows (Trace.remove_all ks (auth_flows w))
       (Trace.add_log (Trace.expiry_events e (auth_flows w) ks) w)).
Proof.
  induction ks as [|k ks IH]; intros w Hnd Hin.
  - simpl. unfold Py.ret. f_equal. world_eq.
  - apply NoDup_cons in Hnd as [Hk Hnd].
    cbn [Py.for_each]. unfold Py.bind at 1. unfold Py.bind at 1.
    rewrite shutdown_flow_server_run.
    rewrite del_auth_flow_run; [|apply Hin; by left].
    rewrite IH; [|done|].
    + f_equal. cbn [auth_flows set_auth_flows Trace.add_log].
      rewrite expiry_events_remove; [|by rewrite <- list_elem_of_In].
      destruct w. unfold Trace.add_log, set_auth_flows, Trace.expiry_events. simpl.
      by rewrite <- !app_assoc.
    + intros k' Hk'. cbn [auth_flows set_auth_flows Trace.add_log].
      assert (k' <> k) by (intros ->; apply Hk; by apply list_elem_of_In).
      unfold Dict.contains. rewrite dict_get_remove_ne; [|done].
      apply (Hin k'). by right.
Qed.

Lemma evict_loop_run e new_auth_flows items : forall w,
  Py.for_each items (fun '(state, flow_data) =>
      if negb (Dict.contains new_auth_flows state)
      then Auth._shutdown_flow_server e state
      else Py.ret tt) w
  = (Return tt,
     Trace.add_log (Trace.eviction_events e (auth_flows w) new_auth_flows items) w).
Proof.
  induction items as [|[s d] items IH]; intros w.
  - simpl. unfold Py.ret. f_equal. world_eq.
  - cbn [Py.for_each]. unfold Py.bind at 1.
    unfold Trace.eviction_events. simpl.
    destruct (negb (Dict.contains new_auth_flows s)).
    + rewrite shutdown_flow_server_run, IH. f_equal.
      destruct w; unfold Trace.add_log, Trace.eviction_events; simpl.
      by rewrite <- !app_assoc.
    + unfold Py.ret at 1. rewrite IH. done.
Qed.

Lemma emit_all_run (ks : list string) : forall w,
  Py.for_each ks (fun s => emit (FlowRemoved s)) w
  = (Return tt, Trace.add_log (map FlowRemoved ks) w).
Proof.
  induction ks as [|k ks IH]; intros w.
  - simpl. unfold Py.ret. f_equal. world_eq.
  - cbn [Py.for_each]. unfold Py.bind at 1, emit, Py.modify.
    rewrite IH. f_equal. world_eq.
Qed.

Lemma assign_auth_flows_run new_auth_flows w :
  Auth.assign_auth_flows new_auth_flows w
  = (Return tt,
     set_auth_flows new_auth_flows
       (Trace.add_log (map FlowRemoved (Trace.dropped_keys (auth_flows w) new_auth_flows)) w)).
Proof.
  unfold Auth.assign_auth_flows, Py.bind, Py.get_state.
  rewrite emit_all_run. unfold Py.modify. done.
Qed.


(** ** Order on timestamps, and the sort of [cleanup_auth_flows] *)

Lemma Qltb_true (x y : Q) : Qltb x y = true <-> (x < y)%Q.
Proof.
  unfold Qltb. rewrite negb_true_iff, <- not_true_iff_false, Qle_bool_iff.
  split; [apply Qnot_le_lt | apply Qlt_not_le].
Qed.

Lemma Qltb_false (x y : Q) : Qltb x y = false <-> (y <= x)%Q.
Proof. unfold Qltb. by rewrite negb_false_iff, Qle_bool_iff. Qed.

Lemma insert_by_created_at_perm x l :
  Permutation (Auth.insert_by_created_at x l) (x :: l).
Proof.
  induction l as [|y l IH]; simpl; [done|].
  destruct (Qltb _ _); [|done].
  rewrite IH. apply perm_swap.
Qed.

Lemma sorted_newest_first_perm l : Permutation (Auth.sorted_newest_first l) l.
Proof.
  induction l as [|x l IH]; simpl; [done|].
  rewrite insert_by_created_at_perm. by constructor.
Qed.

Lemma insert_by_created_at_sorted x l :
  StronglySorted Trace.newer_first l ->
  StronglySorted Trace.newer_first (Auth.insert_by_created_at x l).
Proof.
  induction 1 as [|y l Hs IH Hy]; simpl; [repeat constructor|].
  destruct (Qltb _ _) eqn:E.
  - apply Qltb_true in E. constructor; [done|].
    apply List.Forall_forall. intros z Hz.
    apply (Permutation_in _ (insert_by_created_at_perm x l)) in Hz as [<-|Hz].
    + unfold Trace.newer_first. by apply Qlt_le_weak.
    + rewrite List.Forall_forall in Hy. by apply Hy.
  - apply Qltb_false in E. constructor; [by constructor|].
    constructor; [done|].
    rewrite List.Forall_forall in Hy |- *. intros z Hz.
    unfold Trace.newer_first in *. eapply Qle_trans; [by apply Hy | done].
Qed.

Lemma sorted_newest_first_sorted l :
  StronglySorted Trace.newer_first (Auth.sorted_newest_first l).
Proof.
  induction l as [|x l IH]; simpl; [constructor|].
  by apply insert_by_created_at_sorted.
Qed.

Lemma strongly_sorted_app_inv {A} (R : A -> A -> Prop) l1 l2 :
  StronglySorted R (l1 ++ l2) ->
  forall x y, In x l1 -> In y l2 -> R x y.
Proof.
  induction l1 as [|a l1 IH]; simpl; intros Hs x y Hx Hy; [done|].
  apply StronglySorted_inv in Hs as [Hs Ha].
  destruct Hx as [<-|Hx]; [|by eapply IH].
  rewrite List.Forall_forall in Ha. apply Ha, in_or_app. by right.
Qed.

(** ** [dict(pairs)] on pairs with distinct keys *)

Lemma dict_set_fresh {V} (d : Dict.t V) k v :
  ~ In k (Dict.keys d) -> Dict.set d k v = (d ++ [(k, v)])%list.
Proof.
  unfold Dict.keys. induction d as [|[k0 v0] d IH]; simpl; intros Hnot; [done|].
  destruct (String.eqb_spec k k0) as [->|]; [tauto|].
  rewrite IH; [done | tauto].
Qed.

Lemma dict_update_fresh {V} (pairs : list (string * V)) : forall d : Dict.t V,
  NoDup (Dict.keys d ++ Dict.keys pairs) ->
  Dict.update d pairs = (d ++ pairs)%list.
Proof.
  unfold Dict.update, Dict.keys.
  induction pairs as [|[k v] pairs IH]; intros d Hnd; simpl.
  - by rewrite app_nil_r.
  - rewrite dict_set_fresh.
    + rewrite IH; [by rewrite <- app_assoc|].
      rewrite map_app. simpl. by rewrite <- app_assoc.
    + simpl in Hnd. apply NoDup_app in Hnd as (_ & Hdis & _).
      intros Hin. apply (Hdis k); [by apply list_elem_of_In | left].
Qed.

Lemma dict_of_items_distinct {V} (pairs : list (string * V)) :
  NoDup (Dict.keys pairs) -> Dict.of_items pairs = pairs.
Proof. intros H. apply (dict_update_fresh pairs []). done. Qed.


(** ** [cleanup_auth_flows] *)

Lemma NoDup_map_fst_filter {V} (P : string * V -> bool) (d : Dict.t V) :
  NoDup (Dict.keys d) -> NoDup (Dict.keys (List.filter P d)).
Proof.
  unfold Dict.keys. induction d as [|[k v] d IH]; simpl; intros Hnd; [done|].
  apply NoDup_cons in Hnd as [Hk Hnd].
  destruct (P (k, v)); simpl; [|auto].
  apply NoDup_cons. split; [|auto].
  intros Hin. apply Hk.
  apply list_elem_of_In, in_map_iff in Hin as ([k' v'] & <- & Hin).
  apply filter_In in Hin as [Hin _].
  apply list_elem_of_In. by apply (in_map fst) in Hin.
Qed.

Lemma remove_expired_states now (flows : Dict.t FlowData.t) :
  NoDup (Dict.keys flows) ->
  Trace.remove_all (Auth.expired_states now flows) flows = Trace.live_flows now flows.
Proof. intros H. unfold Auth.expired_states. by rewrite remove_all_filter. Qed.

Lemma cleanup_auth_flows_run e w :
  NoDup (Dict.keys (auth_flows w)) ->
  Auth.cleanup_auth_flows e w = (Return tt, Trace.after_cleanup e w).
Proof.
  intros Hnd. unfold Auth.cleanup_auth_flows.
  unfold Py.bind at 1, time_time. unfold Py.bind at 1, Py.get_state at 1.
  unfold Py.bind at 1.
  rewrite expire_loop_run.
  - unfold Py.bind at 1, Py.get_state at 1.
    cbn [auth_flows set_auth_flows Trace.add_log].
    rewrite !(remove_expired_states _ _ Hnd).
    unfold Trace.after_cleanup.
    destruct (10 <? length (Trace.live_flows (clock w) (auth_flows w)))%nat; [|done].
    unfold Py.bind at 1. rewrite evict_loop_run, assign_auth_flows_run.
    f_equal. destruct w; unfold set_auth_flows, Trace.add_log; simpl.
    by rewrite <- !app_assoc.
  - apply (NoDup_map_fst_filter _ _ Hnd).
  - intros k Hk. apply dict_contains_In.
    apply in_map_iff in Hk as ([k' v'] & <- & Hin).
    apply filter_In in Hin as [Hin _]. by apply (in_map fst) in Hin.
Qed.


Lemma filter_partition_perm {A} (P : A -> bool) (l : list A) :
  Permutation l (List.filter (fun x => negb (P x)) l ++ List.filter P l).
Proof.
  induction l as [|x l IH]; simpl; [done|].
  destruct (P x); simpl.
  - by apply Permutation_cons_app.
  - by constructor.
Qed.

Lemma live_flows_In now flows sd :
  In sd (Trace.live_flows now flows) <->
  In sd flows /\ (now - FlowData.created_at (snd sd) <= 1800)%Q.
Proof.
  unfold Trace.live_flows, Trace.expired.
  by rewrite filter_In, negb_true_iff, Qltb_false.
Qed.

Lemma expired_In now (flows : Dict.t FlowData.t) sd :
  In sd (List.filter (Trace.expired now) flows) <->
  In sd flows /\ (1800 < now - FlowData.created_at (snd sd))%Q.
Proof. unfold Trace.expired. by rewrite filter_In, Qltb_true. Qed.

Lemma NoDup_keys_perm {V} (d d' : Dict.t V) :
  Permutation d d' -> NoDup (Dict.keys d) -> NoDup (Dict.keys d').
Proof.
  intros Hp Hnd. unfold Dict.keys in *.
  apply (Permutation_map fst) in Hp. by rewrite <- Hp.
Qed.

Lemma NoDup_keys_take {V} (d : Dict.t V) n :
  NoDup (Dict.keys d) -> NoDup (Dict.keys (take n d)).
Proof.
  unfold Dict.keys. rewrite <- (take_drop n d) at 1.
  rewrite map_app. intros H. by apply NoDup_app in H as [H _].
Qed.

Lemma In_take {A} (x : A) n (l : list A) : In x (take n l) -> In x l.
Proof. rewrite <- !list_elem_of_In. apply subseteq_take. Qed.

(** C4.  On a flow map with distinct keys, [cleanup_auth_flows] returns
    (it raises nothing) and
    - no surviving record is older than 1800 seconds at the time of the run;
    - the records of before are the survivors, unchanged, together with the
      dropped ones, and no dropped record was created later than a survivor:
      the oldest go first;
    - the survivors number 10, the limit of the run, when more than 10
      records are not expired, and else are exactly the records that are not
      expired: a record that is not expired is dropped only over the limit;
    - the keys of the survivors are distinct. *)
Theorem cleanup_auth_flows_spec (e : Auth.env) (w : world) :
  NoDup (Dict.keys (auth_flows w)) ->
  exists w' dropped,
    Auth.cleanup_auth_flows e w = (Return tt, w')
    /\ (forall s d, In (s, d) (auth_flows w') ->
          ~ (1800 < clock w - FlowData.created_at d)%Q)
    /\ Permutation (auth_flows w) (auth_flows w' ++ dropped)
    /\ (forall kept gone, In kept (auth_flows w') -> In gone dropped ->
          Trace.newer_first kept gone)
    /\ length (auth_flows w')
       = Nat.min 10 (length (Trace.live_flows (clock w) (auth_flows w)))
    /\ ((length (Trace.live_flows (clock w) (auth_flows w)) <= 10)%nat ->
          auth_flows w' = Trace.live_flows (clock w) (auth_flows w))
    /\ NoDup (Dict.keys (auth_flows w'))
    /\ clock w' = clock w /\ storage w' = storage w.
Proof.
  intros Hnd.
  set (now := clock w). set (flows := auth_flows w).
  set (live := Trace.live_flows now flows).
  set (gone_expired := List.filter (Trace.expired now) flows).
  assert (Hpart : Permutation flows (live ++ gone_expired))
    by apply filter_partition_perm.
  assert (Hlive_nd : NoDup (Dict.keys live))
    by (by apply NoDup_map_fst_filter).
  assert (Hold : forall kept gone, In kept live -> In gone gone_expired ->
                   Trace.newer_first kept gone).
  { intros kept gone Hk Hg. apply live_flows_In in Hk as [_ Hk].
    apply expired_In in Hg as [_ Hg]. unfold Trace.newer_first. lra. }
  destruct (10 <? length live)%nat eqn:Hlen.
  - apply Nat.ltb_lt in Hlen.
    set (sorted := Auth.sorted_newest_first live).
    assert (Hsp : Permutation sorted live) by apply sorted_newest_first_perm.
    assert (Hnew : Dict.of_items (take 10 sorted) = take 10 sorted).
    { apply dict_of_items_distinct, NoDup_keys_take.
      eapply NoDup_keys_perm; [symmetry; exact Hsp | done]. }
    exists (Trace.after_cleanup e w), (drop 10 sorted ++ gone_expired)%list.
    rewrite (cleanup_auth_flows_run _ _ Hnd).
    unfold Trace.after_cleanup. fold now flows live.
    apply Nat.ltb_lt in Hlen as Hlen'. rewrite Hlen'. fold sorted.
    rewrite Hnew. cbn [auth_flows set_auth_flows Trace.add_log clock storage].
    split; [done|]. split; [|split; [|split; [|split; [|split; [|split; [|done]]]]]].
    + intros s d Hin. apply (In_take) in Hin.
      apply (Permutation_in _ Hsp), live_flows_In in Hin as [_ Hin].
      simpl in Hin. fold now. lra.
    + rewrite app_assoc, take_drop. by rewrite Hsp.
    + intros kept gone Hk Hg. apply in_app_or in Hg as [Hg|Hg].
      * eapply (strongly_sorted_app_inv _ (take 10 sorted) (drop 10 sorted)); try done.
        rewrite take_drop. apply sorted_newest_first_sorted.
      * apply Hold; [|done]. apply (Permutation_in _ Hsp). by apply In_take in Hk.
    + rewrite length_take, (Permutation_length Hsp). lia.
    + intros Hle. lia.
    + apply NoDup_keys_take. eapply NoDup_keys_perm; [symmetry; exact Hsp | done].
  - apply Nat.ltb_ge in Hlen.
    exists (Trace.after_cleanup e w), gone_expired.
    rewrite (cleanup_auth_flows_run _ _ Hnd).
    unfold Trace.after_cleanup. fold now flows live.
    apply Nat.ltb_ge in Hlen as Hlen'. rewrite Hlen'.
    cbn [auth_flows set_auth_flows Trace.add_log clock storage].
    split; [done|]. split; [|split; [|split; [|split; [|split; [|split; [|done]]]]]].
    + intros s d Hin. apply live_flows_In in Hin as [_ Hin]. simpl in Hin.
      fold now. lra.
    + done.
    + done.
    + lia.
    + done.
    + done.
Qed.

Lemma cleanup_auth_flows_spec_witness :
  exists w' dropped,
    Auth.cleanup_auth_flows Samples.quiet_env
      (Samples.world_of 2000 Samples.twenty_flows) = (Return tt, w')
    /\ Permutation Samples.twenty_flows (auth_flows w' ++ dropped)
    /\ length (auth_flows w') = 10%nat.
Proof.
  destruct (cleanup_auth_flows_spec Samples.quiet_env
              (Samples.world_of 2000 Samples.twenty_flows))
    as (w' & dropped & Hrun & _ & Hperm & _ & Hlen & _).
  - apply (bool_decide_unpack _). vm_compute. exact I.
  - exists w', dropped. split; [exact Hrun|]. split; [exact Hperm|exact Hlen].
Defined.


(** ** The credential store *)

Ltac run_store :=
  unfold Storage.store_credential, Storage.get_credential, Storage.list_credentials,
    Storage.get_all_credential_states, Storage._ensure_initialized,
    Storage._get_default_state, Storage.cache_get, Storage.cache_set,
    Storage.cache_get_all, Storage.bump_operation_count,
    Storage.record_operation_time, Storage.with_storage,
    Py.try_except, Py.bind, Py.get_state, Py.modify, Py.ret, Py.raise, time_time;
  cbn [storage set_storage set_cache _initialized _credentials_cache_manager
       cache_data clock fst snd].

Lemma store_credential_run (w : world) (filename : string) (blob : Dict.t json) :
  _initialized (storage w) = true ->
  exists w',
    Storage.store_credential filename blob w = (Return true, w')
    /\ Trace.credentials_table w'
       = <[filename :=
            [("credential", JDict blob);
             ("state", Dict.get_default (default [] (Trace.credentials_table w !! filename))
                         "state" (JDict (Trace.default_state_at (clock w))));
             ("stats", Dict.get_default (default [] (Trace.credentials_table w !! filename))
                         "stats" (JDict Storage._get_default_stats))]]>
         (Trace.credentials_table w)
    /\ _initialized (storage w') = true
    /\ clock w' = clock w /\ auth_flows w' = auth_flows w /\ log w' = log w.
Proof.
  intros Hinit. run_store. rewrite Hinit. cbn.
  eexists. split; [reflexivity|]. by rewrite Hinit.
Qed.

(** C6.  On an initialised manager [store_credential filename blob] succeeds
    and, in the credentials table,
    - if a record was stored under [filename], the new record holds [blob]
      and the very ["state"] and ["stats"] the old record had;
    - if [filename] is new, the new record holds [blob], the state
      [disabled = False], [error_codes = []], [last_success = now]
      ([user_email = None]), and empty stats;
    - the record of every other name is the same as before. *)
Theorem store_credential_preserves_health (w : world) (filename : string)
    (blob : Dict.t json) :
  _initialized (storage w) = true ->
  exists w' new,
    Storage.store_credential filename blob w = (Return true, w')
    /\ Trace.credentials_table w' !! filename = Some new
    /\ Dict.get new "credential" = Some (JDict blob)
    /\ match Trace.credentials_table w !! filename with
       | Some old =>
           (forall health, Dict.get old "state" = Some health ->
              Dict.get new "state" = Some health)
           /\ (forall stats, Dict.get old "stats" = Some stats ->
                 Dict.get new "stats" = Some stats)
       | None =>
           Dict.get new "state"
           = Some (JDict [("error_codes", JList []);
                          ("disabled", JBool false);
                          ("last_success", JNum (clock w));
                          ("user_email", JNull)])
           /\ Dict.get new "stats" = Some (JDict [("call_timestamps", JList [])])
       end
    /\ (forall other, other <> filename ->
          Trace.credentials_table w' !! other = Trace.credentials_table w !! other).
Proof.
  intros Hinit.
  destruct (store_credential_run w filename blob Hinit) as (w' & Hrun & Htab & _).
  exists w'. eexists. split; [exact Hrun|]. rewrite Htab.
  split; [apply lookup_insert_eq|]. split; [reflexivity|]. split.
  - destruct (Trace.credentials_table w !! filename) as [old|]; simpl.
    + unfold Dict.get_default. split; intros ? ->; reflexivity.
    + split; reflexivity.
  - intros other Hne. by apply lookup_insert_ne.
Qed.

Lemma store_credential_preserves_health_witness :
  exists w' new,
    Storage.store_credential "a.json" Samples.new_blob Samples.stocked_world
      = (Return true, w')
    /\ Trace.credentials_table w' !! "a.json" = Some new
    /\ Dict.get new "state" = Dict.get Samples.used_entry "state"
    /\ Trace.credentials_table w' !! "b.json" = Some Samples.disabled_entry.
Proof.
  destruct (store_credential_preserves_health Samples.stocked_world "a.json"
              Samples.new_blob eq_refl) as (w' & new & Hrun & Hnew & _ & Hold & Hother).
  exists w', new. split; [exact Hrun|]. split; [exact Hnew|]. split.
  - change (Trace.credentials_table Samples.stocked_world !! "a.json")
      with (Some Samples.used_entry) in Hold.
    destruct Hold as [Hstate _]. apply Hstate. reflexivity.
  - rewrite (Hother "b.json"); [reflexivity | discriminate].
Defined.


Lemma store_credential_success_initialized w filename blob w' :
  Storage.store_credential filename blob w = (Return true, w') ->
  _initialized (storage w) = true.
Proof.
  run_store. destruct (_initialized (storage w)); [done|]. simpl. discriminate.
Qed.

Lemma get_credential_run (w : world) (filename : string) :
  _initialized (storage w) = true ->
  exists w',
    Storage.get_credential filename w
    = (Return (match Trace.credentials_table w !! filename with
               | Some e => if Dict.truthy e then Dict.get e "credential" else None
               | None => None
               end), w').
Proof.
  intros Hinit. run_store. rewrite Hinit. cbn.
  unfold Trace.credentials_table.
  destruct (cache_data _ !! filename) as [e|]; [|by eexists].
  unfold Dict.contains. destruct (Dict.truthy e); simpl; [|by eexists].
  destruct (Dict.get e "credential"); by eexists.
Qed.

Lemma list_credentials_run (w : world) :
  _initialized (storage w) = true ->
  Storage.list_credentials w
  = (Return (elements (dom (Trace.credentials_table w))), w).
Proof. intros Hinit. run_store. by rewrite Hinit. Qed.

(** C7.  When [store_credential filename blob] has returned [True], an
    immediate [get_credential filename] returns [blob] itself, and
    [list_credentials] returns a list that contains [filename]. *)
Theorem store_then_get_credential (w w1 : world) (filename : string)
    (blob : Dict.t json) :
  Storage.store_credential filename blob w = (Return true, w1) ->
  (exists w2, Storage.get_credential filename w1 = (Return (Some (JDict blob)), w2))
  /\ (exists names w3,
        Storage.list_credentials w1 = (Return names, w3) /\ In filename names).
Proof.
  intros Hrun.
  pose proof (store_credential_success_initialized _ _ _ _ Hrun) as Hinit.
  destruct (store_credential_run w filename blob Hinit) as (w' & Hrun' & Htab & Hinit' & _).
  rewrite Hrun in Hrun'. injection Hrun' as <-.
  split.
  - destruct (get_credential_run w1 filename Hinit') as (w2 & Hget).
    exists w2. rewrite Hget, Htab, lookup_insert_eq. reflexivity.
  - exists (elements (dom (Trace.credentials_table w1))), w1.
    split; [by apply list_credentials_run|].
    apply list_elem_of_In, elem_of_elements, elem_of_dom.
    rewrite Htab, lookup_insert_eq. by eexists.
Qed.

Lemma store_then_get_credential_witness :
  exists w1 w2,
    Storage.store_credential "c.json" Samples.new_blob Samples.stocked_world
      = (Return true, w1)
    /\ Storage.get_credential "c.json" w1 = (Return (Some (JDict Samples.new_blob)), w2).
Proof.
  destruct (store_credential_run Samples.stocked_world "c.json" Samples.new_blob eq_refl)
    as (w1 & Hrun & _).
  destruct (store_then_get_credential _ _ _ _ Hrun) as [(w2 & Hget) _].
  exists w1, w2. split; [exact Hrun | exact Hget].
Defined.

Lemma get_all_credential_states_run (w : world) :
  _initialized (storage w) = true ->
  Storage.get_all_credential_states w
  = (Return ((fun data : entry =>
                Dict.get_default data "state"
                  (JDict (Trace.default_state_at (clock w))))
             <$> Trace.credentials_table w), w).
Proof. intros Hinit. run_store. by rewrite Hinit. Qed.

Lemma get_all_credential_states_uninitialized (w : world) :
  _initialized (storage w) = false ->
  Storage.get_all_credential_states w
  = (Raise (Exn RuntimeError "MySQL manager not initialized"), w).
Proof. intros Hinit. run_store. by rewrite Hinit. Qed.

(** C8.  [get_all_credential_states] returns, for each name of the table
    and for no other name, the ["state"] of its record (the default state if
    the record has none); and what it returns does not depend on the secrets:
    two worlds with the same clock and the same initialisation flag whose
    tables have the same names and, name by name, the same ["state"], give the
    same result, whatever their ["credential"] blobs are.  In particular,
    replacing the blob of a record by any other value leaves the result
    unchanged. *)
Theorem get_all_credential_states_hides_secrets :
  (forall w, _initialized (storage w) = true ->
     exists states,
       Storage.get_all_credential_states w = (Return states, w)
       /\ forall filename,
            states !! filename
            = (fun data : entry =>
                 Dict.get_default data "state"
                   (JDict (Trace.default_state_at (clock w))))
              <$> Trace.credentials_table w !! filename)
  /\ (forall w1 w2,
        clock w1 = clock w2 ->
        _initialized (storage w1) = _initialized (storage w2) ->
        (forall filename,
           (fun data : entry => Dict.get data "state")
             <$> Trace.credentials_table w1 !! filename
           = (fun data : entry => Dict.get data "state")
             <$> Trace.credentials_table w2 !! filename) ->
        fst (Storage.get_all_credential_states w1)
        = fst (Storage.get_all_credential_states w2))
  /\ (forall w filename blob,
        fst (Storage.get_all_credential_states (Trace.replace_secret filename blob w))
        = fst (Storage.get_all_credential_states w)).
Proof.
  assert (Hlow : forall w1 w2,
        clock w1 = clock w2 ->
        _initialized (storage w1) = _initialized (storage w2) ->
        (forall filename,
           (fun data : entry => Dict.get data "state")
             <$> Trace.credentials_table w1 !! filename
           = (fun data : entry => Dict.get data "state")
             <$> Trace.credentials_table w2 !! filename) ->
        fst (Storage.get_all_credential_states w1)
        = fst (Storage.get_all_credential_states w2)).
  { intros w1 w2 Hclock Hinit Hstates.
    destruct (_initialized (storage w2)) eqn:Hinit2.
    - rewrite !get_all_credential_states_run by done. simpl. f_equal.
      apply map_eq. intros filename. rewrite !lookup_fmap, Hclock.
      specialize (Hstates filename). unfold Dict.get_default.
      destruct (Trace.credentials_table w1 !! filename),
               (Trace.credentials_table w2 !! filename);
        simpl in *; try discriminate; [|done].
      injection Hstates as Hstates. by rewrite Hstates.
    - by rewrite !get_all_credential_states_uninitialized. }
  split; [|split; [exact Hlow|]].
  - intros w Hinit. eexists. split; [by apply get_all_credential_states_run|].
    intros filename. by rewrite lookup_fmap.
  - intros w filename blob. apply Hlow; [by destruct w | by destruct w |].
    intros other. unfold Trace.replace_secret, Trace.credentials_table at 1.
    cbn [storage set_storage set_cache _credentials_cache_manager cache_data].
    rewrite lookup_alter. case_decide as Heq; [|done].
    subst other. destruct (Trace.credentials_table w !! filename) as [e|]; [|done].
    simpl. f_equal. by apply dict_get_set_ne.
Qed.

Lemma get_all_credential_states_hides_secrets_witness :
  fst (Storage.get_all_credential_states
         (Trace.replace_secret "a.json" (JStr "redacted") Samples.stocked_world))
  = fst (Storage.get_all_credential_states Samples.stocked_world)
  /\ exists states,
       Storage.get_all_credential_states Samples.stocked_world
       = (Return states, Samples.stocked_world)
       /\ states !! "a.json" = Dict.get Samples.used_entry "state".
Proof.
  destruct get_all_credential_states_hides_secrets as (Hall & Hlow & _).
  split.
  - apply Hlow; [reflexivity | reflexivity |].
    intros filename. unfold Trace.replace_secret, Trace.credentials_table at 1.
    cbn [storage set_storage set_cache _credentials_cache_manager cache_data].
    rewrite lookup_alter. case_decide as Heq; [|reflexivity].
    subst filename. reflexivity.
  - destruct (Hall Samples.stocked_world eq_refl) as (states & Hrun & Hlook).
    exists states. split; [exact Hrun|]. rewrite Hlook. reflexivity.
Defined.


(** ** [load_data] *)

(** C9.  [load_data] always returns a value, whatever the database does:
    it never raises.  It returns the empty dictionary when any of the calls of
    the read raises ([acquire], [cursor], [execute], [fetchone], or
    [json.loads] on the text read), when no row matches, when the row is an
    empty tuple, and when the [data] column of the row is [NULL]. *)
Theorem load_data_empty_on_failure (db : Backend.store) :
  (exists data, Backend.load_data db tt = (Return data, tt))
  /\ ((exists ex, Backend.acquire db = Error ex
                  \/ Backend.cursor db = Error ex
                  \/ Backend.execute db = Error ex
                  \/ Backend.fetchone db = Error ex) ->
      Backend.load_data db tt = (Return (JDict []), tt))
  /\ (forall text ex,
        Backend.fetchone db = Ok (Some [Some (Backend.ColStr text)]) ->
        Backend.json_loads db text = Error ex ->
        Backend.load_data db tt = (Return (JDict []), tt))
  /\ (Backend.fetchone db = Ok None ->
      Backend.load_data db tt = (Return (JDict []), tt))
  /\ (Backend.fetchone db = Ok (Some []) ->
      Backend.load_data db tt = (Return (JDict []), tt))
  /\ (forall others, Backend.fetchone db = Ok (Some (None :: others)) ->
      Backend.load_data db tt = (Return (JDict []), tt)).
Proof.
  unfold Backend.load_data, Py.try_except, Py.bind, Py.lift, Py.ret.
  destruct (Backend.acquire db) as [[]|e1] eqn:H1,
           (Backend.cursor db) as [[]|e2] eqn:H2,
           (Backend.execute db) as [[]|e3] eqn:H3,
           (Backend.fetchone db) as [row|e4] eqn:H4;
    try (repeat split;
         first [ by eexists
               | intros; reflexivity ]).
  repeat split.
  - destruct row as [[|[[text|d|other]|] others]|]; try by eexists.
    destruct (Backend.json_loads db text); by eexists.
  - intros (ex & [H|[H|[H|H]]]); discriminate.
  - intros text ex [= ->] ->. reflexivity.
  - intros [= ->]. reflexivity.
  - intros [= ->]. reflexivity.
  - intros others [= ->]. reflexivity.
Qed.

Lemma load_data_empty_on_failure_witness :
  Backend.load_data Samples.broken_store tt = (Return (JDict []), tt).
Proof.
  destruct (load_data_empty_on_failure Samples.broken_store) as (_ & Hfail & _).
  apply Hfail. eexists. left. reflexivity.
Defined.

(** ** The login route *)

Lemma login_returns (e : Login.env) (username password : string) (st st' : Login.state)
    (r : option (Dict.t json)) :
  Login.login e username password st = (Return r, st') ->
  r = None \/ exists d, r = Some d /\ Dict.keys d = ["token"; "user_id"; "role"; "api_key"].
Proof.
  unfold Login.login, Login.select_user, Login.insert_token,
    Py.bind, Py.get_state, Py.modify, Py.ret, Py.raise.
  destruct (Login.select_fails e); [discriminate|].
  destruct (find _ _) as [row|]; [|intros [= <- _]; by left].
  destruct (Login.u_disabled row); [intros [= <- _]; by left|].
  destruct (Login.insert_fails e); [discriminate|].
  intros [= <- _]. right. by eexists.
Qed.

Lemma login_no_fuel (e : Login.env) (username password : string) (st : Login.state) :
  fst (Login.login e username password st) <> OutOfFuel.
Proof.
  unfold Login.login, Login.select_user, Login.insert_token,
    Py.bind, Py.get_state, Py.modify, Py.ret, Py.raise.
  destruct (Login.select_fails e); [done|].
  destruct (find _ _) as [row|]; [|done].
  destruct (Login.u_disabled row); [done|].
  destruct (Login.insert_fails e); done.
Qed.

(** C10.  The handler of [POST /auth/login] never returns a token response:
    for every user database, user name and password it ends in a raised
    exception.  [UserManager.login] returns [None] or a dictionary of four
    keys; unpacking its value into three variables raises [TypeError] in the
    first case and [ValueError] in the second, and when the database itself
    fails the handler raises the database's exception. *)
Theorem login_route_always_raises (e : Login.env) (username password : string)
    (st : Login.state) :
  exists ex st',
    Login.login_route e username password st = (Raise ex, st')
    /\ match Login.login e username password st with
       | (Return None, _) => exn_cls ex = TypeError
       | (Return (Some d), _) => exn_cls ex = ValueError /\ length (Dict.keys d) = 4%nat
       | (Raise db_error, _) =>
           ex = db_error
           /\ (Login.select_fails e = Some db_error \/ Login.insert_fails e = Some db_error)
       | (OutOfFuel, _) => False
       end.
Proof.
  unfold Login.login_route. unfold Py.bind at 1.
  pose proof (login_returns e username password st) as Hret.
  pose proof (login_no_fuel e username password st) as Hfuel.
  destruct (Login.login e username password st) as [[r|db_error|] st1] eqn:Hlogin;
    [| |done].
  - destruct (Hret st1 r eq_refl) as [->|(d & -> & Hkeys)].
    + eexists _, _. split; [reflexivity|]. reflexivity.
    + assert (Hunpack : Login.unpack3 (Some d)
                        = Error (Exn ValueError "too many values to unpack (expected 3)"))
        by (unfold Login.unpack3; by rewrite Hkeys).
      unfold Py.bind, Py.lift. rewrite Hunpack.
      eexists _, _. split; [reflexivity|]. by rewrite Hkeys.
  - eexists _, _. split; [reflexivity|]. split; [done|].
    revert Hlogin.
    unfold Login.login, Login.select_user, Login.insert_token,
      Py.bind, Py.get_state, Py.modify, Py.ret, Py.raise.
    destruct (Login.select_fails e); [intros [= -> _]; by left|].
    destruct (find _ _) as [row|]; [|discriminate].
    destruct (Login.u_disabled row); [discriminate|].
    destruct (Login.insert_fails e); [intros [= -> _]; by right | discriminate].
Qed.

(** The right password of an active account: the token is created and stored,
    and the handler still raises. *)
Example login_route_good_password :
  exists st',
    Login.login_route Samples.login_env "admin" "admin" Samples.login_state
    = (Raise (Exn ValueError "too many values to unpack (expected 3)"), st')
    /\ Login.tokens st' = [("tok-123", "u1", (5000 + 30 * 24 * 3600)%Q)].
Proof. eexists. split; reflexivity. Qed.

(** A wrong password. *)
Example login_route_bad_password :
  Login.login_route Samples.login_env "admin" "nope" Samples.login_state
  = (Raise (Exn TypeError "cannot unpack non-iterable NoneType object"),
     Samples.login_state).
Proof. reflexivity. Qed.


(** ** [get_auth_flow] *)

Lemma scan_flows_sound selected user_session items : forall found,
  match Auth.scan_flows selected user_session items found with
  | inl (s, d) => In (s, d) items /\ selected d = true
  | inr (a, b) =>
      (a, b) = found
      \/ exists s d, a = Some s /\ b = Some d /\ In (s, d) items /\ selected d = true
  end.
Proof.
  induction items as [|[s d] items IH]; intros found; simpl.
  - destruct found. by left.
  - destruct (selected d) eqn:Hsel.
    + destruct (Py.truthy user_session && _).
      * split; [by left | done].
      * destruct (negb (Py.truthy found.1)).
        -- specialize (IH (Some s, Some d)).
           destruct (Auth.scan_flows _ _ _ _) as [[s' d']|[a b]].
           ++ destruct IH. split; [by right | done].
           ++ right. destruct IH as [[= -> ->]|(s' & d' & -> & -> & Hin & Hs)].
              ** exists s, d. repeat split; [by left | done].
              ** exists s', d'. repeat split; [by right | done].
        -- specialize (IH found).
           destruct (Auth.scan_flows _ _ _ _) as [[s' d']|[a b]].
           ++ destruct IH. split; [by right | done].
           ++ destruct IH as [IH|(s' & d' & -> & -> & Hin & Hs)]; [by left|].
              right. exists s', d'. repeat split; [by right | done].
    + specialize (IH found).
      destruct (Auth.scan_flows _ _ _ _) as [[s' d']|[a b]].
      * destruct IH. split; [by right | done].
      * destruct IH as [IH|(s' & d' & -> & -> & Hin & Hs)]; [by left|].
        right. exists s', d'. repeat split; [by right | done].
Qed.

(** [get_auth_flow] reads the map and changes nothing; the record it returns
    is stored under the state it returns, and when no project id is given it
    is a record flagged for automatic project detection. *)
Lemma get_auth_flow_sound project_id user_session w :
  exists found,
    Auth.get_auth_flow project_id user_session w = (Return found, w)
    /\ forall state flow_data,
         found = (Some state, Some flow_data) ->
         In (state, flow_data) (auth_flows w)
         /\ (Py.truthy project_id = false ->
             FlowData.auto_project_detection flow_data = true).
Proof.
  unfold Auth.get_auth_flow, Py.bind, Py.get_state.
  destruct (Py.truthy project_id) eqn:Hpid.
  - pose proof (scan_flows_sound
                  (fun data => bool_decide (FlowData.project_id data = project_id))
                  user_session (auth_flows w) (None, None)) as H1.
    destruct (Auth.scan_flows _ _ _ _) as [[s d]|[a b]].
    + eexists. split; [reflexivity|]. intros ? ? [= <- <-]. split; [tauto | done].
    + destruct (negb (Py.truthy a)) eqn:Ha.
      * pose proof (scan_flows_sound FlowData.auto_project_detection
                      user_session (auth_flows w) (a, b)) as H2.
        destruct (Auth.scan_flows _ _ _ _) as [[s d]|[a' b']].
        -- eexists. split; [reflexivity|]. intros ? ? [= <- <-]. split; [tauto | done].
        -- eexists. split; [reflexivity|]. intros ? ? [= -> ->]. split; [|done].
           destruct H2 as [[= <- <-]|(s & d & [= <-] & [= <-] & Hin & _)]; [|done].
           destruct H1 as [[=]|(s & d & [= <-] & [= <-] & Hin & _)]. done.
      * eexists. split; [reflexivity|]. intros ? ? [= -> ->]. split; [|done].
        destruct H1 as [[=]|(s & d & [= <-] & [= <-] & Hin & _)]. done.
  - simpl.
    pose proof (scan_flows_sound FlowData.auto_project_detection
                  user_session (auth_flows w) (None, None)) as H2.
    destruct (Auth.scan_flows _ _ _ _) as [[s d]|[a' b']].
    + eexists. split; [reflexivity|]. intros ? ? [= <- <-]. tauto.
    + eexists. split; [reflexivity|]. intros ? ? [= -> ->].
      destruct H2 as [[=]|(s & d & [= <-] & [= <-] & Hin & Hs)]. tauto.
Qed.

Lemma get_auth_flow_located project_id user_session w state flow_data :
  NoDup (Dict.keys (auth_flows w)) ->
  Auth.get_auth_flow project_id user_session w = (Return (Some state, Some flow_data), w) ->
  Dict.get (auth_flows w) state = Some flow_data
  /\ (Py.truthy project_id = false ->
      FlowData.auto_project_detection flow_data = true).
Proof.
  intros Hnd Hget.
  destruct (get_auth_flow_sound project_id user_session w) as (found & Hrun & Hfound).
  rewrite Hget in Hrun. injection Hrun as <-.
  destruct (Hfound _ _ eq_refl) as [Hin Hauto].
  split; [by apply dict_In_get | done].
Qed.

(** What [complete_auth_flow] does once the flow is located (line 311 on). *)
Lemma complete_auth_flow_located e fuel project_id user_session w state flow_data :
  NoDup (Dict.keys (auth_flows w)) ->
  Auth.get_auth_flow project_id user_session w = (Return (Some state, Some flow_data), w) ->
  Py.truthy_str state = true ->
  Auth.complete_auth_flow e fuel project_id user_session w
  = Py.try_except
      (timed_out <- Auth.wait_for_callback e fuel state flow_data ;;
       if timed_out : bool
       then Py.ret (Auth.Failure "Callback timeout")
       else Auth.exchange_and_finish e state flow_data project_id)
      (fun ex => Py.ret (Auth.Failure (exn_str ex))) w.
Proof.
  intros Hnd Hget Hstate.
  destruct (get_auth_flow_located _ _ _ _ _ Hnd Hget) as [_ Hauto].
  unfold Auth.complete_auth_flow, Py.try_except. unfold Py.bind at 1.
  rewrite Hget, Hstate. cbn [negb].
  destruct (Py.truthy project_id) eqn:Hpid; cbn [negb andb]; [done|].
  rewrite (Hauto eq_refl). done.
Qed.


Lemma dict_get_default_Some {V} (d : Dict.t V) k v dflt :
  Dict.get d k = Some v -> Dict.get_default d k dflt = v.
Proof. unfold Dict.get_default. by intros ->. Qed.

(** ** Relations kept by the steps of a method *)

Section Preserves.
Variable R : world -> world -> Prop.
Hypothesis R_refl : forall w, R w w.
Hypothesis R_trans : forall w1 w2 w3, R w1 w2 -> R w2 w3 -> R w1 w3.

Lemma preserves_ret {A} (a : A) : Trace.preserves R (Py.ret a).
Proof. intros w r w' [= _ <-]. apply R_refl. Qed.

Lemma preserves_raise {A} ex : Trace.preserves R (@Py.raise world A ex).
Proof. intros w r w' [= _ <-]. apply R_refl. Qed.

Lemma preserves_lift {A} (x : Py.result A) : Trace.preserves R (Py.lift x).
Proof. intros w r w'. unfold Py.lift. destruct x; intros [= _ <-]; apply R_refl. Qed.

Lemma preserves_get_state : Trace.preserves R Py.get_state.
Proof. intros w r w' [= _ <-]. apply R_refl. Qed.

Lemma preserves_time_time : Trace.preserves R time_time.
Proof. intros w r w' [= _ <-]. apply R_refl. Qed.

Lemma preserves_modify (f : world -> world) :
  (forall w, R w (f w)) -> Trace.preserves R (Py.modify f).
Proof. intros Hf w r w' [= _ <-]. apply Hf. Qed.

Lemma preserves_bind {A B} (c : Py.M world A) (k : A -> Py.M world B) :
  Trace.preserves R c -> (forall a, Trace.preserves R (k a)) ->
  Trace.preserves R (Py.bind c k).
Proof.
  intros Hc Hk w r w'. unfold Py.bind.
  destruct (c w) as [[a|ex|] w1] eqn:Hcw.
  - intros Hkw. eapply R_trans; [eapply Hc | eapply Hk]; eauto.
  - intros [= _ <-]. eapply Hc; eauto.
  - intros [= _ <-]. eapply Hc; eauto.
Qed.

Lemma preserves_try_except {A} (c : Py.M world A) (h : Py.exn -> Py.M world A) :
  Trace.preserves R c -> (forall ex, Trace.preserves R (h ex)) ->
  Trace.preserves R (Py.try_except c h).
Proof.
  intros Hc Hh w r w'. unfold Py.try_except.
  destruct (c w) as [[a|ex|] w1] eqn:Hcw.
  - intros [= _ <-]. eapply Hc; eauto.
  - intros Hhw. eapply R_trans; [eapply Hc | eapply Hh]; eauto.
  - intros [= _ <-]. eapply Hc; eauto.
Qed.

Lemma preserves_for_each {A} (xs : list A) (body : A -> Py.M world unit) :
  (forall x, Trace.preserves R (body x)) -> Trace.preserves R (Py.for_each xs body).
Proof.
  intros Hbody. induction xs as [|x xs IH]; simpl.
  - apply preserves_ret.
  - apply preserves_bind; auto.
Qed.

End Preserves.

Lemma preserves_weaken {A} (R R' : world -> world -> Prop) (c : Py.M world A) :
  (forall w w', R w w' -> R' w w') -> Trace.preserves R c -> Trace.preserves R' c.
Proof. intros HR Hc w r w' Hrun. eapply HR, Hc, Hrun. Qed.

(** Applies the rules above along the structure of a method. *)
Ltac preserves_steps Hrefl Htrans leaf :=
  repeat first
    [ leaf
    | apply (preserves_ret _ Hrefl)
    | apply (preserves_raise _ Hrefl)
    | apply (preserves_lift _ Hrefl)
    | apply (preserves_get_state _ Hrefl)
    | apply (preserves_time_time _ Hrefl)
    | apply (preserves_bind _ Htrans); [|intros ?]
    | apply (preserves_try_except _ Htrans); [|intros ?]
    | apply (preserves_for_each _ Hrefl Htrans); intros ?
    | match goal with
      | |- Trace.preserves _ (if ?b then _ else _) => destruct b
      | |- Trace.preserves _ (match ?x with _ => _ end) => destruct x
      | |- Trace.preserves _ (let '(_, _) := ?x in _) => destruct x
      end ].

Lemma only_storage_refl w : Trace.only_storage w w.
Proof. by repeat split. Qed.

Lemma only_storage_trans w1 w2 w3 :
  Trace.only_storage w1 w2 -> Trace.only_storage w2 w3 -> Trace.only_storage w1 w3.
Proof.
  intros (H1 & H2 & H3 & H4) (H1' & H2' & H3' & H4').
  repeat split; congruence.
Qed.

Lemma with_storage_only_storage f : Trace.preserves Trace.only_storage (Storage.with_storage f).
Proof.
  apply (preserves_modify _). intros w. by repeat split.
Qed.

Lemma cache_get_only_storage k : Trace.preserves Trace.only_storage (Storage.cache_get k).
Proof. intros w r w' [= _ <-]. apply only_storage_refl. Qed.

Lemma cache_get_all_only_storage : Trace.preserves Trace.only_storage Storage.cache_get_all.
Proof. intros w r w' [= _ <-]. apply only_storage_refl. Qed.

Ltac storage_leaf :=
  first [ apply with_storage_only_storage
        | apply cache_get_only_storage
        | apply cache_get_all_only_storage ].

Ltac storage_steps :=
  preserves_steps only_storage_refl only_storage_trans storage_leaf.

Lemma store_credential_only_storage filename blob :
  Trace.preserves Trace.only_storage (Storage.store_credential filename blob).
Proof.
  unfold Storage.store_credential, Storage._ensure_initialized, Storage._get_default_state,
    Storage.cache_set, Storage.bump_operation_count, Storage.record_operation_time.
  storage_steps.
Qed.

Lemma update_credential_state_only_storage filename updates :
  Trace.preserves Trace.only_storage (Storage.update_credential_state filename updates).
Proof.
  unfold Storage.update_credential_state, Storage._ensure_initialized,
    Storage._get_default_state, Storage.update_state_field, Storage.cache_set.
  storage_steps.
Qed.

Lemma save_credentials_only_storage e creds project_id :
  Trace.preserves Trace.only_storage (Auth.save_credentials e creds project_id).
Proof.
  unfold Auth.save_credentials.
  preserves_steps only_storage_refl only_storage_trans
    ltac:(first [ apply store_credential_only_storage
                | apply update_credential_state_only_storage ]).
Qed.


(** ** Steps that leave listeners and records alone *)

Lemma harmless_refl w : Trace.harmless w w.
Proof.
  split; [|done]. exists []. by rewrite app_nil_r.
Qed.

Lemma harmless_trans w1 w2 w3 :
  Trace.harmless w1 w2 -> Trace.harmless w2 w3 -> Trace.harmless w1 w3.
Proof.
  intros [(evs & Hlog & Hq) [Hk Hs]] [(evs' & Hlog' & Hq') [Hk' Hs']].
  split; [|split].
  - exists (evs ++ evs')%list. split.
    + by rewrite Hlog', Hlog, app_assoc.
    + by rewrite forallb_app, Hq, Hq'.
  - congruence.
  - intros s. by rewrite Hs', Hs.
Qed.

Lemma only_storage_harmless w w' : Trace.only_storage w w' -> Trace.harmless w w'.
Proof.
  intros (_ & _ & Hlog & Hflows). split; [|by rewrite Hflows].
  exists []. by rewrite app_nil_r.
Qed.

Lemma emit_harmless ev :
  Trace.quiet_event ev = true -> Trace.preserves Trace.harmless (emit ev).
Proof.
  intros Hq. apply preserves_modify. intros w. split; [|done].
  exists [ev]. split; [done|]. simpl. by rewrite Hq.
Qed.

Lemma handle_callback_harmless state code :
  Trace.preserves Trace.harmless (Auth.handle_callback state code).
Proof.
  intros w r w'. unfold Auth.handle_callback, Py.bind, Py.get_state, Py.modify, Py.ret.
  destruct (Dict.get (auth_flows w) state) as [fd|] eqn:Hget.
  - intros [= _ <-]. split; [|split].
    + exists []. simpl. by rewrite app_nil_r.
    + simpl. apply dict_keys_set_present. unfold Dict.contains. by rewrite Hget.
    + intros s. unfold Trace.server_of. simpl.
      destruct (decide (s = state)) as [->|Hne].
      * rewrite dict_get_set_eq, Hget. by destruct fd.
      * by rewrite dict_get_set_ne.
  - intros [= _ <-]. apply harmless_refl.
Qed.

Ltac harmless_leaf :=
  first [ apply handle_callback_harmless
        | apply emit_harmless; reflexivity
        | apply (preserves_weaken _ _ _ only_storage_harmless);
          first [ apply save_credentials_only_storage
                | apply store_credential_only_storage ] ].

Ltac harmless_steps :=
  preserves_steps harmless_refl harmless_trans harmless_leaf.

Lemma do_GET_harmless code state :
  Trace.preserves Trace.harmless (Auth.do_GET code state).
Proof. unfold Auth.do_GET. harmless_steps. Qed.

Lemma asyncio_sleep_harmless e seconds :
  Trace.preserves Trace.harmless (Auth.asyncio_sleep e seconds).
Proof.
  unfold Auth.asyncio_sleep.
  preserves_steps harmless_refl harmless_trans
    ltac:(first [ apply do_GET_harmless | apply emit_harmless; reflexivity ]).
  apply preserves_modify. intros w. split; [|done].
  exists []. simpl. by rewrite app_nil_r.
Qed.

Lemma read_flow_harmless state flow_data :
  Trace.preserves Trace.harmless (Auth.read_flow state flow_data).
Proof. unfold Auth.read_flow. harmless_steps. Qed.

Lemma wait_for_code_harmless e fuel state flow_data start_time :
  Trace.preserves Trace.harmless (Auth.wait_for_code e fuel state flow_data start_time).
Proof.
  induction fuel as [|fuel IH]; cbn [Auth.wait_for_code].
  - intros w r w' [= _ <-]. apply harmless_refl.
  - preserves_steps harmless_refl harmless_trans
      ltac:(first [ apply read_flow_harmless | apply asyncio_sleep_harmless | apply IH ]).
Qed.

Lemma wait_for_callback_harmless e fuel state flow_data :
  Trace.preserves Trace.harmless (Auth.wait_for_callback e fuel state flow_data).
Proof.
  unfold Auth.wait_for_callback.
  preserves_steps harmless_refl harmless_trans
    ltac:(first [ apply read_flow_harmless | apply wait_for_code_harmless ]).
Qed.

Lemma get_auth_flow_harmless project_id user_session :
  Trace.preserves Trace.harmless (Auth.get_auth_flow project_id user_session).
Proof.
  intros w r w' Hrun.
  destruct (get_auth_flow_sound project_id user_session w) as (found & Hfound & _).
  rewrite Hfound in Hrun. injection Hrun as _ <-. apply harmless_refl.
Qed.

Lemma detect_project_harmless e credentials flow_data project_id :
  Trace.preserves Trace.harmless (Auth.detect_project e credentials flow_data project_id).
Proof. unfold Auth.detect_project. harmless_steps. Qed.


(** ** The teardown at the end of [complete_auth_flow] *)

Lemma flow_run_of_harmless {A} e (c : Py.M world A) :
  Trace.preserves Trace.harmless c -> Trace.preserves (Trace.flow_run e) c.
Proof. intros Hc w r w' Hrun. left. eapply Hc, Hrun. Qed.

Lemma flow_run_bind {A B} e (c : Py.M world A) (k : A -> Py.M world B) :
  Trace.preserves Trace.harmless c ->
  (forall a, Trace.preserves (Trace.flow_run e) (k a)) ->
  Trace.preserves (Trace.flow_run e) (Py.bind c k).
Proof.
  intros Hc Hk w r w'. unfold Py.bind.
  destruct (c w) as [[a|ex|] w1] eqn:Hcw.
  - intros Hkw. pose proof (Hc _ _ _ Hcw) as H1.
    destruct (Hk _ _ _ _ Hkw) as [H2|(w2 & state & H2 & Hin & ->)].
    + left. by eapply harmless_trans.
    + right. exists w2, state. split; [by eapply harmless_trans | done].
  - intros [= _ <-]. left. eapply Hc; eauto.
  - intros [= _ <-]. left. eapply Hc; eauto.
Qed.

(** A handler that only builds the reply. *)
Lemma flow_run_try_reply {A} e (c : Py.M world A) (reply : Py.exn -> A) :
  Trace.preserves (Trace.flow_run e) c ->
  Trace.preserves (Trace.flow_run e) (Py.try_except c (fun ex => Py.ret (reply ex))).
Proof.
  intros Hc w r w'. unfold Py.try_except, Py.ret.
  destruct (c w) as [[a|ex|] w1] eqn:Hcw; intros [= _ <-]; eapply Hc; eauto.
Qed.

Lemma teardown_run {A} e state (a : A) w :
  (Auth._shutdown_flow_server e state ;;; Auth.del_auth_flow state ;;; Py.ret a) w
  = if Dict.contains (auth_flows w) state
    then (Return a, Trace.after_teardown e state w)
    else (Raise (Exn KeyError state), w).
Proof.
  unfold Py.bind at 1. rewrite shutdown_flow_server_run.
  unfold Py.bind at 1.
  destruct (Dict.contains (auth_flows w) state) eqn:Hin.
  - rewrite del_auth_flow_run by done. unfold Py.ret, Trace.after_teardown. f_equal.
    destruct w; unfold set_auth_flows, Trace.add_log; simpl. by rewrite <- app_assoc.
  - unfold Auth.del_auth_flow, Py.bind, Py.get_state. cbn [auth_flows Trace.add_log].
    rewrite Hin. unfold Py.raise. f_equal.
    unfold Dict.contains in Hin. destruct (Dict.get (auth_flows w) state); [done|].
    world_eq.
Qed.

Lemma teardown_flow_run {A} e state (a : A) :
  Trace.preserves (Trace.flow_run e)
    (Auth._shutdown_flow_server e state ;;; Auth.del_auth_flow state ;;; Py.ret a).
Proof.
  intros w r w'. rewrite teardown_run.
  destruct (Dict.contains (auth_flows w) state) eqn:Hin; intros [= _ <-].
  - right. exists w, state. split; [apply harmless_refl | done].
  - left. apply harmless_refl.
Qed.

Ltac flow_run_steps e :=
  repeat first
    [ apply teardown_flow_run
    | apply (flow_run_bind e); [harmless_steps; fail | intros ?]
    | apply (flow_run_try_reply e)
    | apply (flow_run_of_harmless e); harmless_steps; fail
    | match goal with
      | |- Trace.preserves _ (if ?b then _ else _) => destruct b
      | |- Trace.preserves _ (match ?x with _ => _ end) => destruct x
      end ].





(** ** The rule on listeners *)



Lemma closed_first_app flows evs1 : forall closed evs2,
  Trace.closed_first flows closed (evs1 ++ evs2)
  = Trace.closed_first flows closed evs1
    && Trace.closed_first flows (rev (Trace.shut_servers evs1) ++ closed) evs2.
Proof.
  induction evs1 as [|ev evs1 IH]; intros closed evs2; [done|].
  destruct ev; simpl; rewrite IH, <- ?app_assoc, ?andb_assoc; done.
Qed.


Lemma closed_first_quiet flows closed evs :
  forallb Trace.quiet_event evs = true ->
  Trace.closed_first flows closed evs = true /\ Trace.shut_servers evs = [].
Proof.
  induction evs as [|ev evs IH]; [done|].
  simpl. intros H. apply andb_true_iff in H as [Hq H].
  destruct ev; try discriminate; simpl; auto.
Qed.

Lemma shut_servers_shutdown_events e flow_data :
  Trace.shut_servers (Trace.shutdown_events e flow_data)
  = match flow_data with
    | Some fd => match FlowData.server fd with Some srv => [srv] | None => [] end
    | None => []
    end.
Proof.
  unfold Trace.shutdown_events. destruct flow_data as [fd|]; [|done].
  destruct (FlowData.server fd) as [srv|]; [|done].
  simpl. by destruct (Auth.server_shutdown e srv).
Qed.

Lemma closed_first_shutdown_events e flows closed flow_data :
  (forall fd srv, flow_data = Some fd -> FlowData.server fd = Some srv -> ~ In srv closed) ->
  Trace.closed_first flows closed (Trace.shutdown_events e flow_data) = true.
Proof.
  intros Hfresh. unfold Trace.shutdown_events. destruct flow_data as [fd|]; [|done].
  destruct (FlowData.server fd) as [srv|] eqn:Hsrv; [|done].
  simpl. rewrite bool_decide_eq_false_2.
  - by destruct (Auth.server_shutdown e srv).
  - rewrite list_elem_of_In. by eapply Hfresh.
Qed.


Lemma server_of_shut_servers e (d : Dict.t FlowData.t) s :
  Trace.shut_servers (Trace.shutdown_events e (Dict.get d s))
  = match Trace.server_of d s with Some srv => [srv] | None => [] end.
Proof.
  rewrite shut_servers_shutdown_events. unfold Trace.server_of.
  by destruct (Dict.get d s).
Qed.











Lemma In_keys_remove {V} (d : Dict.t V) k k' :
  k' <> k -> In k' (Dict.keys d) -> In k' (Dict.keys (Dict.remove d k)).
Proof.
  intros Hne Hin. apply dict_contains_In. apply dict_contains_In in Hin.
  unfold Dict.contains in *. by rewrite dict_get_remove_ne.
Qed.





Lemma flow_run_events e w w' :
  Trace.flow_run e w w' ->
  exists evs,
    log w' = (log w ++ evs)%list
    /\ Trace.closed_first (auth_flows w) [] evs = true
    /\ (forall s, In s (Dict.keys (auth_flows w)) ->
          ~ In s (Dict.keys (auth_flows w')) ->
          In (FlowRemoved s) evs).
Proof.
  intros [[(evs & Hlog & Hq) [Hkeys _]]|(w1 & state & [(evs & Hlog & Hq) [Hkeys Hsrv]] & Hin & ->)].
  - exists evs. split; [done|]. split; [by apply closed_first_quiet|].
    intros s Hs Hgone. by rewrite Hkeys in Hgone.
  - destruct (closed_first_quiet (auth_flows w) [] evs Hq) as [Hcf Hshut].
    exists (evs ++ Trace.shutdown_events e (Dict.get (auth_flows w1) state)
                ++ [FlowRemoved state])%list.
    split; [|split].
    + unfold Trace.after_teardown. cbn [log set_auth_flows Trace.add_log].
      by rewrite Hlog, <- app_assoc.
    + rewrite closed_first_app, Hcf, Hshut. simpl.
      rewrite closed_first_app, closed_first_shutdown_events by (intros ? ? _ _ []).
      rewrite server_of_shut_servers, Hsrv. simpl.
      destruct (Trace.server_of (auth_flows w) state); [|done].
      simpl. rewrite bool_decide_eq_true_2; [done | by left].
    + unfold Trace.after_teardown. cbn [auth_flows set_auth_flows Trace.add_log].
      intros s Hs Hgone. apply in_or_app. right. apply in_or_app. right.
      destruct (decide (s = state)) as [->|Hne]; [by left|].
      exfalso. apply Hgone, In_keys_remove; [done|]. by rewrite Hkeys.
Qed.

(** ** A successful [complete_auth_flow] *)

Lemma finish_flow_success e state credentials project_id w c f w' :
  Auth.finish_flow e state credentials project_id w = (Return (Auth.Success c f), w') ->
  exists p w1,
    project_id = Some p /\ Auth.cs_project_id c = p
    /\ Trace.harmless w w1
    /\ Dict.contains (auth_flows w1) state = true
    /\ w' = Trace.after_teardown e state w1.
Proof.
  unfold Auth.finish_flow. destruct project_id as [p|]; [|discriminate].
  destruct (Py.truthy_str p); [|discriminate].
  unfold Py.bind at 1.
  destruct (emit (EnableRequiredApis p) w) as [[[]|?|] wa] eqn:Ha; try discriminate.
  unfold Py.bind at 1.
  destruct (Py.lift (Auth.enable_required_apis e credentials p) wa)
    as [[[]|?|] wb] eqn:Hb; try discriminate.
  unfold Py.bind at 1.
  destruct (Auth.save_credentials e credentials p wb) as [[fn|?|] wc] eqn:Hc;
    try discriminate.
  rewrite teardown_run.
  destruct (Dict.contains (auth_flows wc) state) eqn:Hin; [|discriminate].
  intros [= <- <- <-]. exists p, wc.
  split; [done|]. split; [done|]. split; [|done].
  eapply harmless_trans; [eapply (emit_harmless (EnableRequiredApis p)); [done | exact Ha]|].
  eapply harmless_trans; [eapply (preserves_lift _ harmless_refl); exact Hb|].
  eapply only_storage_harmless, save_credentials_only_storage, Hc.
Qed.

Lemma detect_project_no_success e credentials flow_data project_id w result w' :
  Auth.detect_project e credentials flow_data project_id w = (Return (inl result), w') ->
  Auth.success result = false.
Proof.
  unfold Auth.detect_project.
  destruct (_ && _); [|discriminate].
  unfold Py.bind at 1, Py.lift at 1.
  destruct (Auth.get_user_projects e credentials) as [[|p1 [|p2 rest]]|]; try discriminate.
  - by intros [= <- _].
  - unfold Py.bind at 1, Py.lift at 1.
    destruct (Auth.select_default_project e _) as [pid|]; [|discriminate].
    destruct (negb (Py.truthy pid)); [by intros [= <- _] | discriminate].
Qed.

Lemma exchange_and_finish_success e state flow_data project_id w c f w' :
  Auth.exchange_and_finish e state flow_data project_id w
    = (Return (Auth.Success c f), w') ->
  exists w1,
    Trace.harmless w w1
    /\ Dict.contains (auth_flows w1) state = true
    /\ w' = Trace.after_teardown e state w1.
Proof.
  unfold Auth.exchange_and_finish.
  unfold Py.bind at 1, Auth.read_flow at 1, Py.bind at 1, Py.get_state at 1, Py.ret at 1.
  set (current := Dict.get_default (auth_flows w) state flow_data).
  unfold Py.bind at 1, Py.lift at 1.
  destruct (Auth.import_oauthlib e) as [[]|]; [|discriminate].
  unfold Py.try_except.
  unfold Py.bind at 1, Py.lift at 1.
  destruct (Auth.exchange_code e _ _) as [credentials|]; [|discriminate].
  unfold Py.bind at 1.
  destruct (Auth.detect_project e credentials current project_id w)
    as [[[result|pid]|?|] wa] eqn:Ha; try discriminate.
  - apply detect_project_no_success in Ha as Hno.
    unfold Py.ret. intros [= -> _]. discriminate.
  - destruct (Auth.finish_flow e state credentials pid wa) as [[r|?|] wb] eqn:Hb;
      try discriminate.
    intros [= -> <-].
    apply finish_flow_success in Hb as (p & w1 & _ & _ & Hh & Hin & ->).
    exists w1. split; [|done].
    eapply harmless_trans; [|exact Hh]. eapply detect_project_harmless, Ha.
Qed.

(** When [complete_auth_flow] succeeds, the record of the flow it completed
    has been torn down: its listener shut down, then the record dropped. *)
Lemma complete_auth_flow_success e fuel project_id user_session w c f w' :
  Auth.complete_auth_flow e fuel project_id user_session w
    = (Return (Auth.Success c f), w') ->
  exists w1 state,
    Trace.harmless w w1
    /\ Dict.contains (auth_flows w1) state = true
    /\ w' = Trace.after_teardown e state w1.
Proof.
  unfold Auth.complete_auth_flow, Py.try_except. unfold Py.bind at 1.
  destruct (get_auth_flow_sound project_id user_session w) as (found & -> & _).
  destruct found as [[state|] [flow_data|]]; try discriminate.
  destruct (negb (Py.truthy_str state)); [discriminate|].
  cbv zeta. destruct (_ && negb (Py.truthy _)); [discriminate|].
  unfold Py.bind at 1.
  destruct (Auth.wait_for_callback e fuel state flow_data w) as [[[|]|?|] wa] eqn:Ha;
    try discriminate.
  destruct (Auth.exchange_and_finish e state flow_data _ wa) as [[r|?|] wb] eqn:Hb;
    try discriminate.
  intros [= -> <-].
  apply exchange_and_finish_success in Hb as (w1 & Hh & Hin & ->).
  exists w1, state. split; [|done].
  eapply harmless_trans; [|exact Hh]. eapply wait_for_callback_harmless, Ha.
Qed.


(** ** Code without loops ends *)

Lemma returns_ret {A} (a : A) : Trace.returns (Py.ret a).
Proof. by intros w. Qed.

Lemma returns_raise {A} ex : Trace.returns (@Py.raise world A ex).
Proof. by intros w. Qed.

Lemma returns_lift {A} (x : Py.result A) : Trace.returns (Py.lift x).
Proof. intros w. unfold Py.lift. by destruct x. Qed.

Lemma returns_get_state : Trace.returns Py.get_state.
Proof. by intros w. Qed.

Lemma returns_time_time : Trace.returns time_time.
Proof. by intros w. Qed.

Lemma returns_modify f : Trace.returns (Py.modify f).
Proof. by intros w. Qed.

Lemma returns_bind {A B} (c : Py.M world A) (k : A -> Py.M world B) :
  Trace.returns c -> (forall a, Trace.returns (k a)) -> Trace.returns (Py.bind c k).
Proof.
  intros Hc Hk w. unfold Py.bind. specialize (Hc w).
  destruct (c w) as [[a|ex|] w1]; [apply Hk | done | done].
Qed.

Lemma returns_try_except {A} (c : Py.M world A) (h : Py.exn -> Py.M world A) :
  Trace.returns c -> (forall ex, Trace.returns (h ex)) ->
  Trace.returns (Py.try_except c h).
Proof.
  intros Hc Hh w. unfold Py.try_except. specialize (Hc w).
  destruct (c w) as [[a|ex|] w1]; [done | apply Hh | done].
Qed.

Lemma returns_for_each {A} (xs : list A) (body : A -> Py.M world unit) :
  (forall x, Trace.returns (body x)) -> Trace.returns (Py.for_each xs body).
Proof.
  intros Hbody. induction xs as [|x xs IH]; simpl.
  - apply returns_ret.
  - apply returns_bind; auto.
Qed.

Ltac returns_steps leaf :=
  repeat first
    [ leaf
    | apply returns_ret
    | apply returns_raise
    | apply returns_lift
    | apply returns_get_state
    | apply returns_time_time
    | apply returns_modify
    | apply returns_bind; [|intros ?]
    | apply returns_try_except; [|intros ?]
    | apply returns_for_each; intros ?
    | match goal with
      | |- Trace.returns (if ?b then _ else _) => destruct b
      | |- Trace.returns (match ?x with _ => _ end) => destruct x
      end ].

Lemma returns_cache_get k : Trace.returns (Storage.cache_get k).
Proof. by intros w. Qed.

Lemma returns_cache_get_all : Trace.returns Storage.cache_get_all.
Proof. by intros w. Qed.

Ltac returns_storage_leaf :=
  first [ apply returns_cache_get | apply returns_cache_get_all ].

Lemma returns_store_credential filename blob :
  Trace.returns (Storage.store_credential filename blob).
Proof.
  unfold Storage.store_credential, Storage._ensure_initialized, Storage._get_default_state,
    Storage.cache_set, Storage.bump_operation_count, Storage.record_operation_time,
    Storage.with_storage.
  returns_steps returns_storage_leaf.
Qed.

Lemma returns_update_credential_state filename updates :
  Trace.returns (Storage.update_credential_state filename updates).
Proof.
  unfold Storage.update_credential_state, Storage._ensure_initialized,
    Storage._get_default_state, Storage.update_state_field, Storage.cache_set,
    Storage.with_storage.
  returns_steps returns_storage_leaf.
Qed.

Lemma returns_save_credentials e creds project_id :
  Trace.returns (Auth.save_credentials e creds project_id).
Proof.
  unfold Auth.save_credentials.
  returns_steps ltac:(first [ apply returns_store_credential
                            | apply returns_update_credential_state ]).
Qed.

Lemma returns_shutdown_flow_server e state :
  Trace.returns (Auth._shutdown_flow_server e state).
Proof. intros w. by rewrite shutdown_flow_server_run. Qed.

Lemma returns_del_auth_flow state : Trace.returns (Auth.del_auth_flow state).
Proof.
  unfold Auth.del_auth_flow, emit. returns_steps fail.
Qed.

Lemma returns_finish_flow e state credentials project_id :
  Trace.returns (Auth.finish_flow e state credentials project_id).
Proof.
  unfold Auth.finish_flow, emit.
  returns_steps ltac:(first [ apply returns_save_credentials
                            | apply returns_shutdown_flow_server
                            | apply returns_del_auth_flow ]).
Qed.


(** ** [save_credentials] *)

Lemma keeps_record_refl f w : Trace.keeps_record f w w.
Proof. by intros H. Qed.

Lemma keeps_record_trans f w1 w2 w3 :
  Trace.keeps_record f w1 w2 -> Trace.keeps_record f w2 w3 -> Trace.keeps_record f w1 w3.
Proof. unfold Trace.keeps_record. auto. Qed.

Lemma cache_set_keeps_record f k v :
  Trace.preserves (Trace.keeps_record f) (Storage.cache_set k v).
Proof.
  intros w r w'. unfold Storage.cache_set, Storage.with_storage, Py.bind, Py.modify, Py.ret.
  intros [= _ <-]. unfold Trace.keeps_record. simpl.
  intros H. rewrite lookup_insert_is_Some. destruct (decide (k = f)); auto.
Qed.

Lemma update_credential_state_keeps_record f filename updates :
  Trace.preserves (Trace.keeps_record f)
    (Storage.update_credential_state filename updates).
Proof.
  unfold Storage.update_credential_state, Storage._ensure_initialized,
    Storage._get_default_state, Storage.update_state_field.
  preserves_steps (keeps_record_refl f) (keeps_record_trans f)
    ltac:(first [ apply cache_set_keeps_record
                | apply (preserves_weaken (fun w w' => w' = w));
                  [intros ? ? ->; apply keeps_record_refl | by intros w r w' [= _ <-]] ]).
Qed.

(** With the client id and secret at hand and the store initialised,
    [save_credentials] stores the credential under
    [<project_id>-<int(time.time())>.json] and returns that name. *)
Lemma save_credentials_run e creds project_id w client_id client_secret :
  Auth.get_oauth_client_id e = Ok client_id ->
  Auth.get_oauth_client_secret e = Ok client_secret ->
  _initialized (storage w) = true ->
  let filename := project_id ++ "-" ++ pretty (Auth.py_int (clock w)) ++ ".json" in
  exists w',
    Auth.save_credentials e creds project_id w = (Return filename, w')
    /\ Trace.only_storage w w'
    /\ is_Some (Trace.credentials_table w' !! filename).
Proof.
  intros Hid Hsecret Hinit filename.
  cut (exists w',
         Auth.save_credentials e creds project_id w = (Return filename, w')
         /\ is_Some (Trace.credentials_table w' !! filename)).
  { intros (w' & Hrun & Hsome). exists w'. split; [done|]. split; [|done].
    eapply save_credentials_only_storage, Hrun. }
  unfold Auth.save_credentials.
  unfold Py.bind at 1, time_time at 1. fold filename.
  rewrite Hid, Hsecret.
  unfold Py.bind at 1, Py.lift at 1. unfold Py.bind at 1, Py.lift at 1.
  set (creds_data := match Auth.expires_at creds with Some _ => _ | None => _ end).
  unfold Py.bind at 1.
  destruct (store_credential_run w filename creds_data Hinit)
    as (w1 & -> & Htab & Hinit1 & _).
  unfold Py.bind at 1.
  match goal with
  | |- context [Py.try_except ?c ?h w1] =>
      assert (Hkeep : Trace.preserves (Trace.keeps_record filename) (Py.try_except c h))
        by (preserves_steps (keeps_record_refl filename) (keeps_record_trans filename)
              ltac:(apply update_credential_state_keeps_record));
      assert (Hret : Trace.returns (Py.try_except c h))
        by (returns_steps ltac:(apply returns_update_credential_state));
      specialize (Hret w1);
      destruct (Py.try_except c h w1) as [[[]|ex|] w2] eqn:Htry
  end.
  - exists w2. split; [done|].
    apply (Hkeep _ _ _ Htry).
    unfold Trace.credentials_table in Htab. rewrite Htab, lookup_insert_eq. by eexists.
  - exfalso. unfold Py.try_except in Htry.
    destruct (Py.bind _ _ w1) as [[?|?|] ?]; discriminate.
  - done.
Qed.


(** ** The detection of the project *)

Lemma try_except_reply_twice {A} (c : Py.M world A) (reply : Py.exn -> A) w :
  Py.try_except (Py.try_except c (fun ex => Py.ret (reply ex)))
    (fun ex => Py.ret (reply ex)) w
  = Py.try_except c (fun ex => Py.ret (reply ex)) w.
Proof. unfold Py.try_except, Py.ret. by destruct (c w) as [[?|?|] ?]. Qed.

Lemma not_In_keys_remove {V} (d : Dict.t V) k :
  NoDup (Dict.keys d) -> ~ In k (Dict.keys (Dict.remove d k)).
Proof.
  unfold Dict.keys. induction d as [|[k0 v0] d IH]; simpl; [tauto|].
  intros Hnd. apply NoDup_cons in Hnd as [Hk0 Hnd].
  destruct (String.eqb_spec k k0) as [->|Hne].
  - by rewrite <- list_elem_of_In.
  - simpl. intros [?|?]; [congruence | by apply IH].
Qed.

(** *** What the wait for the code changes

    While [complete_auth_flow] waits, the listener thread may write the
    ["code"] and ["completed"] fields of records; nothing else happens to
    the flow map, and the store is not touched. *)

Lemma same_but_code_refl fd : Trace.same_but_code fd fd.
Proof. by destruct fd. Qed.

Lemma same_but_code_trans fd1 fd2 fd3 :
  Trace.same_but_code fd1 fd2 -> Trace.same_but_code fd2 fd3 ->
  Trace.same_but_code fd1 fd3.
Proof.
  unfold Trace.same_but_code. intros H12 H23. rewrite H23 at 1. by rewrite H12.
Qed.

Lemma only_codes_refl w : Trace.only_codes w w.
Proof.
  split; [done|]. intros state fd Hget. exists fd. split; [done|].
  apply same_but_code_refl.
Qed.

Lemma only_codes_trans w1 w2 w3 :
  Trace.only_codes w1 w2 -> Trace.only_codes w2 w3 -> Trace.only_codes w1 w3.
Proof.
  intros [Hs12 H12] [Hs23 H23]. split; [congruence|].
  intros state fd Hget.
  destruct (H12 _ _ Hget) as (fd2 & Hget2 & Hsame2).
  destruct (H23 _ _ Hget2) as (fd3 & Hget3 & Hsame3).
  exists fd3. split; [done|]. by eapply same_but_code_trans.
Qed.

Lemma handle_callback_only_codes state code :
  Trace.preserves Trace.only_codes (Auth.handle_callback state code).
Proof.
  intros w r w'. unfold Auth.handle_callback, Py.bind, Py.get_state, Py.modify, Py.ret.
  destruct (Dict.get (auth_flows w) state) as [fd0|] eqn:Hget0.
  - intros [= _ <-]. split; [done|]. intros s fd Hget. simpl.
    destruct (decide (s = state)) as [->|Hne].
    + rewrite dict_get_set_eq. eexists. split; [done|].
      rewrite Hget0 in Hget. injection Hget as ->. by destruct fd.
    + rewrite dict_get_set_ne by done. exists fd. split; [done|].
      apply same_but_code_refl.
  - intros [= _ <-]. apply only_codes_refl.
Qed.

Lemma emit_only_codes ev : Trace.preserves Trace.only_codes (emit ev).
Proof.
  apply preserves_modify. intros w. split; [done|]. intros s fd Hget.
  exists fd. split; [done|]. apply same_but_code_refl.
Qed.

Ltac only_codes_steps leaf :=
  preserves_steps only_codes_refl only_codes_trans
    ltac:(first [ leaf | apply handle_callback_only_codes | apply emit_only_codes ]).

Lemma asyncio_sleep_only_codes e seconds :
  Trace.preserves Trace.only_codes (Auth.asyncio_sleep e seconds).
Proof.
  unfold Auth.asyncio_sleep, Auth.do_GET.
  only_codes_steps fail.
  apply preserves_modify. intros w. split; [done|]. intros s fd Hget.
  exists fd. split; [done|]. apply same_but_code_refl.
Qed.

Lemma wait_for_code_only_codes e fuel state flow_data start_time :
  Trace.preserves Trace.only_codes (Auth.wait_for_code e fuel state flow_data start_time).
Proof.
  induction fuel as [|fuel IH]; cbn [Auth.wait_for_code].
  - intros w r w' [= _ <-]. apply only_codes_refl.
  - unfold Auth.read_flow.
    only_codes_steps ltac:(first [ apply asyncio_sleep_only_codes | apply IH ]).
Qed.

Lemma wait_for_callback_only_codes e fuel state flow_data :
  Trace.preserves Trace.only_codes (Auth.wait_for_callback e fuel state flow_data).
Proof.
  unfold Auth.wait_for_callback, Auth.read_flow.
  only_codes_steps ltac:(apply wait_for_code_only_codes).
Qed.

(** What [complete_auth_flow] does when the wait ends with the code there
    and the exchange succeeds: lines 334-377, run in the world [w1] the wait
    left. *)
Lemma complete_auth_flow_exchanged e fuel project_id user_session w state flow_data
    w1 credentials :
  NoDup (Dict.keys (auth_flows w)) ->
  Auth.get_auth_flow project_id user_session w
    = (Return (Some state, Some flow_data), w) ->
  Py.truthy_str state = true ->
  Auth.wait_for_callback e fuel state flow_data w = (Return false, w1) ->
  Auth.import_oauthlib e = Ok tt ->
  Auth.exchange_code e (FlowData.flow flow_data)
    (FlowData.code (Dict.get_default (auth_flows w1) state flow_data))
    = Ok credentials ->
  Auth.complete_auth_flow e fuel project_id user_session w
  = Py.try_except
      (detected <- Auth.detect_project e credentials flow_data project_id ;;
       match detected with
       | inl result => Py.ret result
       | inr project_id => Auth.finish_flow e state credentials project_id
       end)
      (fun ex => Py.ret (Auth.Failure (exn_str ex))) w1.
Proof.
  intros Hnd Hget Hstate Hwait Himport Hexchange.
  rewrite (complete_auth_flow_located _ _ _ _ _ _ _ Hnd Hget Hstate).
  destruct (get_auth_flow_located _ _ _ _ _ Hnd Hget) as [Hstored _].
  destruct (wait_for_callback_only_codes _ _ _ _ _ _ _ Hwait) as [_ Hrec].
  destruct (Hrec _ _ Hstored) as (current & Hcurrent & Hsame).
  rewrite (dict_get_default_Some _ _ _ _ Hcurrent) in Hexchange.
  set (body := detected <- Auth.detect_project e credentials flow_data project_id ;;
               match detected with
               | inl result => Py.ret result
               | inr project_id => Auth.finish_flow e state credentials project_id
               end).
  set (reply := fun ex : Py.exn => Py.ret (Auth.Failure (exn_str ex)) : Py.M world _).
  assert (Hinner :
    (timed_out <- Auth.wait_for_callback e fuel state flow_data ;;
     if timed_out : bool
     then Py.ret (Auth.Failure "Callback timeout")
     else Auth.exchange_and_finish e state flow_data project_id) w
    = Py.try_except body reply w1).
  { unfold Py.bind at 1. rewrite Hwait. unfold Auth.exchange_and_finish.
    unfold Py.bind at 1, Auth.read_flow at 1, Py.bind at 1, Py.get_state at 1, Py.ret at 1.
    rewrite (dict_get_default_Some _ _ _ _ Hcurrent), Himport.
    assert (FlowData.flow current = FlowData.flow flow_data) as ->
      by (by rewrite Hsame).
    rewrite Hexchange. unfold body, Py.try_except, Py.bind, Py.lift, Auth.detect_project.
    assert (FlowData.auto_project_detection current
            = FlowData.auto_project_detection flow_data) as ->
      by (by rewrite Hsame).
    reflexivity. }
  unfold Py.try_except at 1. rewrite Hinner.
  exact (try_except_reply_twice body (fun ex => Auth.Failure (exn_str ex)) w1).
Qed.

Lemma finish_flow_no_selection e state credentials project_id w r w' :
  Auth.finish_flow e state credentials project_id w = (Return r, w') ->
  Auth.requires_project_selection r = false.
Proof.
  unfold Auth.finish_flow. destruct project_id as [p|]; [|by intros [= <- _]].
  destruct (Py.truthy_str p); [|by intros [= <- _]].
  unfold Py.bind at 1.
  destruct (emit (EnableRequiredApis p) w) as [[[]|?|] wa]; try discriminate.
  unfold Py.bind at 1.
  destruct (Py.lift _ wa) as [[[]|?|] wb]; try discriminate.
  unfold Py.bind at 1.
  destruct (Auth.save_credentials e credentials p wb) as [[fn|?|] wc]; try discriminate.
  rewrite teardown_run.
  destruct (Dict.contains (auth_flows wc) state); [by intros [= <- _] | discriminate].
Qed.

Lemma finish_flow_enables_first e state credentials p w r w' :
  Py.truthy_str p = true ->
  Auth.finish_flow e state credentials (Some p) w = (r, w') ->
  exists evs, log w' = (log w ++ EnableRequiredApis p :: evs)%list.
Proof.
  intros Hp. unfold Auth.finish_flow. rewrite Hp.
  unfold Py.bind at 1, emit at 1, Py.modify at 1.
  intros Hrun.
  match type of Hrun with
  | ?c ?wa = _ =>
      assert (Hfr : Trace.preserves (Trace.flow_run e) c) by (flow_run_steps e)
  end.
  apply Hfr, flow_run_events in Hrun as (evs & Hlog & _).
  exists evs. rewrite Hlog. simpl. by rewrite <- app_assoc.
Qed.

Lemma finish_flow_succeeds e state credentials p w client_id client_secret :
  Py.truthy_str p = true ->
  Dict.contains (auth_flows w) state = true ->
  Auth.enable_required_apis e credentials p = Ok tt ->
  Auth.get_oauth_client_id e = Ok client_id ->
  Auth.get_oauth_client_secret e = Ok client_secret ->
  _initialized (storage w) = true ->
  let filename := p ++ "-" ++ pretty (Auth.py_int (clock w)) ++ ".json" in
  exists w',
    Auth.finish_flow e state credentials (Some p) w
    = (Return (Auth.Success
                 (Auth.CredsSummary (Auth.access_token credentials) p
                    (Auth.isoformat <$> Auth.expires_at credentials))
                 filename), w')
    /\ is_Some (Trace.credentials_table w' !! filename).
Proof.
  intros Hp Hin Henable Hid Hsecret Hinit filename.
  unfold Auth.finish_flow. rewrite Hp.
  unfold Py.bind at 1, emit at 1, Py.modify at 1.
  rewrite Henable. unfold Py.bind at 1, Py.lift at 1.
  unfold Py.bind at 1.
  destruct (save_credentials_run e credentials p
              (World (clock w) (sleeps w) (log w ++ [EnableRequiredApis p])
                     (auth_flows w) (storage w))
              client_id client_secret Hid Hsecret Hinit)
    as (wb & -> & (_ & _ & _ & Hflows) & Hsome).
  rewrite teardown_run. simpl in Hflows. rewrite Hflows, Hin.
  eexists. split; [reflexivity|]. exact Hsome.
Qed.


(** C1.  Let [complete_auth_flow] be called without a project id and locate
    a flow (which is then one flagged for automatic project detection); let
    the wait for the code (lines 311-321) end with the code there, whether
    the code was in the record when the call started or the listener stored
    it while the call was polling, [w1] being the world at that moment; and
    let the exchange of that code give [credentials].  The wait changed no
    record but for the fields the listener writes, and it did not touch the
    store; when the code was there from the start it changed nothing.
    (That the wait does end so when the redirect for the flow is handled
    within 300 seconds is proved further down, with the facts on the loop.)
    - If the identity has no project, the call returns the failure
      ["No projects found"].
    - If it has exactly one project, [project_id] becomes the ["projectId"]
      of that project and the method goes on with line 352; when that id is a
      non-empty string [p], the call returns (it does not raise), the APIs are
      enabled for [p] before anything else happens, the reply is never
      "selection required", a successful reply names [p] and leaves the flow
      destroyed, and the reply is the success when the collaborators and the
      store do their part.
    - If it has more than one project and [select_default_project] yields
      none, the call returns [{"success": False, "error": "Multiple projects
      found", "requires_project_selection": True, "available_projects":
      <all the projects>}], and the flow stays registered. *)
Theorem complete_auth_flow_project_detection (e : Auth.env) (fuel : nat)
    (project_id user_session : option string) (w : world)
    (state : string) (flow_data : FlowData.t) (w1 : world)
    (credentials : Auth.Credentials) :
  NoDup (Dict.keys (auth_flows w)) ->
  Auth.get_auth_flow project_id user_session w
    = (Return (Some state, Some flow_data), w) ->
  Py.truthy_str state = true ->
  Py.truthy project_id = false ->
  Auth.wait_for_callback e fuel state flow_data w = (Return false, w1) ->
  Auth.import_oauthlib e = Ok tt ->
  Auth.exchange_code e (FlowData.flow flow_data)
    (FlowData.code (Dict.get_default (auth_flows w1) state flow_data))
    = Ok credentials ->
  FlowData.auto_project_detection flow_data = true
  /\ (Py.truthy (FlowData.code flow_data) = true -> w1 = w)
  /\ Trace.only_codes w w1
  /\ Dict.keys (auth_flows w1) = Dict.keys (auth_flows w)
  /\ (Auth.get_user_projects e credentials = Ok [] ->
      Auth.complete_auth_flow e fuel project_id user_session w
      = (Return (Auth.Failure "No projects found"), w1))
  /\ (forall only,
        Auth.get_user_projects e credentials = Ok [only] ->
        Auth.complete_auth_flow e fuel project_id user_session w
        = Py.try_except
            (Auth.finish_flow e state credentials (Dict.get only "projectId"))
            (fun ex => Py.ret (Auth.Failure (exn_str ex))) w1
        /\ forall p,
             Dict.get only "projectId" = Some p -> Py.truthy_str p = true ->
             exists r w' evs,
               Auth.complete_auth_flow e fuel project_id user_session w = (Return r, w')
               /\ log w' = (log w1 ++ EnableRequiredApis p :: evs)%list
               /\ Auth.requires_project_selection r = false
               /\ (forall c f, r = Auth.Success c f ->
                     Auth.cs_project_id c = p
                     /\ ~ In state (Dict.keys (auth_flows w')))
               /\ (forall client_id client_secret,
                     Auth.enable_required_apis e credentials p = Ok tt ->
                     Auth.get_oauth_client_id e = Ok client_id ->
                     Auth.get_oauth_client_secret e = Ok client_secret ->
                     _initialized (storage w) = true ->
                     r = Auth.Success
                           (Auth.CredsSummary (Auth.access_token credentials) p
                              (Auth.isoformat <$> Auth.expires_at credentials))
                           (p ++ "-" ++ pretty (Auth.py_int (clock w1)) ++ ".json")
                     /\ is_Some (Trace.credentials_table w'
                                 !! (p ++ "-" ++ pretty (Auth.py_int (clock w1)) ++ ".json"))))
  /\ (forall p1 p2 rest chosen,
        Auth.get_user_projects e credentials = Ok (p1 :: p2 :: rest) ->
        Auth.select_default_project e (p1 :: p2 :: rest) = Ok chosen ->
        Py.truthy chosen = false ->
        Auth.complete_auth_flow e fuel project_id user_session w
        = (Return (Auth.SelectionRequired "Multiple projects found" (p1 :: p2 :: rest)), w1)
        /\ Auth.requires_project_selection
             (Auth.SelectionRequired "Multiple projects found" (p1 :: p2 :: rest)) = true).
Proof.
  intros Hnd Hget Hstate Hpid Hwait Himport Hexchange.
  destruct (get_auth_flow_located _ _ _ _ _ Hnd Hget) as [Hstored Hauto].
  specialize (Hauto Hpid).
  pose proof (complete_auth_flow_exchanged e fuel _ _ _ _ _ _ _
                Hnd Hget Hstate Hwait Himport Hexchange) as Hrun.
  pose proof (wait_for_callback_only_codes _ _ _ _ _ _ _ Hwait) as Honly.
  destruct (wait_for_callback_harmless _ _ _ _ _ _ _ Hwait) as (_ & Hkeys & _).
  assert (Hin1 : Dict.contains (auth_flows w1) state = true).
  { destruct Honly as [_ Hrec]. destruct (Hrec _ _ Hstored) as (fd' & Hget' & _).
    unfold Dict.contains. by rewrite Hget'. }
  assert (Hinit1 : storage w1 = storage w) by apply Honly.
  assert (Hdetect : forall w0,
            Auth.detect_project e credentials flow_data project_id w0
            = (user_projects <- Py.lift (Auth.get_user_projects e credentials) ;;
               match user_projects with
               | [] => Py.ret (inl (Auth.Failure "No projects found"))
               | [only] => Py.ret (inr (Dict.get only "projectId"))
               | _ =>
                   project_id <- Py.lift (Auth.select_default_project e user_projects) ;;
                   if negb (Py.truthy project_id)
                   then Py.ret (inl (Auth.SelectionRequired "Multiple projects found"
                                       user_projects))
                   else Py.ret (inr project_id)
               end) w0)
    by (intros w0; unfold Auth.detect_project; by rewrite Hauto, Hpid).
  split; [done|]. split; [|split; [done|]; split; [done|]; split; [|split]].
  - intros Hcode. revert Hwait.
    unfold Auth.wait_for_callback.
    unfold Py.bind at 1, Auth.read_flow at 1, Py.bind at 1, Py.get_state at 1, Py.ret at 1.
    rewrite (dict_get_default_Some _ _ _ _ Hstored), Hcode. by intros [= <-].
  - intros Hnone. rewrite Hrun.
    unfold Py.try_except, Py.bind at 1. rewrite Hdetect.
    unfold Py.bind at 1. by rewrite Hnone.
  - intros only Hone.
    assert (Hrun1 : Auth.complete_auth_flow e fuel project_id user_session w
                    = Py.try_except
                        (Auth.finish_flow e state credentials (Dict.get only "projectId"))
                        (fun ex => Py.ret (Auth.Failure (exn_str ex))) w1).
    { rewrite Hrun. unfold Py.try_except, Py.bind at 1. rewrite Hdetect.
      unfold Py.bind at 1. by rewrite Hone. }
    split; [exact Hrun1|].
    intros p Hp Htruthy. rewrite Hrun1, Hp. unfold Py.try_except.
    pose proof (returns_finish_flow e state credentials (Some p) w1) as Hret.
    destruct (Auth.finish_flow e state credentials (Some p) w1) as [[r|ex|] w']
      eqn:Hfinish; [| |done].
    + destruct (finish_flow_enables_first _ _ _ _ _ _ _ Htruthy Hfinish) as (evs & Hlog).
      exists r, w', evs. split; [done|]. split; [done|].
      split; [by eapply finish_flow_no_selection|]. split.
      * intros c f ->.
        apply finish_flow_success in Hfinish as (p' & w2 & [= <-] & Hc & Hh & Hin & ->).
        split; [done|].
        unfold Trace.after_teardown. cbn [auth_flows set_auth_flows Trace.add_log].
        apply not_In_keys_remove. destruct Hh as (_ & -> & _). by rewrite Hkeys.
      * intros client_id client_secret Henable Hid Hsecret Hinit.
        destruct (finish_flow_succeeds e state credentials p w1 client_id client_secret)
          as (w'' & Hsucc & Hsome); try done.
        { by rewrite Hinit1. }
        rewrite Hfinish in Hsucc. injection Hsucc as -> ->. done.
    + destruct (finish_flow_enables_first _ _ _ _ _ _ _ Htruthy Hfinish) as (evs & Hlog).
      exists (Auth.Failure (exn_str ex)), w', evs.
      split; [done|]. split; [done|]. split; [done|]. split; [done|].
      intros client_id client_secret Henable Hid Hsecret Hinit.
      destruct (finish_flow_succeeds e state credentials p w1 client_id client_secret)
        as (w'' & Hsucc & Hsome); try done.
      { by rewrite Hinit1. }
      rewrite Hfinish in Hsucc. discriminate.
  - intros p1 p2 rest chosen Hmany Hchosen Hnone. split; [|done].
    rewrite Hrun. unfold Py.try_except, Py.bind at 1. rewrite Hdetect.
    unfold Py.bind at 1. rewrite Hmany. unfold Py.lift at 1.
    unfold Py.bind at 1. rewrite Hchosen. unfold Py.lift at 1.
    by rewrite Hnone.
Qed.


Lemma complete_auth_flow_project_detection_witness :
  let w := Samples.world_of 250 Samples.two_flows in
  let pending := Samples.flow_at 1 None (Some "alice") 100 in
  let after_wait e := snd (Auth.wait_for_callback e 601 "alice_1" pending w) in
  Auth.complete_auth_flow (Samples.env_with_redirect []) 601 None (Some "alice") w
    = (Return (Auth.Failure "No projects found"),
       after_wait (Samples.env_with_redirect []))
  /\ (exists w',
        Auth.complete_auth_flow (Samples.env_with_redirect [Samples.project_one])
          601 None (Some "alice") w
        = (Return (Auth.Success
                     (Auth.CredsSummary "ya29.tok" "proj-1" (Some "2026-01-01T00:00:00"))
                     "proj-1-260.json"), w')
        /\ ~ In "alice_1" (Dict.keys (auth_flows w')))
  /\ Auth.complete_auth_flow
       (Samples.env_with_redirect [Samples.project_one; Samples.project_two])
       601 None (Some "alice") w
     = (Return (Auth.SelectionRequired "Multiple projects found"
                  [Samples.project_one; Samples.project_two]),
        after_wait (Samples.env_with_redirect [Samples.project_one; Samples.project_two])).
Proof.
  intros w pending after_wait.
  assert (Hnd : NoDup (Dict.keys (auth_flows w)))
    by (apply (bool_decide_unpack _); vm_compute; exact I).
  assert (Hwait : forall projects,
            Auth.wait_for_callback (Samples.env_with_redirect projects) 601 "alice_1"
              pending w
            = (Return false, after_wait (Samples.env_with_redirect projects)))
    by (intros projects; vm_compute; reflexivity).
  split; [|split].
  - destruct (complete_auth_flow_project_detection (Samples.env_with_redirect [])
                601 None (Some "alice") w "alice_1" pending
                (after_wait (Samples.env_with_redirect []))
                Samples.sample_credentials Hnd eq_refl eq_refl eq_refl (Hwait [])
                eq_refl eq_refl)
      as (_ & _ & _ & _ & Hzero & _).
    exact (Hzero eq_refl).
  - destruct (complete_auth_flow_project_detection
                (Samples.env_with_redirect [Samples.project_one])
                601 None (Some "alice") w "alice_1" pending
                (after_wait (Samples.env_with_redirect [Samples.project_one]))
                Samples.sample_credentials Hnd eq_refl eq_refl eq_refl (Hwait _)
                eq_refl eq_refl)
      as (_ & _ & _ & _ & _ & Hone & _).
    destruct (Hone Samples.project_one eq_refl) as [_ Hp].
    destruct (Hp "proj-1" eq_refl eq_refl) as (r & w' & evs & Hrun & _ & _ & Hgone & Hok).
    destruct (Hok "client-id" "client-secret" eq_refl eq_refl eq_refl eq_refl) as [-> _].
    exists w'. split; [|exact (proj2 (Hgone _ _ eq_refl))].
    rewrite Hrun. reflexivity.
  - destruct (complete_auth_flow_project_detection
                (Samples.env_with_redirect [Samples.project_one; Samples.project_two])
                601 None (Some "alice") w "alice_1" pending
                (after_wait (Samples.env_with_redirect
                               [Samples.project_one; Samples.project_two]))
                Samples.sample_credentials Hnd eq_refl eq_refl eq_refl (Hwait _)
                eq_refl eq_refl)
      as (_ & _ & _ & _ & _ & _ & Hmany).
    exact (proj1 (Hmany _ _ _ None eq_refl eq_refl eq_refl)).
Defined.

(** *** [shutdown()], then [server_close()]

    [_shutdown_flow_server] calls [server_close()] only after [shutdown()]
    has returned, and swallows what either call raises (lines 115-120).  So
    the calls on listeners come in pairs, but for the listeners whose
    [shutdown()] raised. *)














(** The events of the same cleanup when no call on a listener raises: the
    two expired flows, then the eight oldest of the eighteen others, each
    listener shut down and closed before its record goes. *)
Example cleanup_auth_flows_events :
  log (snd (Auth.cleanup_auth_flows Samples.quiet_env
              (Samples.world_of 2000 Samples.twenty_flows)))
  = [ServerShutdown 0; ServerClose 0; FlowRemoved "state-0";
     ServerShutdown 1; ServerClose 1; FlowRemoved "state-1";
     ServerShutdown 2; ServerClose 2; ServerShutdown 3; ServerClose 3;
     ServerShutdown 4; ServerClose 4; ServerShutdown 5; ServerClose 5;
     ServerShutdown 6; ServerClose 6; ServerShutdown 7; ServerClose 7;
     ServerShutdown 8; ServerClose 8; ServerShutdown 9; ServerClose 9;
     FlowRemoved "state-2"; FlowRemoved "state-3"; FlowRemoved "state-4";
     FlowRemoved "state-5"; FlowRemoved "state-6"; FlowRemoved "state-7";
     FlowRemoved "state-8"; FlowRemoved "state-9"]
  /\ Dict.keys (auth_flows (snd (Auth.cleanup_auth_flows Samples.quiet_env
                                   (Samples.world_of 2000 Samples.twenty_flows))))
     = ["state-19"; "state-18"; "state-17"; "state-16"; "state-15";
        "state-14"; "state-13"; "state-12"; "state-11"; "state-10"].
Proof. vm_compute. split; reflexivity. Qed.


(** ** The port of the listener: [find_available_port] *)

(** One turn of the loop, by cases on what the system does. *)
Lemma try_port_run s port w :
  (Trace.port_bound s port /\ Auth.try_port s port w = (Return (Some port), w))
  \/ (Trace.port_skipped s port /\ Auth.try_port s port w = (Return None, w))
  \/ (exists ex, Trace.port_refused s port ex /\ Auth.try_port s port w = (Raise ex, w)).
Proof.
  unfold Auth.try_port, Py.try_except, Py.bind, Py.lift, Py.ret, Py.raise,
    Trace.port_bound, Trace.port_skipped, Trace.port_refused.
  destruct (Auth.open_socket s port) as [u|ex] eqn:Hopen.
  - destruct (Auth.valid_port port) eqn:Hvalid.
    + destruct (Auth.port_free s port) eqn:Hfree; cbn [exn_cls].
      * left. split; [|done]. split; [by exists u | done].
      * right. left. split; [|done]. right. split; [by exists u | done].
    + cbn [exn_cls]. right. right. eexists. split; [|done].
      right. split; [by exists u | done].
  - destruct (exn_cls ex) eqn:Hcls;
      try (right; right; exists ex; split; [left; split; [done | congruence] | done]).
    right. left. split; [|done]. left. by exists ex.
Qed.

(** The loop over the [n] ports from [start]: first fit. *)
Lemma scan_ports_run s w : forall (n : nat) (start : Z),
  exists r,
    Auth.scan_ports s (map (fun i => (start + Z.of_nat i)%Z) (seq 0 n)) w = (r, w)
    /\ ((exists port,
           r = Return (Some port)
           /\ (start <= port < start + Z.of_nat n)%Z
           /\ Trace.port_bound s port
           /\ forall q, (start <= q < port)%Z -> Trace.port_skipped s q)
        \/ (exists port ex,
              r = Raise ex
              /\ (start <= port < start + Z.of_nat n)%Z
              /\ Trace.port_refused s port ex
              /\ forall q, (start <= q < port)%Z -> Trace.port_skipped s q)
        \/ (r = Return None
            /\ forall q, (start <= q < start + Z.of_nat n)%Z -> Trace.port_skipped s q)).
Proof.
  induction n as [|n IH]; intros start.
  - exists (Return None). split; [done|]. right. right. split; [done|]. intros q Hq. lia.
  - cbn [seq map Auth.scan_ports]. rewrite Z.add_0_r. unfold Py.bind at 1.
    destruct (try_port_run s start w) as [[Hb ->]|[[Hs ->]|(ex & Hr & ->)]].
    + exists (Return (Some start)). split; [done|]. left. exists start.
      split; [done|]. split; [lia|]. split; [done|]. intros q Hq. lia.
    + rewrite <- seq_shift, map_map.
      rewrite (map_ext _ (fun i => (start + 1 + Z.of_nat i)%Z)) by (intros i; lia).
      destruct (IH (start + 1)%Z) as (r & -> & Hcases). exists r. split; [done|].
      assert (Hlow : forall p, (start + 1 <= p)%Z ->
                (forall q, (start + 1 <= q < p)%Z -> Trace.port_skipped s q) ->
                forall q, (start <= q < p)%Z -> Trace.port_skipped s q).
      { intros p Hp Hbelow q Hq. destruct (decide (q = start)) as [->|Hne]; [done|].
        apply Hbelow. lia. }
      destruct Hcases as [(port & -> & Hrange & Hb & Hbelow)
                         |[(port & ex & -> & Hrange & Hr & Hbelow)|[-> Hall]]].
      * left. exists port. split; [done|]. split; [lia|]. split; [done|].
        apply Hlow; [lia | done].
      * right. left. exists port, ex. split; [done|]. split; [lia|]. split; [done|].
        apply Hlow; [lia | done].
      * right. right. split; [done|].
        intros q Hq. apply (Hlow (start + 1 + Z.of_nat n)%Z); [lia | done | lia].
    + exists (Raise ex). split; [done|]. right. left. exists start, ex.
      split; [done|]. split; [lia|]. split; [done|]. intros q Hq. lia.
Qed.

(** ** Registering a flow: [create_auth_url] *)

Lemma after_cleanup_flows e w :
  NoDup (Dict.keys (auth_flows w)) ->
  auth_flows (Trace.after_cleanup e w)
  = if (10 <? length (Trace.live_flows (clock w) (auth_flows w)))%nat
    then take 10 (Auth.sorted_newest_first (Trace.live_flows (clock w) (auth_flows w)))
    else Trace.live_flows (clock w) (auth_flows w).
Proof.
  intros Hnd. unfold Trace.after_cleanup.
  destruct (10 <? length _)%nat; [|done].
  cbn [auth_flows set_auth_flows]. apply dict_of_items_distinct, NoDup_keys_take.
  eapply NoDup_keys_perm; [symmetry; apply sorted_newest_first_perm|].
  by apply NoDup_map_fst_filter.
Qed.

Lemma after_cleanup_bounds e w :
  NoDup (Dict.keys (auth_flows w)) ->
  (length (auth_flows (Trace.after_cleanup e w)) <= 10)%nat
  /\ NoDup (Dict.keys (auth_flows (Trace.after_cleanup e w))).
Proof.
  intros Hnd. rewrite (after_cleanup_flows _ _ Hnd).
  destruct (10 <? length _)%nat eqn:Hlen.
  - split; [rewrite length_take; lia|].
    apply NoDup_keys_take.
    eapply NoDup_keys_perm; [symmetry; apply sorted_newest_first_perm|].
    by apply NoDup_map_fst_filter.
  - apply Nat.ltb_ge in Hlen. split; [done|]. by apply NoDup_map_fst_filter.
Qed.

Lemma dict_set_length {V} (d : Dict.t V) k v :
  (length (Dict.set d k v) <= S (length d))%nat.
Proof.
  induction d as [|[k0 v0] d IH]; simpl; [lia|].
  destruct (String.eqb k k0); simpl; lia.
Qed.

Lemma dict_set_NoDup {V} (d : Dict.t V) k v :
  NoDup (Dict.keys d) -> NoDup (Dict.keys (Dict.set d k v)).
Proof.
  intros Hnd. destruct (Dict.contains d k) eqn:Hin.
  - by rewrite dict_keys_set_present.
  - rewrite dict_set_fresh.
    + unfold Dict.keys in *. rewrite map_app. simpl.
      apply NoDup_app. split; [done|]. split; [|apply NoDup_singleton].
      intros k' Hk' ->%list_elem_of_singleton.
      apply list_elem_of_In, dict_contains_In in Hk'. congruence.
    + intros H. apply dict_contains_In in H. congruence.
Qed.

Ltac start_failure :=
  unfold Py.ret; intros [= <- <-];
  (split; [done|]); (split; [done|]); (split; [by eexists|]);
  intros; discriminate.

(** [create_auth_url] always returns a reply.  When it registers a flow, the
    record is stored under the state of the reply, with the listener just
    created, no code yet, and the time of registration; a map that was at
    the cap [MAX_AUTH_FLOWS] is cleaned up first, so that the map never holds
    more than [MAX_AUTH_FLOWS] records; and the keys stay distinct. *)
Lemma create_auth_url_registers e s project_id user_session get_all_projects w r w' :
  NoDup (Dict.keys (auth_flows w)) ->
  Auth.create_auth_url e s project_id user_session get_all_projects w = (r, w') ->
  NoDup (Dict.keys (auth_flows w'))
  /\ ((length (auth_flows w) <= Auth.MAX_AUTH_FLOWS)%nat ->
      (length (auth_flows w') <= Auth.MAX_AUTH_FLOWS)%nat)
  /\ (exists reply, r = Return reply)
  /\ (forall auth_url state port auto detected,
        r = Return (Auth.Started auth_url state port auto detected) ->
        exists flow_data srv,
          Dict.get (auth_flows w') state = Some flow_data
          /\ FlowData.server flow_data = Some srv
          /\ Auth.new_http_server s port = Ok srv
          /\ FlowData.code flow_data = None
          /\ FlowData.completed flow_data = false
          /\ FlowData.project_id flow_data = project_id
          /\ FlowData.auto_project_detection flow_data = bool_decide (project_id = None)
          /\ ((Auth.MAX_AUTH_FLOWS <= length (auth_flows w))%nat ->
              (length (auth_flows w') <= 11)%nat)).
Proof.
  intros Hnd. unfold Auth.create_auth_url, Py.try_except at 1.
  unfold Py.bind at 1.
  assert (Hport : forall w0, snd (Auth.find_available_port s None w0) = w0
                             /\ fst (Auth.find_available_port s None w0) <> OutOfFuel).
  { intros w0. unfold Auth.find_available_port, Py.bind, Py.lift, Py.ret, Py.raise.
    destruct (Auth.get_callback_port s) as [start|]; [|done].
    destruct (scan_ports_run s w0 100 start) as (r0 & Hscan & Hcases). rewrite Hscan.
    destruct Hcases as [(port & -> & _)|[(port & ex & -> & _)|[-> _]]]; [done | done |].
    unfold Py.try_except.
    destruct (Auth.os_assigned_port s) as [|ex]; [done|].
    by destruct (exn_cls ex). }
  destruct (Hport w) as [Hw Hfuel].
  destruct (Auth.find_available_port s None w) as [[port|ex|] w0]; simpl in Hw;
    subst w0; [| |done].
  2:{ start_failure. }
  unfold Py.bind at 1, Py.try_except at 1, Auth.create_callback_server,
    Py.try_except at 1, Py.bind at 1, Py.lift at 1, Py.raise.
  destruct (Auth.new_http_server s port) as [srv|ex] eqn:Hsrv.
  2:{ start_failure. }
  unfold Py.bind at 1, Py.lift at 1.
  destruct (Auth.thread_start s srv) as [[]|ex].
  2:{ start_failure. }
  unfold Py.ret at 1. unfold Py.bind at 1, Py.lift at 1.
  destruct (Auth.get_oauth_client_id e) as [client_id|ex].
  2:{ start_failure. }
  unfold Py.bind at 1, Py.lift at 1.
  destruct (Auth.get_oauth_client_secret e) as [client_secret|ex].
  2:{ start_failure. }
  set (state := match user_session with Some _ => _ | None => _ end).
  unfold Py.bind at 1, Py.lift at 1.
  destruct (Auth.get_auth_url s _ state) as [auth_url|ex].
  2:{ start_failure. }
  unfold Py.bind at 1, Py.get_state at 1. unfold Py.bind at 1.
  assert (Hclean : exists w1,
            (if (Auth.MAX_AUTH_FLOWS <=? length (auth_flows w))%nat
             then Auth.cleanup_auth_flows e else Py.ret tt) w = (Return tt, w1)
            /\ NoDup (Dict.keys (auth_flows w1))
            /\ ((length (auth_flows w) <= Auth.MAX_AUTH_FLOWS)%nat ->
                (length (auth_flows w1) < Auth.MAX_AUTH_FLOWS)%nat)
            /\ ((Auth.MAX_AUTH_FLOWS <= length (auth_flows w))%nat ->
                (length (auth_flows w1) <= 10)%nat)).
  { destruct (Auth.MAX_AUTH_FLOWS <=? length (auth_flows w))%nat eqn:Hcap.
    - exists (Trace.after_cleanup e w). split; [by apply cleanup_auth_flows_run|].
      destruct (after_cleanup_bounds e w Hnd) as [Hlen Hnd'].
      unfold Auth.MAX_AUTH_FLOWS. repeat split; [done | lia | done].
    - apply Nat.leb_gt in Hcap. exists w. repeat split; [done | lia | lia]. }
  destruct Hclean as (w1 & -> & Hnd1 & Hlt & Hle).
  unfold Py.bind at 1, time_time at 1. unfold Py.bind at 1, Py.modify at 1. unfold Py.ret.
  intros [= <- <-]. cbn [auth_flows set_auth_flows].
  split; [by apply dict_set_NoDup|]. split; [|split; [by eexists|]].
  - intros Hlen. specialize (Hlt Hlen).
    pose proof (dict_set_length (auth_flows w1) state
                  (FlowData.Make (Auth.new_flow s client_id client_secret
                                    ("http://localhost:" ++ pretty port))
                     project_id user_session port ("http://localhost:" ++ pretty port)
                     (Some srv) None false (clock w1)
                     (bool_decide (project_id = None)) get_all_projects)).
    lia.
  - intros ? ? ? ? ? [= <- <- <- <- <-].
    eexists _, srv. rewrite dict_get_set_eq. repeat split; try done.
    intros Hcap. specialize (Hle Hcap).
    pose proof (dict_set_length (auth_flows w1) state
                  (FlowData.Make (Auth.new_flow s client_id client_secret
                                    ("http://localhost:" ++ pretty port))
                     project_id user_session port ("http://localhost:" ++ pretty port)
                     (Some srv) None false (clock w1)
                     (bool_decide (project_id = None)) get_all_projects)).
    lia.
Qed.


(** ** Runs on the sample data *)

(** A code that arrives during the wait is picked up at the next look: the
    redirect is handled at 260.2, the call that started at 250 sees the code
    after its 21st sleep and goes on to the exchange. *)
Example complete_auth_flow_code_arrives :
  let '(r, w') :=
    Auth.complete_auth_flow
      (Samples.env_with_redirect [Samples.project_one; Samples.project_two])
      601 None (Some "alice") (Samples.world_of 250 Samples.two_flows) in
  r = Return (Auth.SelectionRequired "Multiple projects found"
                [Samples.project_one; Samples.project_two])
  /\ sleeps w' = 21%nat
  /\ (FlowData.code <$> Dict.get (auth_flows w') "alice_1") = Some (Some "4/0AX").
Proof. vm_compute. repeat split. Qed.

(** The scenario of the specification: a flow is started without a project
    id, the redirect delivers a code, [complete_auth_flow] finds exactly one
    project and returns the name of the new credential; the record is gone,
    its listener shut down first, and a second call finds no flow. *)
Example start_redirect_complete :
  let e := Samples.env_with_projects [Samples.project_one] in
  let '(r1, w1) :=
    Auth.create_auth_url e Samples.sample_start_env None (Some "alice") false
      (Samples.world_of 250 []) in
  let '(r2, w2) := Auth.handle_callback "alice_0b5e" "4/0AX" w1 in
  let '(r3, w3) := Auth.complete_auth_flow e 601 None (Some "alice") w2 in
  let '(r4, w4) := Auth.complete_auth_flow e 601 None (Some "alice") w3 in
  r1 = Return (Auth.Started "https://accounts.example/o/oauth2/auth?state=alice_0b5e"
                 "alice_0b5e" 8081 true None)
  /\ r2 = Return true
  /\ r3 = Return (Auth.Success
                    (Auth.CredsSummary "ya29.tok" "proj-1" (Some "2026-01-01T00:00:00"))
                    "proj-1-250.json")
  /\ auth_flows w3 = []
  /\ log w3 = [EnableRequiredApis "proj-1"; ServerShutdown 7; ServerClose 7;
               FlowRemoved "alice_0b5e"]
  /\ r4 = Return (Auth.Failure "未找到对应的认证流程").
Proof. vm_compute. repeat split. Qed.

(** What [save_credentials] left in the store in that run: the secret, and a
    fresh health state. *)
Example start_redirect_complete_store :
  let e := Samples.env_with_projects [Samples.project_one] in
  let w2 := snd (Auth.handle_callback "alice_0b5e" "4/0AX"
                   (snd (Auth.create_auth_url e Samples.sample_start_env None
                           (Some "alice") false (Samples.world_of 250 [])))) in
  let w3 := snd (Auth.complete_auth_flow e 601 None (Some "alice") w2) in
  fst (Storage.get_credential "proj-1-250.json" w3)
  = Return (Some (JDict
      [("client_id", JStr "client-id");
       ("client_secret", JStr "client-secret");
       ("token", JStr "ya29.tok");
       ("refresh_token", JStr "1//refresh");
       ("scopes", JList (map JStr Auth.SCOPES));
       ("token_uri", JStr "https://oauth2.googleapis.com/token");
       ("project_id", JStr "proj-1");
       ("expiry", JStr "2026-01-01T00:00:00+00:00")]))
  /\ fst (Storage.get_all_credential_states w3)
     = Return {["proj-1-250.json" :=
                  JDict [("error_codes", JList []);
                         ("disabled", JBool false);
                         ("last_success", JNum 250);
                         ("user_email", JNull)]]}.
Proof. vm_compute. split; reflexivity. Qed.


(** ** The wait that ends without a code *)

Lemma half_seconds_S n :
  (Trace.half_seconds (S n) == Trace.half_seconds n + (1 # 2))%Q.
Proof.
  unfold Trace.half_seconds. rewrite Nat2Z.inj_succ. unfold Z.succ.
  rewrite inject_Z_plus. change (inject_Z 1) with 1%Q. ring.
Qed.

Lemma half_seconds_0 : (Trace.half_seconds 0 == 0)%Q.
Proof. reflexivity. Qed.

Lemma same_clock_refl w : Trace.same_clock w w.
Proof. done. Qed.

Lemma same_clock_trans w1 w2 w3 :
  Trace.same_clock w1 w2 -> Trace.same_clock w2 w3 -> Trace.same_clock w1 w3.
Proof. unfold Trace.same_clock. congruence. Qed.

Lemma clock_forward_refl w : Trace.clock_forward w w.
Proof. apply Qle_refl. Qed.

Lemma clock_forward_trans w1 w2 w3 :
  Trace.clock_forward w1 w2 -> Trace.clock_forward w2 w3 -> Trace.clock_forward w1 w3.
Proof. apply Qle_trans. Qed.

Lemma only_storage_same_clock w w' : Trace.only_storage w w' -> Trace.same_clock w w'.
Proof. by intros (H & _). Qed.

Lemma handle_callback_same_clock state code :
  Trace.preserves Trace.same_clock (Auth.handle_callback state code).
Proof.
  intros w r w'. unfold Auth.handle_callback, Py.bind, Py.get_state, Py.modify, Py.ret.
  destruct (Dict.get (auth_flows w) state); by intros [= _ <-].
Qed.

Lemma do_GET_same_clock code state :
  Trace.preserves Trace.same_clock (Auth.do_GET code state).
Proof.
  unfold Auth.do_GET.
  preserves_steps same_clock_refl same_clock_trans
    ltac:(apply handle_callback_same_clock).
Qed.

(** What a sleep does to the world: the clock is at the wake-up time, and
    unless the redirect fell into the sleep, nothing else changed. *)
Lemma asyncio_sleep_run e seconds w :
  let woken := (clock w + seconds + Auth.sleep_lag e (sleeps w))%Q in
  clock (snd (Auth.asyncio_sleep e seconds w)) = woken
  /\ ((exists arrival code state,
         Auth.redirect e = Some (arrival, code, state)
         /\ (clock w < arrival)%Q /\ (arrival <= woken)%Q)
      \/ Auth.asyncio_sleep e seconds w
         = (Return tt,
            World woken (S (sleeps w)) (log w ++ [Sleep seconds])
                  (auth_flows w) (storage w))).
Proof.
  intros woken.
  unfold Auth.asyncio_sleep, Py.bind, Py.get_state, emit, Py.modify, Py.ret.
  cbn [clock sleeps log auth_flows storage]. fold woken.
  destruct (Auth.redirect e) as [[[arrival code] state]|]; [|split; [done | by right]].
  destruct (Qltb (clock w) arrival) eqn:Hlt; cbn [andb]; [|split; [done | by right]].
  destruct (Qle_bool arrival woken) eqn:Hle; [|split; [done | by right]].
  split.
  - match goal with
    | |- context [Auth.do_GET code state ?w0] =>
        pose proof (do_GET_same_clock code state w0) as Hclock;
        destruct (Auth.do_GET code state w0) as [[?|?|] w1]
    end; simpl; by rewrite (Hclock _ _ eq_refl).
  - left. exists arrival, code, state. split; [done|].
    split; [by apply Qltb_true | by apply Qle_bool_iff].
Qed.

Lemma asyncio_sleep_clock_forward e seconds :
  (0 <= seconds)%Q -> (forall n, 0 <= Auth.sleep_lag e n)%Q ->
  Trace.preserves Trace.clock_forward (Auth.asyncio_sleep e seconds).
Proof.
  intros Hs Hlag w r w' Hrun.
  destruct (asyncio_sleep_run e seconds w) as [Hclock _].
  rewrite Hrun in Hclock. unfold Trace.clock_forward. simpl in Hclock.
  rewrite Hclock. specialize (Hlag (sleeps w)). lra.
Qed.

Lemma wait_for_code_clock_forward e fuel state flow_data start_time :
  (forall n, 0 <= Auth.sleep_lag e n)%Q ->
  Trace.preserves Trace.clock_forward
    (Auth.wait_for_code e fuel state flow_data start_time).
Proof.
  intros Hlag. induction fuel as [|fuel IH]; cbn [Auth.wait_for_code].
  - intros w r w' [= _ <-]. apply clock_forward_refl.
  - unfold Auth.read_flow.
    preserves_steps clock_forward_refl clock_forward_trans
      ltac:(first [ apply asyncio_sleep_clock_forward; [lra | exact Hlag]
                  | apply IH ]).
Qed.

(** What a sleep does to the world, in full: the clock is at the wake-up
    time, the sleep is logged, and the flow map is the one before unless the
    redirect fell into the sleep and the listener stored its code. *)
Lemma asyncio_sleep_effect e seconds w :
  let woken := (clock w + seconds + Auth.sleep_lag e (sleeps w))%Q in
  exists flows,
    Auth.asyncio_sleep e seconds w
    = (Return tt,
       World woken (S (sleeps w)) (log w ++ [Sleep seconds]) flows (storage w))
    /\ (flows = auth_flows w
        \/ exists arrival c s fd,
             Auth.redirect e = Some (arrival, Some c, Some s)
             /\ (clock w < arrival)%Q /\ (arrival <= woken)%Q
             /\ Py.truthy_str c = true /\ Py.truthy_str s = true
             /\ Dict.get (auth_flows w) s = Some fd
             /\ flows = Dict.set (auth_flows w) s
                          (FlowData.set_completed true (FlowData.set_code (Some c) fd))).
Proof.
  intros woken.
  unfold Auth.asyncio_sleep, Py.bind, Py.get_state, emit, Py.modify, Py.ret.
  cbn [clock sleeps log auth_flows storage]. fold woken.
  destruct (Auth.redirect e) as [[[arrival code] st]|]; [|eexists; split; [done | by left]].
  destruct (Qltb (clock w) arrival) eqn:Hlt; cbn [andb];
    [|eexists; split; [done | by left]].
  destruct (Qle_bool arrival woken) eqn:Hle; [|eexists; split; [done | by left]].
  apply Qltb_true in Hlt. apply Qle_bool_iff in Hle.
  unfold Auth.do_GET.
  destruct code as [c|]; [|eexists; split; [done | by left]].
  destruct st as [s|]; [|eexists; split; [done | by left]].
  destruct (Py.truthy_str c) eqn:Hc; cbn [andb]; [|eexists; split; [done | by left]].
  destruct (Py.truthy_str s) eqn:Hs; [|eexists; split; [done | by left]].
  unfold Py.bind, Auth.handle_callback, Py.bind, Py.get_state, Py.modify, Py.ret.
  cbn [clock sleeps log auth_flows storage set_auth_flows].
  destruct (Dict.get (auth_flows w) s) as [fd|] eqn:Hget;
    [|eexists; split; [done | by left]].
  eexists. split; [done|]. right. exists arrival, c, s, fd. done.
Qed.

(** The loop of lines 315-318 when no code is delivered to the flow: it ends
    with the deadline, and the record of the flow is as before.  Redirects
    for other flows may be handled meanwhile. *)
Lemma wait_for_code_unanswered e state flow_data start_time :
  (forall n, 0 <= Auth.sleep_lag e n)%Q ->
  forall polls fuel w r w',
    (polls < fuel)%nat ->
    (300 <= clock w - start_time + Trace.half_seconds polls)%Q ->
    Py.truthy (FlowData.code (Dict.get_default (auth_flows w) state flow_data)) = false ->
    Auth.wait_for_code e fuel state flow_data start_time w = (r, w') ->
    Trace.no_code_between e state (clock w) (clock w') ->
    exists n,
      r = Return tt
      /\ (n <= polls)%nat
      /\ (300 <= clock w' - start_time)%Q
      /\ (clock w <= clock w')%Q
      /\ ((clock w - start_time < 300)%Q -> (1 <= n)%nat)
      /\ sleeps w' = (sleeps w + n)%nat
      /\ log w' = (log w ++ repeat (Sleep (1 # 2)) n)%list
      /\ Dict.get (auth_flows w') state = Dict.get (auth_flows w) state
      /\ Dict.keys (auth_flows w') = Dict.keys (auth_flows w)
      /\ (Trace.no_redirect_between e (clock w) (clock w') ->
          auth_flows w' = auth_flows w)
      /\ storage w' = storage w.
Proof.
  intros Hlag.
  induction polls as [|polls IH]; intros fuel w r w' Hfuel Hbound Hcode;
    (destruct fuel as [|fuel]; [lia|]); cbn [Auth.wait_for_code];
    unfold Py.bind at 1, time_time at 1.
  - rewrite half_seconds_0 in Hbound.
    assert (Qltb (clock w - start_time) 300 = false) as ->
      by (apply Qltb_false; lra).
    unfold Py.ret. intros [= <- <-] _. exists 0%nat. simpl. rewrite app_nil_r.
    repeat split; try done; try lia; try lra.
  - destruct (Qltb (clock w - start_time) 300) eqn:Hlt.
    + unfold Py.bind at 1, Auth.read_flow at 1, Py.bind at 1, Py.get_state at 1, Py.ret at 1.
      rewrite Hcode. unfold Py.bind at 1.
      destruct (asyncio_sleep_effect e (1 # 2) w) as (flows & Hsleep & Hflows).
      pose proof (Hlag (sleeps w)) as Hlag0.
      rewrite half_seconds_S in Hbound.
      rewrite Hsleep. intros Hrest Hnone.
      pose proof (wait_for_code_clock_forward _ _ _ _ _ Hlag _ _ _ Hrest) as Hfwd.
      unfold Trace.clock_forward in Hfwd. simpl in Hfwd.
      set (ws := World _ _ _ _ _) in Hrest, Hfwd.
      assert (Hsame : Dict.get flows state = Dict.get (auth_flows w) state
                      /\ Dict.keys flows = Dict.keys (auth_flows w)
                      /\ (Trace.no_redirect_between e (clock w) (clock w') ->
                          flows = auth_flows w)).
      { destruct Hflows as [->|(arrival & c & s & fd & Hredirect & Hafter & Hbefore
                                 & Hc & Hs & Hget & ->)]; [done|].
        split; [|split].
        - unfold Trace.no_code_between in Hnone. rewrite Hredirect in Hnone.
          destruct Hnone as [H|[H|[H|H]]]; [lra | lra | |].
          + apply dict_get_set_ne. congruence.
          + simpl in H. unfold Py.truthy_str in Hc. congruence.
        - apply dict_keys_set_present. unfold Dict.contains. by rewrite Hget.
        - unfold Trace.no_redirect_between. rewrite Hredirect. lra. }
      destruct Hsame as (Hget1 & Hkeys1 & Hquiet1).
      destruct (IH fuel ws r w' ltac:(lia) ltac:(unfold ws; cbn [clock]; lra))
        as (n & -> & Hn & Hend & Hmono & _ & Hsl & Hlog & Hget2 & Hkeys2 & Hquiet2 & Hsto);
        [ unfold ws; cbn [auth_flows]; unfold Dict.get_default in *; by rewrite Hget1
        | exact Hrest | |].
      { unfold Trace.no_code_between in *.
        destruct (Auth.redirect e) as [[[arrival c] s0]|]; [|done].
        unfold ws. cbn [clock]. destruct Hnone as [H|[H|H]]; [left; lra | right; by left |].
        right. by right. }
      exists (S n). unfold ws in *. cbn [clock sleeps log auth_flows storage] in *.
      split; [done|]. split; [lia|]. split; [done|]. split; [lra|]. split; [lia|].
      split; [lia|]. split; [by rewrite Hlog, <- app_assoc|].
      split; [congruence|]. split; [congruence|]. split; [|done].
      intros Hq. rewrite Hquiet2, Hquiet1; [done | done |].
      unfold Trace.no_redirect_between in *.
      destruct (Auth.redirect e) as [[[arrival c] s0]|]; [|done].
      destruct Hq; [left; lra | by right].
    + apply Qltb_false in Hlt. unfold Py.ret. intros [= <- <-] _.
      exists 0%nat. simpl. rewrite app_nil_r.
      repeat split; try done; try lia; try lra.
Qed.


Lemma emit_same_clock ev : Trace.preserves Trace.same_clock (emit ev).
Proof. by intros w r w' [= _ <-]. Qed.

Lemma shutdown_flow_server_same_clock e state :
  Trace.preserves Trace.same_clock (Auth._shutdown_flow_server e state).
Proof. intros w r w'. rewrite shutdown_flow_server_run. by intros [= _ <-]. Qed.

Lemma del_auth_flow_same_clock state :
  Trace.preserves Trace.same_clock (Auth.del_auth_flow state).
Proof.
  unfold Auth.del_auth_flow.
  preserves_steps same_clock_refl same_clock_trans ltac:(apply emit_same_clock).
  by apply preserves_modify.
Qed.

Lemma exchange_and_finish_same_clock e state flow_data project_id :
  Trace.preserves Trace.same_clock
    (Auth.exchange_and_finish e state flow_data project_id).
Proof.
  unfold Auth.exchange_and_finish, Auth.read_flow, Auth.detect_project, Auth.finish_flow.
  preserves_steps same_clock_refl same_clock_trans
    ltac:(first [ apply emit_same_clock
                | apply shutdown_flow_server_same_clock
                | apply del_auth_flow_same_clock
                | apply (preserves_weaken _ _ _ only_storage_same_clock);
                  apply save_credentials_only_storage ]).
Qed.

(** C3.  Let a call of [complete_auth_flow] locate a flow whose code has not
    arrived, and let no code arrive for this flow between the start of the
    call and its return: no redirect that names the state of the flow and
    carries a code is handled in that time (redirects for other flows, or
    without a code, may be).  Then the call did not fail at once: it polled,
    sleeping half a second between two looks at the record, at least once and
    at most 600 times, until 300 seconds had passed; and it returned (it
    raised nothing) the failure
    [{"success": False, "error": "Callback timeout"}], which is not a
    success.  The record of the flow is still registered afterwards,
    unchanged; the map has the same keys; when no redirect at all was
    handled the whole map is as before; and the store was not touched.  (The
    scheduler may let a sleep last longer than asked, never shorter; 601
    iterations of the loop are enough whatever it does.) *)
Theorem complete_auth_flow_callback_timeout (e : Auth.env) (fuel : nat)
    (project_id user_session : option string) (w : world)
    (state : string) (flow_data : FlowData.t) (r : Py.outcome Auth.response)
    (w' : world) :
  NoDup (Dict.keys (auth_flows w)) ->
  Auth.get_auth_flow project_id user_session w
    = (Return (Some state, Some flow_data), w) ->
  Py.truthy_str state = true ->
  Py.truthy (FlowData.code flow_data) = false ->
  (forall n, 0 <= Auth.sleep_lag e n)%Q ->
  (601 <= fuel)%nat ->
  Auth.complete_auth_flow e fuel project_id user_session w = (r, w') ->
  Trace.no_code_between e state (clock w) (clock w') ->
  r = Return (Auth.Failure "Callback timeout")
  /\ Auth.success (Auth.Failure "Callback timeout") = false
  /\ (exists polls,
        (1 <= polls <= 600)%nat
        /\ log w' = (log w ++ repeat (Sleep (1 # 2)) polls)%list)
  /\ (300 <= clock w' - clock w)%Q
  /\ Dict.get (auth_flows w') state = Some flow_data
  /\ Dict.keys (auth_flows w') = Dict.keys (auth_flows w)
  /\ (Trace.no_redirect_between e (clock w) (clock w') -> auth_flows w' = auth_flows w)
  /\ storage w' = storage w.
Proof.
  intros Hnd Hget Hstate Hcode Hlag Hfuel Hrun Hnone.
  rewrite (complete_auth_flow_located _ _ _ _ _ _ _ Hnd Hget Hstate) in Hrun.
  destruct (get_auth_flow_located _ _ _ _ _ Hnd Hget) as [Hstored _].
  assert (Hcur : Py.truthy (FlowData.code
                   (Dict.get_default (auth_flows w) state flow_data)) = false)
    by (by rewrite (dict_get_default_Some _ _ _ _ Hstored)).
  revert Hrun.
  unfold Py.try_except, Py.bind at 1, Auth.wait_for_callback.
  unfold Py.bind at 1, Auth.read_flow at 1, Py.bind at 1, Py.get_state at 1, Py.ret at 1.
  rewrite Hcur. cbn [negb].
  unfold Py.bind at 1, time_time at 1. unfold Py.bind at 1.
  destruct (Auth.wait_for_code e fuel state flow_data (clock w) w) as [x w1] eqn:Hwait.
  assert (Hquiet : Trace.no_code_between e state (clock w) (clock w1) ->
                   x = Return tt
                   /\ (exists polls,
                         (1 <= polls <= 600)%nat
                         /\ log w1 = (log w ++ repeat (Sleep (1 # 2)) polls)%list)
                   /\ (300 <= clock w1 - clock w)%Q
                   /\ Dict.get (auth_flows w1) state = Some flow_data
                   /\ Dict.keys (auth_flows w1) = Dict.keys (auth_flows w)
                   /\ (Trace.no_redirect_between e (clock w) (clock w1) ->
                       auth_flows w1 = auth_flows w)
                   /\ storage w1 = storage w).
  { intros Hnone1.
    destruct (wait_for_code_unanswered e state flow_data (clock w) Hlag
                600%nat fuel w x w1)
      as (n & -> & Hn & Hend & _ & Hn1 & _ & Hlog & Hrec & Hkeys & Hflows & Hsto);
      try done; try lia.
    - assert (Trace.half_seconds 600 == 300)%Q as -> by reflexivity. lra.
    - split; [done|]. split; [|split; [done|]; split; [congruence | done]].
      exists n. split; [|done]. split; [apply Hn1; lra | done]. }
  destruct x as [[]|ex|].
  - unfold Py.bind at 1, Auth.read_flow at 1, Py.bind at 1, Py.get_state at 1, Py.ret at 1.
    destruct (negb (Py.truthy (FlowData.code
                (Dict.get_default (auth_flows w1) state flow_data)))) eqn:Hcode1.
    + unfold Py.ret. cbn beta iota. intros [= <- <-].
      destruct (Hquiet Hnone) as (_ & Hpolls & Hwait' & Hrec & Hkeys & Hflows & Hsto). done.
    + unfold Py.ret at 1. cbn beta iota.
      destruct (Auth.exchange_and_finish e state flow_data project_id w1)
        as [[r0|ex|] w2] eqn:Hrest;
        pose proof (exchange_and_finish_same_clock _ _ _ _ _ _ _ Hrest) as Hclock;
        unfold Py.ret; cbn beta iota; intros [= <- <-]; exfalso;
        unfold Trace.same_clock in Hclock; rewrite Hclock in Hnone;
        destruct (Hquiet Hnone) as (_ & _ & _ & Hrec & _);
        rewrite (dict_get_default_Some _ _ _ _ Hrec), Hcode in Hcode1; discriminate.
  - unfold Py.ret. intros [= <- <-]. by destruct (Hquiet Hnone).
  - intros [= <- <-]. by destruct (Hquiet Hnone).
Qed.

Lemma complete_auth_flow_callback_timeout_witness :
  exists w',
    Auth.complete_auth_flow Samples.env_stray_redirect 601 None (Some "alice")
      (Samples.world_of 250 Samples.two_flows)
      = (Return (Auth.Failure "Callback timeout"), w')
    /\ (300 <= clock w' - 250)%Q
    /\ Dict.get (auth_flows w') "alice_1"
       = Some (Samples.flow_at 1 None (Some "alice") 100).
Proof.
  destruct (Auth.complete_auth_flow Samples.env_stray_redirect 601 None (Some "alice")
              (Samples.world_of 250 Samples.two_flows)) as [r w'] eqn:Hrun.
  destruct (complete_auth_flow_callback_timeout Samples.env_stray_redirect 601 None
              (Some "alice") (Samples.world_of 250 Samples.two_flows) "alice_1"
              (Samples.flow_at 1 None (Some "alice") 100) r w')
    as (-> & _ & _ & Hwait & Hrec & _).
  - apply (bool_decide_unpack _). vm_compute. exact I.
  - reflexivity.
  - reflexivity.
  - reflexivity.
  - intros n. simpl. apply Qle_refl.
  - lia.
  - exact Hrun.
  - right. right. left. discriminate.
  - exists w'. split; [reflexivity|]. split; [exact Hwait | exact Hrec].
Defined.

(** The run of that witness: while the call waits for the code of "alice",
    the redirect for the flow of "bob" is handled; the call still times out
    after 600 polls, and only the record of "bob" has a code. *)
Example complete_auth_flow_stray_redirect :
  let '(r, w') := Auth.complete_auth_flow Samples.env_stray_redirect 601 None (Some "alice")
                    (Samples.world_of 250 Samples.two_flows) in
  r = Return (Auth.Failure "Callback timeout")
  /\ sleeps w' = 600%nat
  /\ (FlowData.code <$> Dict.get (auth_flows w') "bob_2") = Some (Some "4/0BOB")
  /\ (FlowData.code <$> Dict.get (auth_flows w') "alice_1") = Some None.
Proof. vm_compute. repeat split. Qed.

(** The same call on the sample world, run: 600 polls, and the clock stands
    at 550 = 250 + 300 when it returns. *)
Example complete_auth_flow_timeout_run :
  let '(r, w') := Auth.complete_auth_flow Samples.quiet_env 601 None (Some "alice")
                    (Samples.world_of 250 Samples.two_flows) in
  r = Return (Auth.Failure "Callback timeout")
  /\ sleeps w' = 600%nat /\ Qeq_bool (clock w') 550 = true.
Proof. vm_compute. repeat split. Qed.

(** [save_credentials] on a name that is stored already (same project, same
    second): [store_credential] keeps the health of the record, and the
    [update_credential_state] that follows (lines 258-266) sets it back to the
    default; the stats stay. *)
Example save_credentials_resets_health :
  let w := World 1000 0 [] Samples.answered_flows
             (Manager true
                (Cache (<["proj-1-1000.json" := Samples.disabled_entry]> ∅) false) 1 []) in
  let w' := snd (Auth.save_credentials (Samples.env_with_projects [])
                   Samples.sample_credentials "proj-1" w) in
  (Trace.credentials_table w' !! "proj-1-1000.json") ≫= (fun e => Dict.get e "state")
  = Some (JDict [("error_codes", JList []);
                 ("disabled", JBool false);
                 ("last_success", JNum 1000);
                 ("user_email", JNull)])
  /\ (Trace.credentials_table w' !! "proj-1-1000.json") ≫= (fun e => Dict.get e "stats")
     = Dict.get Samples.disabled_entry "stats".
Proof. vm_compute. split; reflexivity. Qed.

(** A redirect that is handled only after the call has returned does not
    help it: here it comes at 600, while the call started at 250 gives up
    after 500 polls of 0.6 seconds. *)
Example complete_auth_flow_late_redirect :
  let '(r, w') := Auth.complete_auth_flow Samples.env_late_redirect 601 None (Some "alice")
                    (Samples.world_of 250 Samples.two_flows) in
  r = Return (Auth.Failure "Callback timeout")
  /\ sleeps w' = 500%nat /\ Qeq_bool (clock w') 550 = true
  /\ Trace.no_redirect_between Samples.env_late_redirect 250 (clock w').
Proof. vm_compute. repeat split. right. reflexivity. Qed.


(** ** The wait that ends with the code

    The counterpart of the timeout: a redirect for the flow that the
    listener handles before the deadline ends the wait, with the code in the
    record.  This is the situation of the theorem on the detection of the
    project when the code is not there at entry. *)

(** A sleep during which the listener handles the redirect for a registered
    flow: the code is in the record when the sleeper wakes up. *)
Lemma asyncio_sleep_delivers e seconds w arrival c state fd :
  let woken := (clock w + seconds + Auth.sleep_lag e (sleeps w))%Q in
  Auth.redirect e = Some (arrival, Some c, Some state) ->
  Py.truthy_str c = true -> Py.truthy_str state = true ->
  (clock w < arrival)%Q -> (arrival <= woken)%Q ->
  Dict.get (auth_flows w) state = Some fd ->
  Auth.asyncio_sleep e seconds w
  = (Return tt,
     World woken (S (sleeps w)) (log w ++ [Sleep seconds])
       (Dict.set (auth_flows w) state
          (FlowData.set_completed true (FlowData.set_code (Some c) fd)))
       (storage w)).
Proof.
  intros woken Hredirect Hc Hstate Hafter Hbefore Hget.
  unfold Auth.asyncio_sleep, Py.bind, Py.get_state, emit, Py.modify, Py.ret.
  cbn [clock sleeps log auth_flows storage]. fold woken. rewrite Hredirect.
  apply Qltb_true in Hafter. apply Qle_bool_iff in Hbefore.
  rewrite Hafter, Hbefore. cbn [andb].
  unfold Auth.do_GET. rewrite Hc, Hstate. cbn [andb].
  unfold Py.bind, Auth.handle_callback, Py.bind, Py.get_state, Py.modify, Py.ret.
  cbn [clock sleeps log auth_flows storage set_auth_flows]. by rewrite Hget.
Qed.

(** The loop of lines 315-318 when the redirect for the flow is handled
    before the deadline: it ends with the code in the record. *)
Lemma wait_for_code_answered e state flow_data start_time arrival c :
  (forall n, 0 <= Auth.sleep_lag e n)%Q ->
  Auth.redirect e = Some (arrival, Some c, Some state) ->
  Py.truthy_str c = true -> Py.truthy_str state = true ->
  (arrival - start_time < 300)%Q ->
  forall polls fuel w r w',
    (S polls < fuel)%nat ->
    (arrival - clock w <= Trace.half_seconds polls)%Q ->
    (clock w < arrival)%Q ->
    is_Some (Dict.get (auth_flows w) state) ->
    Py.truthy (FlowData.code (Dict.get_default (auth_flows w) state flow_data)) = false ->
    Auth.wait_for_code e fuel state flow_data start_time w = (r, w') ->
    r = Return tt
    /\ FlowData.code (Dict.get_default (auth_flows w') state flow_data) = Some c.
Proof.
  intros Hlag Hredirect Hc Hstate Hdeadline.
  induction polls as [|polls IH]; intros fuel w r w' Hfuel Hreach Hbefore Hreg Hcode.
  { rewrite half_seconds_0 in Hreach. lra. }
  destruct fuel as [|fuel]; [lia|]. cbn [Auth.wait_for_code].
  unfold Py.bind at 1, time_time at 1.
  assert (Qltb (clock w - start_time) 300 = true) as -> by (apply Qltb_true; lra).
  unfold Py.bind at 1, Auth.read_flow at 1, Py.bind at 1, Py.get_state at 1, Py.ret at 1.
  rewrite Hcode. unfold Py.bind at 1.
  pose proof (Hlag (sleeps w)) as Hlag0.
  rewrite half_seconds_S in Hreach.
  set (woken := (clock w + (1 # 2) + Auth.sleep_lag e (sleeps w))%Q).
  destruct (Qlt_le_dec woken arrival) as [Hnot|Harrived].
  - (* not yet *)
    destruct (asyncio_sleep_effect e (1 # 2) w) as (flows & -> & Hflows).
    assert (flows = auth_flows w) as ->.
    { destruct Hflows as [->|(a' & c' & s' & fd & Hr & _ & Hle & _)]; [done|].
      rewrite Hredirect in Hr. injection Hr as <- <- <-. fold woken in Hle. lra. }
    fold woken. apply (IH fuel); cbn [clock auth_flows]; try done; [lia|].
    unfold woken in Hnot |- *. lra.
  - (* the listener handled the request during this sleep *)
    destruct Hreg as [fd0 Hget0].
    rewrite (asyncio_sleep_delivers e (1 # 2) w arrival c state fd0) by done.
    fold woken.
    destruct fuel as [|fuel]; [lia|]. cbn [Auth.wait_for_code].
    unfold Py.bind at 1, time_time at 1. cbn [clock].
    assert (Hread : Dict.get_default
                      (Dict.set (auth_flows w) state
                         (FlowData.set_completed true (FlowData.set_code (Some c) fd0)))
                      state flow_data
                    = FlowData.set_completed true (FlowData.set_code (Some c) fd0))
      by (apply dict_get_default_Some, dict_get_set_eq).
    destruct (Qltb (woken - start_time) 300).
    + unfold Py.bind at 1, Auth.read_flow at 1, Py.bind at 1, Py.get_state at 1, Py.ret at 1.
      cbn [auth_flows]. rewrite Hread. cbn [FlowData.code FlowData.set_completed
        FlowData.set_code Py.truthy]. unfold Py.truthy_str in Hc. rewrite Hc.
      unfold Py.ret. intros [= <- <-]. cbn [auth_flows]. by rewrite Hread.
    + unfold Py.ret. intros [= <- <-]. cbn [auth_flows]. by rewrite Hread.
Qed.

(** When the redirect for the flow is handled less than 300 seconds after
    the call has started to wait, the wait ends with the code: the
    hypothesis of the theorem on the detection of the project holds. *)
Lemma wait_for_callback_answered e fuel state flow_data w arrival c :
  (forall n, 0 <= Auth.sleep_lag e n)%Q ->
  (602 <= fuel)%nat ->
  Auth.redirect e = Some (arrival, Some c, Some state) ->
  Py.truthy_str c = true -> Py.truthy_str state = true ->
  (clock w < arrival)%Q -> (arrival - clock w < 300)%Q ->
  Dict.get (auth_flows w) state = Some flow_data ->
  Py.truthy (FlowData.code flow_data) = false ->
  exists w1,
    Auth.wait_for_callback e fuel state flow_data w = (Return false, w1)
    /\ FlowData.code (Dict.get_default (auth_flows w1) state flow_data) = Some c.
Proof.
  intros Hlag Hfuel Hredirect Hc Hstate Hafter Hdeadline Hget Hcode.
  unfold Auth.wait_for_callback.
  unfold Py.bind at 1, Auth.read_flow at 1, Py.bind at 1, Py.get_state at 1, Py.ret at 1.
  rewrite (dict_get_default_Some _ _ _ _ Hget), Hcode. cbn [negb].
  unfold Py.bind at 1, time_time at 1. unfold Py.bind at 1.
  destruct (Auth.wait_for_code e fuel state flow_data (clock w) w) as [r w1] eqn:Hwait.
  destruct (wait_for_code_answered e state flow_data (clock w) arrival c
              Hlag Hredirect Hc Hstate Hdeadline 600%nat fuel w r w1)
    as [-> Hcode1]; try done; try lia.
  - assert (Trace.half_seconds 600 == 300)%Q as -> by reflexivity. lra.
  - by rewrite (dict_get_default_Some _ _ _ _ Hget).
  - exists w1. split; [|done].
    unfold Py.bind at 1, Auth.read_flow at 1, Py.bind at 1, Py.get_state at 1, Py.ret at 1.
    rewrite Hcode1. cbn [Py.truthy]. unfold Py.truthy_str in Hc. by rewrite Hc.
Qed.


(** ** File names with the prefix of a user ([src/utils.py]) *)

Lemma prefix_app (p s : string) : String.prefix p (p ++ s) = true.
Proof.
  induction p as [|c p IH]; simpl.
  - by destruct s.
  - destruct (Ascii.ascii_dec c c); [apply IH | done].
Qed.

Lemma drop_chars_app (p s : string) : Utils.drop_chars (String.length p) (p ++ s) = s.
Proof. induction p as [|c p IH]; simpl; [by destruct s | apply IH]. Qed.

(** X1. [get_user_filename] always gives a name that starts with the prefix
    of the user, and applying it twice is applying it once; on a name that
    does not already start with that prefix, [strip_user_prefix] undoes it. *)
Theorem user_prefix_round_trip (user_id filename : string) :
  String.prefix (Utils.user_prefix user_id) (Utils.get_user_filename user_id filename) = true
  /\ Utils.get_user_filename user_id (Utils.get_user_filename user_id filename)
     = Utils.get_user_filename user_id filename
  /\ (String.prefix (Utils.user_prefix user_id) filename = false ->
      Utils.strip_user_prefix user_id (Utils.get_user_filename user_id filename) = filename).
Proof.
  assert (Hp : String.prefix (Utils.user_prefix user_id)
                 (Utils.get_user_filename user_id filename) = true).
  { unfold Utils.get_user_filename. cbv zeta.
    destruct (String.prefix _ filename) eqn:Hpre; [done | apply prefix_app]. }
  split; [done|]. split.
  - unfold Utils.get_user_filename at 1. cbv zeta. by rewrite Hp.
  - intros Hfresh. unfold Utils.get_user_filename, Utils.strip_user_prefix.
    rewrite Hfresh. cbv zeta. rewrite prefix_app. apply drop_chars_app.
Qed.

Lemma user_prefix_round_trip_witness :
  Utils.strip_user_prefix "7f3a" (Utils.get_user_filename "7f3a" "proj-1-1700000000.json")
  = "proj-1-1700000000.json".
Proof.
  destruct (user_prefix_round_trip "7f3a" "proj-1-1700000000.json") as (_ & _ & Hstrip).
  apply Hstrip. reflexivity.
Defined.


(** ** The other credential operations of [MySQLManager] *)

Ltac run_store2 :=
  unfold Storage.update_credential_state, Storage.update_usage_stats,
    Storage.get_credential_state, Storage.get_usage_stats, Storage.get_all_usage_stats,
    Storage.delete_credential, Storage.cache_delete,
    Storage.store_credential, Storage.get_credential, Storage.list_credentials,
    Storage.get_all_credential_states, Storage._ensure_initialized,
    Storage._get_default_state, Storage.cache_get, Storage.cache_set,
    Storage.cache_get_all, Storage.bump_operation_count,
    Storage.record_operation_time, Storage.with_storage,
    Py.try_except, Py.bind, Py.get_state, Py.modify, Py.ret, Py.raise, time_time;
  cbn [storage set_storage set_cache _initialized _credentials_cache_manager
       cache_data clock fst snd].

Lemma update_credential_state_run w filename updates :
  _initialized (storage w) = true ->
  Storage.update_credential_state filename updates w
  = match Dict.get (Trace.record_or_fresh w filename) "state" with
    | Some (JDict st) =>
        (Return true,
         Trace.with_table
           (<[filename := Dict.set (Trace.record_or_fresh w filename) "state"
                            (JDict (Dict.update st updates))]>
              (Trace.credentials_table w)) w)
    | _ => (Return false, w)
    end.
Proof.
  intros Hinit. run_store2. rewrite Hinit.
  unfold Trace.record_or_fresh, Trace.credentials_table. cbv zeta.
  unfold Storage.update_state_field, Trace.with_table, Trace.credentials_table.
  destruct (cache_data _ !! filename) as [[|kv existing]|]; cbn [default from_option]; unfold id;
    cbn [Dict.truthy negb]; try reflexivity.
  by destruct (Dict.get (kv :: existing) "state") as [[| | | | |st]|].
Qed.

Lemma update_usage_stats_run w filename updates :
  _initialized (storage w) = true ->
  Storage.update_usage_stats filename updates w
  = match Dict.get (Trace.record_or_fresh w filename) "stats" with
    | Some (JDict st) =>
        (Return true,
         Trace.with_table
           (<[filename := Dict.set (Trace.record_or_fresh w filename) "stats"
                            (JDict (Dict.update st updates))]>
              (Trace.credentials_table w)) w)
    | _ => (Return false, w)
    end.
Proof.
  intros Hinit. run_store2. rewrite Hinit.
  unfold Trace.record_or_fresh, Trace.credentials_table. cbv zeta.
  unfold Storage.update_stats_field, Trace.with_table, Trace.credentials_table.
  destruct (cache_data _ !! filename) as [[|kv existing]|]; cbn [default from_option]; unfold id;
    cbn [Dict.truthy negb]; try reflexivity.
  by destruct (Dict.get (kv :: existing) "stats") as [[| | | | |st]|].
Qed.

Lemma get_credential_state_run w filename :
  _initialized (storage w) = true ->
  Storage.get_credential_state filename w
  = (Return (match Trace.credentials_table w !! filename with
             | Some e => Dict.get_default e "state" (JDict (Trace.default_state_at (clock w)))
             | None => JDict (Trace.default_state_at (clock w))
             end), w).
Proof.
  intros Hinit. run_store2. rewrite Hinit.
  unfold Trace.credentials_table, Dict.get_default, Dict.contains.
  destruct (cache_data _ !! filename) as [e|]; [|done].
  destruct e as [|kv e]; [done|]. cbn [Dict.truthy andb].
  by destruct (Dict.get (kv :: e) "state").
Qed.

Lemma get_usage_stats_run w filename :
  _initialized (storage w) = true ->
  Storage.get_usage_stats filename w
  = (Return (match Trace.credentials_table w !! filename with
             | Some e => Dict.get_default e "stats" (JDict Storage._get_default_stats)
             | None => JDict Storage._get_default_stats
             end), w).
Proof.
  intros Hinit. run_store2. rewrite Hinit.
  unfold Trace.credentials_table, Dict.get_default, Dict.contains.
  destruct (cache_data _ !! filename) as [e|]; [|done].
  destruct e as [|kv e]; [done|]. cbn [Dict.truthy andb].
  by destruct (Dict.get (kv :: e) "stats").
Qed.

Lemma delete_credential_run w reports filename :
  _initialized (storage w) = true ->
  Storage.delete_credential reports filename w
  = (Return (reports (bool_decide (is_Some (Trace.credentials_table w !! filename)))),
     Trace.with_table (delete filename (Trace.credentials_table w)) w).
Proof. intros Hinit. run_store2. by rewrite Hinit. Qed.

Lemma credentials_table_with_table table w :
  Trace.credentials_table (Trace.with_table table w) = table.
Proof. done. Qed.

Lemma initialized_with_table table w :
  _initialized (storage (Trace.with_table table w)) = _initialized (storage w).
Proof. done. Qed.

Lemma clock_with_table table w : clock (Trace.with_table table w) = clock w.
Proof. done. Qed.


(** Brings every lookup in the credentials table to the same form. *)
Ltac norm_lookup :=
  repeat match goal with
    | |- context [@lookup string ?A (gmap string entry) ?I ?k ?m] =>
        lazymatch A with
        | entry => fail
        | _ => change (@lookup string A (gmap string entry) I k m)
                 with (@lookup string entry (gmap string entry) I k m)
        end
    | H : context [@lookup string ?A (gmap string entry) ?I ?k ?m] |- _ =>
        lazymatch A with
        | entry => fail
        | _ => change (@lookup string A (gmap string entry) I k m)
                 with (@lookup string entry (gmap string entry) I k m) in H
        end
    end.

Lemma dict_get_update_notin {V} (updates : Dict.t V) : forall (d : Dict.t V) k,
  ~ In k (Dict.keys updates) -> Dict.get (Dict.update d updates) k = Dict.get d k.
Proof.
  unfold Dict.update, Dict.keys.
  induction updates as [|[k0 v0] updates IH]; intros d k Hnot; simpl in *; [done|].
  rewrite IH by tauto. apply dict_get_set_ne. intros ->. tauto.
Qed.

Lemma dict_get_update_in {V} (updates : Dict.t V) : forall (d : Dict.t V) k v,
  NoDup (Dict.keys updates) -> In (k, v) updates ->
  Dict.get (Dict.update d updates) k = Some v.
Proof.
  unfold Dict.update, Dict.keys.
  induction updates as [|[k0 v0] updates IH]; intros d k v Hnd Hin; simpl in *; [done|].
  apply NoDup_cons in Hnd as [Hfresh Hnd].
  destruct Hin as [[= -> ->]|Hin].
  - fold (Dict.update (Dict.set d k v) updates).
    rewrite dict_get_update_notin; [apply dict_get_set_eq|].
    intros Hk. apply Hfresh. by apply list_elem_of_In.
  - by apply IH.
Qed.

Lemma dict_get_truthy {V} (d : Dict.t V) k v : Dict.get d k = Some v -> Dict.truthy d = true.
Proof. by destruct d. Qed.

Lemma record_or_fresh_stored w filename (e : list (string * json)) k v :
  Trace.credentials_table w !! filename = Some e ->
  Dict.get e k = Some v ->
  Trace.record_or_fresh w filename = e.
Proof.
  intros Hl Hget. unfold Trace.record_or_fresh. norm_lookup. rewrite Hl. cbn [default from_option id].
  unfold id. by rewrite (dict_get_truthy _ _ _ Hget).
Qed.

Lemma record_or_fresh_absent w filename :
  Trace.credentials_table w !! filename = None ->
  Trace.record_or_fresh w filename
  = [("credential", JDict []);
     ("state", JDict (Trace.default_state_at (clock w)));
     ("stats", JDict Storage._get_default_stats)].
Proof. intros Hl. unfold Trace.record_or_fresh. norm_lookup. by rewrite Hl. Qed.

(** X2. Updating the health of a stored record merges the update into its
    state: afterwards [get_credential_state] gives the old state with the
    updated fields replaced and the other fields kept, [get_credential] and
    [get_usage_stats] give what they gave before, and no other record
    changed. *)
Theorem update_credential_state_merges w filename updates e st :
  _initialized (storage w) = true ->
  Trace.credentials_table w !! filename = Some e ->
  Dict.get e "state" = Some (JDict st) ->
  exists w',
    Storage.update_credential_state filename updates w = (Return true, w')
    /\ Storage.get_credential_state filename w'
       = (Return (JDict (Dict.update st updates)), w')
    /\ (forall k, ~ In k (Dict.keys updates) ->
          Dict.get (Dict.update st updates) k = Dict.get st k)
    /\ (forall k v, NoDup (Dict.keys updates) -> In (k, v) updates ->
          Dict.get (Dict.update st updates) k = Some v)
    /\ fst (Storage.get_credential filename w') = fst (Storage.get_credential filename w)
    /\ fst (Storage.get_usage_stats filename w') = fst (Storage.get_usage_stats filename w)
    /\ (forall other, other <> filename ->
          Trace.credentials_table w' !! other = Trace.credentials_table w !! other).
Proof.
  intros Hinit Hl Hst.
  rewrite update_credential_state_run by done.
  rewrite (record_or_fresh_stored _ _ _ _ _ Hl Hst), Hst.
  eexists. split; [reflexivity|].
  set (w' := Trace.with_table _ w).
  assert (Hl' : Trace.credentials_table w' !! filename
                = Some (Dict.set e "state" (JDict (Dict.update st updates)))).
  { unfold w'. rewrite credentials_table_with_table. apply lookup_insert_eq. }
  assert (Hinit' : _initialized (storage w') = true) by done.
  split; [|split; [|split; [|split; [|split]]]].
  - rewrite get_credential_state_run by done. norm_lookup. rewrite Hl'.
    unfold Dict.get_default. by rewrite dict_get_set_eq.
  - intros k. apply dict_get_update_notin.
  - intros k v. apply dict_get_update_in.
  - destruct (get_credential_run w' filename Hinit') as (w1 & ->).
    destruct (get_credential_run w filename Hinit) as (w2 & ->).
    cbn [fst]. norm_lookup. rewrite Hl', Hl.
    rewrite (dict_get_truthy _ _ _ Hst).
    rewrite (dict_get_truthy _ "state" (JDict (Dict.update st updates)))
      by apply dict_get_set_eq.
    by rewrite dict_get_set_ne.
  - rewrite !get_usage_stats_run by done. cbn [fst]. norm_lookup. rewrite Hl', Hl.
    unfold Dict.get_default. by rewrite dict_get_set_ne.
  - intros other Hne. unfold w'. rewrite credentials_table_with_table.
    by apply lookup_insert_ne.
Qed.

Lemma update_credential_state_merges_witness :
  exists w',
    Storage.update_credential_state "a.json" [("disabled", JBool true)] Samples.stocked_world
    = (Return true, w')
    /\ Storage.get_credential_state "a.json" w'
       = (Return (JDict [("error_codes", JList [JNum 429]);
                         ("disabled", JBool true);
                         ("last_success", JNum 50);
                         ("user_email", JStr "a@example.com")]), w').
Proof.
  destruct (update_credential_state_merges Samples.stocked_world "a.json"
              [("disabled", JBool true)] Samples.used_entry
              [("error_codes", JList [JNum 429]);
               ("disabled", JBool false);
               ("last_success", JNum 50);
               ("user_email", JStr "a@example.com")])
    as (w' & Hrun & Hget & _); [reflexivity | reflexivity | reflexivity |].
  exists w'. split; [exact Hrun | exact Hget].
Defined.


(** X3. Updating the health of a name that is not stored creates a record
    for it: the call reports success, the new record has the empty
    dictionary as its credential, and the name is listed from then on. *)
Theorem update_credential_state_creates_record w filename updates :
  _initialized (storage w) = true ->
  Trace.credentials_table w !! filename = None ->
  exists w',
    Storage.update_credential_state filename updates w = (Return true, w')
    /\ Trace.credentials_table w'
       = <[filename :=
            [("credential", JDict []);
             ("state", JDict (Dict.update (Trace.default_state_at (clock w)) updates));
             ("stats", JDict Storage._get_default_stats)]]>
         (Trace.credentials_table w)
    /\ fst (Storage.get_credential filename w') = Return (Some (JDict []))
    /\ exists names,
         Storage.list_credentials w' = (Return names, w') /\ In filename names.
Proof.
  intros Hinit Hl.
  rewrite update_credential_state_run by done.
  rewrite (record_or_fresh_absent _ _ Hl). cbn [Dict.get String.eqb Ascii.eqb Bool.eqb].
  eexists. split; [reflexivity|].
  set (w' := Trace.with_table _ w).
  assert (Hinit' : _initialized (storage w') = true) by done.
  split; [done|]. split.
  - destruct (get_credential_run w' filename Hinit') as (w1 & ->).
    unfold w'. rewrite credentials_table_with_table. cbn [fst].
    norm_lookup. by rewrite lookup_insert_eq.
  - rewrite list_credentials_run by done. eexists. split; [reflexivity|].
    apply list_elem_of_In, elem_of_elements, elem_of_dom.
    unfold w'. rewrite credentials_table_with_table. norm_lookup.
    by rewrite lookup_insert_eq.
Qed.

Lemma update_credential_state_creates_record_witness :
  exists w',
    Storage.update_credential_state "ghost.json" [("disabled", JBool true)]
      Samples.stocked_world = (Return true, w')
    /\ fst (Storage.get_credential "ghost.json" w') = Return (Some (JDict [])).
Proof.
  destruct (update_credential_state_creates_record Samples.stocked_world "ghost.json"
              [("disabled", JBool true)])
    as (w' & Hrun & _ & Hget & _); [reflexivity | reflexivity |].
  exists w'. split; [exact Hrun | exact Hget].
Defined.

(** X4. [delete_credential] removes the record of the name and no other:
    afterwards [get_credential] gives [None] for it, it is not listed, and
    every other name is listed exactly if it was stored before. *)
Theorem delete_credential_removes w reports filename :
  _initialized (storage w) = true ->
  exists w',
    Storage.delete_credential reports filename w
    = (Return (reports (bool_decide (is_Some (Trace.credentials_table w !! filename)))), w')
    /\ Trace.credentials_table w' = delete filename (Trace.credentials_table w)
    /\ fst (Storage.get_credential filename w') = Return None
    /\ exists names,
         Storage.list_credentials w' = (Return names, w')
         /\ ~ In filename names
         /\ forall other, other <> filename ->
              (In other names <-> is_Some (Trace.credentials_table w !! other)).
Proof.
  intros Hinit. rewrite delete_credential_run by done.
  eexists. split; [reflexivity|].
  set (w' := Trace.with_table _ w).
  assert (Hinit' : _initialized (storage w') = true) by done.
  split; [done|]. split.
  - destruct (get_credential_run w' filename Hinit') as (w1 & ->).
    unfold w'. rewrite credentials_table_with_table. cbn [fst].
    norm_lookup. by rewrite lookup_delete_eq.
  - rewrite list_credentials_run by done. eexists. split; [reflexivity|].
    unfold w'. rewrite credentials_table_with_table. split.
    + rewrite <- list_elem_of_In, elem_of_elements, elem_of_dom.
      norm_lookup. rewrite lookup_delete_eq. by intros [? ?].
    + intros other Hne.
      rewrite <- list_elem_of_In, elem_of_elements, elem_of_dom.
      norm_lookup. by rewrite lookup_delete_ne.
Qed.

Lemma delete_credential_removes_witness :
  exists w',
    Storage.delete_credential (fun present => present) "a.json" Samples.stocked_world
    = (Return true, w')
    /\ fst (Storage.get_credential "a.json" w') = Return None.
Proof.
  destruct (delete_credential_removes Samples.stocked_world (fun present => present) "a.json")
    as (w' & Hrun & _ & Hget & _); [reflexivity |].
  exists w'. split; [exact Hrun | exact Hget].
Defined.


Lemma dict_set_comm {V} (d : Dict.t V) k1 k2 a b :
  k1 <> k2 -> Dict.contains d k1 = true ->
  Dict.set (Dict.set d k1 a) k2 b = Dict.set (Dict.set d k2 b) k1 a.
Proof.
  intros Hne. unfold Dict.contains.
  induction d as [|[k0 v0] d IH]; simpl; [done|].
  destruct (String.eqb_spec k1 k0) as [->|Hne1].
  - intros _. simpl.
    destruct (String.eqb_spec k2 k0) as [->|Hne2]; [done|].
    simpl. by rewrite String.eqb_refl.
  - intros Hin. simpl.
    destruct (String.eqb_spec k2 k0) as [->|Hne2]; simpl.
    + by destruct (String.eqb_spec k1 k0).
    + destruct (String.eqb_spec k1 k0); [done|]. by rewrite IH.
Qed.

Lemma record_or_fresh_with_table w filename (e : list (string * json)) table :
  Dict.truthy e = true ->
  Trace.record_or_fresh (Trace.with_table (<[filename := e]> table) w) filename = e.
Proof.
  intros He. unfold Trace.record_or_fresh. rewrite credentials_table_with_table.
  norm_lookup. rewrite lookup_insert_eq. cbn [default from_option]. unfold id.
  by rewrite He.
Qed.

Lemma with_table_twice t1 t2 w :
  Trace.with_table t2 (Trace.with_table t1 w) = Trace.with_table t2 w.
Proof. done. Qed.

Lemma dict_set_truthy {V} (d : Dict.t V) k v : Dict.truthy (Dict.set d k v) = true.
Proof. destruct d as [|[k0 v0] d]; simpl; [done|]. by destruct (String.eqb k k0). Qed.

(** X5. Updates of the health state and of the usage statistics of one name
    commute: in either order they leave the same store, so neither kind of
    update overwrites what the other wrote. *)
Theorem health_and_usage_updates_commute w filename state_updates stats_updates :
  snd ((Storage.update_credential_state filename state_updates ;;;
        Storage.update_usage_stats filename stats_updates) w)
  = snd ((Storage.update_usage_stats filename stats_updates ;;;
          Storage.update_credential_state filename state_updates) w).
Proof.
  destruct (_initialized (storage w)) eqn:Hinit.
  2:{ run_store2. by rewrite Hinit. }
  unfold Py.bind.
  rewrite update_credential_state_run, update_usage_stats_run by done.
  set (r := Trace.record_or_fresh w filename).
  destruct (Dict.get r "state") as [jst|] eqn:Hst;
    [destruct jst as [| | | | |st] | ];
    (destruct (Dict.get r "stats") as [jts|] eqn:Hts;
     [destruct jts as [| | | | |ts] | ]);
    rewrite ?update_usage_stats_run, ?update_credential_state_run by done;
    fold r; rewrite ?Hst, ?Hts;
    rewrite ?record_or_fresh_with_table by apply dict_set_truthy;
    rewrite ?dict_get_set_ne by done; rewrite ?Hst, ?Hts; try reflexivity.
  cbn [snd]. rewrite !with_table_twice, !credentials_table_with_table.
  rewrite !insert_insert_eq. do 2 f_equal.
  apply dict_set_comm; [done|]. unfold Dict.contains. by rewrite Hst.
Qed.


(** Before the manager is initialized no credential operation is
    served: each one raises [RuntimeError] instead of giving its failure
    value ([False], [None], an empty list or dictionary), and the store is
    left as it was. *)
Lemma uninitialized_manager_raises w filename blob updates reports :
  _initialized (storage w) = false ->
  let error := Exn RuntimeError "MySQL manager not initialized" in
  Storage.store_credential filename blob w = (Raise error, w)
  /\ Storage.get_credential filename w = (Raise error, w)
  /\ Storage.list_credentials w = (Raise error, w)
  /\ Storage.delete_credential reports filename w = (Raise error, w)
  /\ Storage.update_credential_state filename updates w = (Raise error, w)
  /\ Storage.get_credential_state filename w = (Raise error, w)
  /\ Storage.get_all_credential_states w = (Raise error, w)
  /\ Storage.update_usage_stats filename updates w = (Raise error, w)
  /\ Storage.get_usage_stats filename w = (Raise error, w)
  /\ Storage.get_all_usage_stats w = (Raise error, w).
Proof.
  intros Hinit error. repeat split; run_store2; by rewrite Hinit.
Qed.

(** ** [write_data] *)

(** X6. [write_data] never raises.  It returns [True] exactly when every step
    went through: the connection, the cursor, the serialization, the
    statement, the commit, and the exits of the two [async with] blocks, the
    cursor's first and then the connection's.  An exception raised by any of
    them, also by an exit that runs after [return True], is caught and gives
    [False].  The method ends without a value only if one of the two exits
    suppresses an exception raised inside its block. *)
Theorem write_data_reports_failure (db : Backend.write_store) (data : json) :
  exists r : option bool,
    Backend.write_data db data tt = (Return r, tt)
    /\ (r = Some true <->
        Backend.write_acquire db = Ok tt
        /\ Backend.write_cursor db = Ok tt
        /\ (exists json_data,
              Backend.json_dumps db data = Ok json_data
              /\ Backend.write_execute db json_data = Ok tt
              /\ Backend.commit db = Ok tt)
        /\ (exists b, Backend.cursor_close db None = Ok b)
        /\ (exists b, Backend.release db None = Ok b))
    /\ (r = None ->
        exists ex, Backend.cursor_close db (Some ex) = Ok true
                   \/ Backend.release db (Some ex) = Ok true).
Proof.
  unfold Backend.write_data, Py.try_except, Py.with_, Py.bind, Py.lift, Py.ret.
  repeat match goal with
         | |- context [match ?x with Ok _ => _ | Error _ => _ end] =>
             destruct x as [?|?] eqn:?
         | |- context [if ?b then _ else _] => destruct b
         | u : unit |- _ => destruct u
         end;
    (eexists; split; [reflexivity|]; split;
     [ split;
       [ intros Hr; first [ discriminate Hr | repeat split; eauto ]
       | intros (Ha & Hc & (j & Hj & He & Hm) & (b1 & Hx) & (b2 & Hy));
         first [ reflexivity | congruence ] ]
     | intros Hr;
       first [ discriminate Hr
             | eexists; left; eassumption
             | eexists; right; eassumption ] ]).
Qed.

Lemma write_data_reports_failure_witness :
  Backend.write_data
    (Backend.WriteStore (Ok tt) (Ok tt) (fun _ => Ok "{}") (fun _ => Ok tt) (Ok tt)
       (fun _ => Ok false)
       (fun _ => Error (Exn DatabaseError "Lost connection to MySQL server during query")))
    (JDict []) tt
  = (Return (Some false), tt).
Proof.
  destruct (write_data_reports_failure
              (Backend.WriteStore (Ok tt) (Ok tt) (fun _ => Ok "{}") (fun _ => Ok tt) (Ok tt)
                 (fun _ => Ok false)
                 (fun _ => Error (Exn DatabaseError
                                    "Lost connection to MySQL server during query")))
              (JDict [])) as (r & Hrun & Hok & Hnone).
  destruct r as [[|]|]; [|exact Hrun|].
  - destruct Hok as [Hall _].
    destruct (Hall eq_refl) as (_ & _ & _ & _ & b & Habs). discriminate Habs.
  - destruct (Hnone eq_refl) as (ex & [Habs|Habs]); discriminate Habs.
Defined.

(** The statement went through and was committed, and the method still
    reports a failure: here the release of the connection raises after
    [return True]. *)
Example write_data_exit_failure :
  Backend.write_data
    (Backend.WriteStore (Ok tt) (Ok tt) (fun _ => Ok "{}") (fun _ => Ok tt) (Ok tt)
       (fun _ => Ok false)
       (fun exc => match exc with
                   | None => Error (Exn OSError "Connection reset by peer")
                   | Some _ => Ok false
                   end))
    (JDict []) tt
  = (Return (Some false), tt).
Proof. reflexivity. Qed.


(** ** [find_available_port]: first fit *)



(** Near the top of the range the scan does not wrap around and does not
    fall back on the system: started at 65500 with every port taken, it
    raises at port 65536. *)
Example find_available_port_overflow :
  Auth.find_available_port
    (Auth.StartEnv (Ok 65500%Z) (fun _ => Ok tt) (fun _ => false) (Ok 49152%Z)
       (fun _ => Ok 7%nat) (fun _ => Ok tt) (fun _ _ _ => 3%nat) "0b5e"
       (fun _ _ => Ok "https://accounts.example/"))
    None (Samples.world_of 0 [])
  = (Raise (Exn OverflowError "bind(): port must be 0-65535."), Samples.world_of 0 []).
Proof. vm_compute. reflexivity. Qed.


(** ** Which flow [get_auth_flow] returns *)

Lemma scan_flows_owned selected user_session items x : forall found,
  Py.truthy user_session = true ->
  find (fun sd => selected (snd sd) && Trace.owned_by user_session sd) items = Some x ->
  Auth.scan_flows selected user_session items found = inl x.
Proof.
  intros found Htruthy. revert found.
  induction items as [|[s data] items IH]; intros found; [done|].
  cbn [find Auth.scan_flows snd]. unfold Trace.owned_by at 1. cbn [snd]. rewrite Htruthy.
  destruct (selected data); cbn [andb]; [|apply IH].
  destruct (bool_decide _); [by intros [= <-]|].
  destruct (negb _); apply IH.
Qed.

Lemma scan_flows_keep selected user_session items : forall found,
  Py.truthy user_session = false
  \/ find (fun sd => selected (snd sd) && Trace.owned_by user_session sd) items = None ->
  Py.truthy (fst found) = true ->
  Auth.scan_flows selected user_session items found = inr found.
Proof.
  induction items as [|[s data] items IH]; intros found Hnone Hfound; [done|].
  cbn [Auth.scan_flows]. rewrite Hfound. cbn [negb].
  assert (Hrest : Py.truthy user_session = false
                  \/ find (fun sd => selected (snd sd) && Trace.owned_by user_session sd)
                       items = None).
  { destruct Hnone as [?|Hnone]; [by left | right].
    cbn [find] in Hnone. by destruct (_ && _). }
  destruct (selected data) eqn:Hsel; [|by apply IH].
  destruct (Py.truthy user_session && bool_decide _) eqn:Hown; [|by apply IH].
  apply andb_prop in Hown as [Ht Hown].
  destruct Hnone as [Hnone|Hnone]; [congruence|].
  cbn [find snd] in Hnone. unfold Trace.owned_by at 1 in Hnone. cbn [snd] in Hnone.
  by rewrite Hsel, Hown in Hnone.
Qed.

Lemma scan_flows_first selected user_session items s data :
  Py.truthy user_session = false
  \/ find (fun sd => selected (snd sd) && Trace.owned_by user_session sd) items = None ->
  find (fun sd => selected (snd sd)) items = Some (s, data) ->
  Py.truthy_str s = true ->
  Auth.scan_flows selected user_session items (None, None) = inr (Some s, Some data).
Proof.
  intros Hnone Hfind Hs.
  induction items as [|[s0 data0] items IH]; [done|].
  assert (Hrest : Py.truthy user_session = false
                  \/ find (fun sd => selected (snd sd) && Trace.owned_by user_session sd)
                       items = None).
  { destruct Hnone as [?|Hnone]; [by left | right].
    cbn [find] in Hnone. by destruct (_ && _). }
  cbn [find snd] in Hfind. cbn [Auth.scan_flows].
  destruct (selected data0) eqn:Hsel; [|by apply IH].
  injection Hfind as -> ->.
  destruct (Py.truthy user_session && bool_decide _) eqn:Hown.
  - apply andb_prop in Hown as [Ht Hown].
    destruct Hnone as [Hnone|Hnone]; [congruence|].
    cbn [find snd] in Hnone. unfold Trace.owned_by at 1 in Hnone. cbn [snd] in Hnone.
    by rewrite Hsel, Hown in Hnone.
  - cbn [fst Py.truthy negb]. by apply scan_flows_keep.
Qed.

Lemma scan_flows_none selected user_session items found :
  find (fun sd => selected (snd sd)) items = None ->
  Auth.scan_flows selected user_session items found = inr found.
Proof.
  induction items as [|[s data] items IH]; [done|].
  cbn [find snd Auth.scan_flows]. destruct (selected data); [done | apply IH].
Qed.

(** X8. [get_auth_flow] prefers the flows of the caller: when the caller
    names a session and some candidate flow (started for the given project,
    or for automatic detection when no project is given) was started by that
    session, the first such flow is returned, whatever other sessions
    registered before it. *)
Theorem get_auth_flow_prefers_session project_id user_session w state flow_data :
  Py.truthy user_session = true ->
  find (fun sd => Trace.candidate project_id sd && Trace.owned_by user_session sd)
    (auth_flows w) = Some (state, flow_data) ->
  Auth.get_auth_flow project_id user_session w = (Return (Some state, Some flow_data), w).
Proof.
  intros Hsession Hfind.
  unfold Auth.get_auth_flow, Py.bind, Py.get_state. cbv zeta.
  unfold Trace.candidate in Hfind.
  destruct (Py.truthy project_id) eqn:Hpid.
  - by rewrite (scan_flows_owned _ _ _ _ _ Hsession Hfind).
  - cbn [negb Py.truthy].
    by rewrite (scan_flows_owned _ _ _ _ _ Hsession Hfind).
Qed.

Lemma get_auth_flow_prefers_session_witness :
  Auth.get_auth_flow None (Some "bob")
    (Samples.world_of 300
       [("alice_1", Samples.flow_at 1 None (Some "alice") 100);
        ("bob_2", Samples.flow_at 2 None (Some "bob") 200)])
  = (Return (Some "bob_2", Some (Samples.flow_at 2 None (Some "bob") 200)),
     Samples.world_of 300
       [("alice_1", Samples.flow_at 1 None (Some "alice") 100);
        ("bob_2", Samples.flow_at 2 None (Some "bob") 200)]).
Proof. apply get_auth_flow_prefers_session; reflexivity. Defined.

(** X9. [get_auth_flow] does not insist on the session: when the caller
    names no session, or none of the candidate flows was started by the
    session of the caller, the first candidate flow is returned, whichever
    session started it. *)
Theorem get_auth_flow_falls_back project_id user_session w state flow_data :
  Py.truthy user_session = false
  \/ find (fun sd => Trace.candidate project_id sd && Trace.owned_by user_session sd)
       (auth_flows w) = None ->
  find (Trace.candidate project_id) (auth_flows w) = Some (state, flow_data) ->
  Py.truthy_str state = true ->
  Auth.get_auth_flow project_id user_session w = (Return (Some state, Some flow_data), w).
Proof.
  intros Hnone Hfind Hstate.
  unfold Auth.get_auth_flow, Py.bind, Py.get_state. cbv zeta.
  unfold Trace.candidate in Hnone, Hfind.
  destruct (Py.truthy project_id) eqn:Hpid.
  - rewrite (scan_flows_first _ _ _ _ _ Hnone Hfind Hstate).
    cbn [Py.truthy negb]. unfold Py.truthy_str in Hstate. by rewrite Hstate.
  - cbn [negb Py.truthy].
    by rewrite (scan_flows_first _ _ _ _ _ Hnone Hfind Hstate).
Qed.

Lemma get_auth_flow_falls_back_witness :
  Auth.get_auth_flow None (Some "carol") (Samples.world_of 300 Samples.two_flows)
  = (Return (Some "alice_1", Some (Samples.flow_at 1 None (Some "alice") 100)),
     Samples.world_of 300 Samples.two_flows).
Proof. apply get_auth_flow_falls_back; [right|..]; reflexivity. Defined.

(** X10. A project id for which no flow was started is ignored by the
    lookup: [get_auth_flow] then returns what it returns without a project
    id, a flow started for automatic detection if there is one. *)
Theorem get_auth_flow_unknown_project project_id user_session w :
  Py.truthy project_id = true ->
  find (Trace.candidate project_id) (auth_flows w) = None ->
  Auth.get_auth_flow project_id user_session w = Auth.get_auth_flow None user_session w.
Proof.
  intros Hpid Hfind.
  unfold Auth.get_auth_flow, Py.bind, Py.get_state. cbv zeta.
  unfold Trace.candidate in Hfind. rewrite Hpid in *.
  by rewrite (scan_flows_none _ _ _ _ Hfind).
Qed.

Lemma get_auth_flow_unknown_project_witness :
  Auth.get_auth_flow (Some "proj-z") (Some "carol") (Samples.world_of 300 Samples.two_flows)
  = Auth.get_auth_flow None (Some "carol") (Samples.world_of 300 Samples.two_flows).
Proof. apply get_auth_flow_unknown_project; reflexivity. Defined.


(** ** [complete_auth_flow] always answers *)

Lemma do_GET_answers code state w :
  exists status w', Auth.do_GET code state w = (Return status, w') /\ clock w' = clock w.
Proof.
  unfold Auth.do_GET, Auth.handle_callback, Py.bind, Py.get_state, Py.modify, Py.ret.
  destruct code as [c|], state as [s|]; try by eexists _, _.
  destruct (Py.truthy_str c && Py.truthy_str s); [|by eexists _, _].
  destruct (Dict.get (auth_flows w) s); by eexists _, _.
Qed.

Lemma asyncio_sleep_answers e seconds w :
  exists w',
    Auth.asyncio_sleep e seconds w = (Return tt, w')
    /\ clock w' = (clock w + seconds + Auth.sleep_lag e (sleeps w))%Q.
Proof.
  unfold Auth.asyncio_sleep, emit.
  unfold Py.bind at 1, Py.get_state at 1.
  unfold Py.bind at 1, Py.modify at 1.
  unfold Py.bind at 1, Py.modify at 1. cbn [clock sleeps log auth_flows storage].
  destruct (Auth.redirect e) as [[[arrival code] state]|]; [|by eexists].
  destruct (Qltb (clock w) arrival && Qle_bool arrival _); [|by eexists].
  unfold Py.bind, Py.ret.
  match goal with |- context [Auth.do_GET code state ?w1] =>
    destruct (do_GET_answers code state w1) as (status & w' & -> & Hclock) end.
  by exists w'.
Qed.

Lemma wait_for_code_answers e state flow_data start_time :
  (forall n, 0 <= Auth.sleep_lag e n)%Q ->
  forall polls fuel w,
    (polls < fuel)%nat ->
    (300 <= clock w - start_time + Trace.half_seconds polls)%Q ->
    exists w', Auth.wait_for_code e fuel state flow_data start_time w = (Return tt, w').
Proof.
  intros Hlag.
  induction polls as [|polls IH]; intros fuel w Hfuel Hbound;
    (destruct fuel as [|fuel]; [lia|]); cbn [Auth.wait_for_code];
    unfold Py.bind at 1, time_time at 1.
  - rewrite half_seconds_0 in Hbound.
    assert (Qltb (clock w - start_time) 300 = false) as ->
      by (apply Qltb_false; lra).
    by eexists.
  - destruct (Qltb (clock w - start_time) 300) eqn:Hlt; [|by eexists].
    unfold Py.bind at 1, Auth.read_flow at 1, Py.bind at 1, Py.get_state at 1, Py.ret at 1.
    destruct (Py.truthy _); [by eexists|].
    unfold Py.bind at 1.
    destruct (asyncio_sleep_answers e (1 # 2) w) as (w1 & -> & Hclock).
    apply IH; [lia|].
    rewrite half_seconds_S in Hbound. rewrite Hclock.
    pose proof (Hlag (sleeps w)). lra.
Qed.

Lemma wait_for_callback_answers e fuel state flow_data w :
  (forall n, 0 <= Auth.sleep_lag e n)%Q ->
  (600 < fuel)%nat ->
  exists timed_out w',
    Auth.wait_for_callback e fuel state flow_data w = (Return timed_out, w').
Proof.
  intros Hlag Hfuel. unfold Auth.wait_for_callback.
  unfold Py.bind at 1, Auth.read_flow at 1, Py.bind at 1, Py.get_state at 1, Py.ret at 1.
  destruct (negb _); [|by eexists _, _].
  unfold Py.bind at 1, time_time at 1. unfold Py.bind at 1.
  destruct (wait_for_code_answers e state flow_data (clock w) Hlag 600 fuel w Hfuel)
    as (w1 & ->).
  { assert (Trace.half_seconds 600 == 300)%Q as -> by reflexivity. lra. }
  by eexists _, _.
Qed.

Lemma returns_detect_project e credentials flow_data project_id :
  Trace.returns (Auth.detect_project e credentials flow_data project_id).
Proof. unfold Auth.detect_project. returns_steps fail. Qed.

Lemma returns_exchange_and_finish e state flow_data project_id :
  Trace.returns (Auth.exchange_and_finish e state flow_data project_id).
Proof.
  unfold Auth.exchange_and_finish, Auth.read_flow.
  returns_steps ltac:(first [ apply returns_detect_project | apply returns_finish_flow ]).
Qed.

Lemma returns_get_auth_flow project_id user_session :
  Trace.returns (Auth.get_auth_flow project_id user_session).
Proof.
  intros w. destruct (get_auth_flow_sound project_id user_session w) as (found & -> & _).
  done.
Qed.

(** X11. [complete_auth_flow] never raises: with a scheduler that does not
    wake a sleeper early, the wait ends within 600 polls, and whatever the
    collaborators do afterwards, the call returns one of its reply
    dictionaries. *)
Theorem complete_auth_flow_always_replies e fuel project_id user_session w :
  (forall n, 0 <= Auth.sleep_lag e n)%Q ->
  (600 < fuel)%nat ->
  exists reply w',
    Auth.complete_auth_flow e fuel project_id user_session w = (Return reply, w').
Proof.
  intros Hlag Hfuel.
  assert (Hbody : Trace.returns
            (found <- Auth.get_auth_flow project_id user_session ;;
             match found with
             | (Some state, Some flow_data) =>
                 if negb (Py.truthy_str state)
                 then Py.ret (Auth.Failure "未找到对应的认证流程")
                 else
                   let recorded :=
                     negb (Py.truthy project_id)
                     && negb (FlowData.auto_project_detection flow_data) in
                   let project_id :=
                     if recorded then FlowData.project_id flow_data else project_id in
                   if recorded && negb (Py.truthy project_id)
                   then Py.ret (Auth.Failure "Missing Project ID")
                   else
                     timed_out <- Auth.wait_for_callback e fuel state flow_data ;;
                     if timed_out : bool
                     then Py.ret (Auth.Failure "Callback timeout")
                     else Auth.exchange_and_finish e state flow_data project_id
             | _ => Py.ret (Auth.Failure "未找到对应的认证流程")
             end)).
  { pose proof (fun state flow_data w0 =>
                  wait_for_callback_answers e fuel state flow_data w0 Hlag Hfuel) as Hwait.
    assert (Hw : forall state flow_data,
              Trace.returns (Auth.wait_for_callback e fuel state flow_data)).
    { intros state flow_data w0.
      by destruct (Hwait state flow_data w0) as (b & w1 & ->). }
    returns_steps ltac:(first [ apply returns_get_auth_flow
                              | apply returns_exchange_and_finish
                              | apply Hw ]).
    all: cbv zeta.
    all: returns_steps ltac:(first [ apply returns_exchange_and_finish | apply Hw ]). }
  unfold Auth.complete_auth_flow, Py.try_except.
  specialize (Hbody w).
  match type of Hbody with
  | fst (?c w) <> _ => destruct (c w) as [[reply|ex|] w1]
  end; [by eexists _, _ | by eexists _, _ | done].
Qed.

Lemma complete_auth_flow_always_replies_witness :
  exists reply w',
    Auth.complete_auth_flow Samples.quiet_env 601 None (Some "alice")
      (Samples.world_of 250 Samples.two_flows) = (Return reply, w').
Proof.
  apply complete_auth_flow_always_replies; [intros n; cbn; lra | lia].
Defined.


(** ** A [complete_auth_flow] that does not succeed changes nothing *)

Lemma settled_of_harmless e w (r : outcome Auth.response) w' :
  Trace.harmless w w' -> (forall c f, r <> Return (Auth.Success c f)) ->
  Trace.settled e w r w'.
Proof. intros Hh Hr. by left. Qed.

Lemma settled_bind {A} e (c : Py.M world A) (k : A -> Py.M world Auth.response) w r w' :
  Trace.preserves Trace.harmless c ->
  (forall a w1, c w = (Return a, w1) ->
     forall r w', k a w1 = (r, w') -> Trace.settled e w1 r w') ->
  Py.bind c k w = (r, w') ->
  Trace.settled e w r w'.
Proof.
  intros Hc Hk. unfold Py.bind.
  destruct (c w) as [[a|ex|] w1] eqn:Hcw.
  - intros Hkw. pose proof (Hc _ _ _ Hcw) as H1.
    destruct (Hk _ _ eq_refl _ _ Hkw)
      as [[H2 Hr]|(w2 & state & cs & f & H2 & Hin & -> & ->)].
    + left. split; [by eapply harmless_trans | done].
    + right. exists w2, state, cs, f. split; [by eapply harmless_trans | done].
  - intros [= <- <-]. left. split; [eapply Hc; eauto | done].
  - intros [= <- <-]. left. split; [eapply Hc; eauto | done].
Qed.

Lemma settled_try_reply e (c : Py.M world Auth.response) w r w' :
  (forall r w', c w = (r, w') -> Trace.settled e w r w') ->
  Py.try_except c (fun ex => Py.ret (Auth.Failure (exn_str ex))) w = (r, w') ->
  Trace.settled e w r w'.
Proof.
  intros Hc. unfold Py.try_except, Py.ret.
  destruct (c w) as [[a|ex|] w1] eqn:Hcw; intros [= <- <-].
  - by apply Hc.
  - destruct (Hc _ _ eq_refl) as [[Hh _]|(w2 & state & cs & f & _ & _ & _ & [=])].
    by left.
  - by apply Hc.
Qed.

Lemma finish_flow_settled e state credentials project_id w r w' :
  Auth.finish_flow e state credentials project_id w = (r, w') ->
  Trace.settled e w r w'.
Proof.
  unfold Auth.finish_flow.
  destruct project_id as [pid|];
    [|intros [= <- <-]; by apply settled_of_harmless; [apply harmless_refl|]].
  destruct (Py.truthy_str pid);
    [|intros [= <- <-]; by apply settled_of_harmless; [apply harmless_refl|]].
  apply settled_bind; [harmless_steps|]. intros _ w1 _ r1 w1'.
  apply settled_bind; [harmless_steps|]. intros _ w2 _ r2 w2'.
  apply settled_bind; [harmless_steps|]. intros saved w3 _ r0 w0.
  rewrite teardown_run.
  destruct (Dict.contains (auth_flows w3) state) eqn:Hin; intros [= <- <-].
  - right. eexists w3, state, _, _. split; [apply harmless_refl | done].
  - by apply settled_of_harmless; [apply harmless_refl|].
Qed.

Lemma exchange_and_finish_settled e state flow_data project_id w r w' :
  Auth.exchange_and_finish e state flow_data project_id w = (r, w') ->
  Trace.settled e w r w'.
Proof.
  unfold Auth.exchange_and_finish.
  apply settled_bind; [apply read_flow_harmless|]. intros current w1 _ r1 w1'.
  apply settled_bind; [harmless_steps|]. intros _ w2 _ r2 w2'.
  apply settled_try_reply. intros r3 w3'.
  apply settled_bind; [harmless_steps|]. intros credentials w3 _ r4 w4'.
  apply settled_bind; [apply detect_project_harmless|].
  intros [result|pid] w4 Hdetect r0 w0.
  - intros [= <- <-]. apply settled_of_harmless; [apply harmless_refl|].
    intros c f [= ->]. by apply detect_project_no_success in Hdetect.
  - apply finish_flow_settled.
Qed.

Lemma complete_auth_flow_settled e fuel project_id user_session w r w' :
  Auth.complete_auth_flow e fuel project_id user_session w = (r, w') ->
  Trace.settled e w r w'.
Proof.
  unfold Auth.complete_auth_flow.
  apply settled_try_reply. intros r1 w1'.
  apply settled_bind; [apply get_auth_flow_harmless|].
  intros [[state|] [flow_data|]] w1 _ r0 w0;
    try (intros [= <- <-]; by apply settled_of_harmless; [apply harmless_refl|]).
  destruct (negb (Py.truthy_str state));
    [intros [= <- <-]; by apply settled_of_harmless; [apply harmless_refl|]|].
  cbv zeta.
  destruct (_ && negb (Py.truthy _));
    [intros [= <- <-]; by apply settled_of_harmless; [apply harmless_refl|]|].
  apply settled_bind; [apply wait_for_callback_harmless|].
  intros [|] w2 _ r2 w3.
  - intros [= <- <-]. by apply settled_of_harmless; [apply harmless_refl|].
  - apply exchange_and_finish_settled.
Qed.

(** X12. A [complete_auth_flow] that does not reply success tears nothing
    down: whatever failed (no flow, the timeout, the exchange, the detection
    of the project, the storage), the same states are registered afterwards,
    each with the listener it had; no listener was called and no record
    removed: the only effects of the run, the credential store apart, are
    its sleeps and, at most, the enabling of the APIs of a project. *)
Theorem complete_auth_flow_failure_keeps_flows e fuel project_id user_session w r w' :
  Auth.complete_auth_flow e fuel project_id user_session w = (r, w') ->
  (forall credentials file_path, r <> Return (Auth.Success credentials file_path)) ->
  Dict.keys (auth_flows w') = Dict.keys (auth_flows w)
  /\ (forall state, Trace.server_of (auth_flows w') state = Trace.server_of (auth_flows w) state)
  /\ exists evs,
       log w' = (log w ++ evs)%list
       /\ forall ev, In ev evs ->
            (exists seconds, ev = Sleep seconds)
            \/ (exists project, ev = EnableRequiredApis project).
Proof.
  intros Hrun Hfail.
  destruct (complete_auth_flow_settled _ _ _ _ _ _ _ Hrun)
    as [[Hh _]|(w1 & state & c & f & _ & _ & _ & Hr)];
    [|exfalso; apply (Hfail c f); exact Hr].
  destruct Hh as [(evs & Hlog & Hquiet) [Hkeys Hsrv]].
  split; [done|]. split; [done|]. exists evs. split; [done|].
  intros ev Hev.
  rewrite forallb_forall in Hquiet. specialize (Hquiet ev Hev).
  destruct ev; try done; [left | right]; by eexists.
Qed.

Lemma complete_auth_flow_failure_keeps_flows_witness :
  Dict.keys (auth_flows (snd (Auth.complete_auth_flow Samples.quiet_env 601 None
                                (Some "alice") (Samples.world_of 250 Samples.answered_flows))))
  = ["alice_1"; "bob_2"].
Proof.
  destruct (Auth.complete_auth_flow Samples.quiet_env 601 None (Some "alice")
              (Samples.world_of 250 Samples.answered_flows)) as [r w'] eqn:Hrun.
  destruct (complete_auth_flow_failure_keeps_flows _ _ _ _ _ _ _ Hrun) as [Hkeys _].
  - intros c f ->. vm_compute in Hrun. discriminate Hrun.
  - exact Hkeys.
Defined.


(** ** Completing twice *)

Lemma complete_auth_flow_no_flows e fuel project_id user_session w :
  auth_flows w = [] ->
  Auth.complete_auth_flow e fuel project_id user_session w
  = (Return (Auth.Failure "未找到对应的认证流程"), w).
Proof.
  intros Hempty.
  unfold Auth.complete_auth_flow, Auth.get_auth_flow, Py.try_except, Py.bind, Py.get_state.
  rewrite Hempty. cbn [Auth.scan_flows]. by destruct (Py.truthy project_id).
Qed.

(** X13. The scenario of a second completion: when the only registered flow
    has been completed with success, its record is gone, and every further
    [complete_auth_flow] replies that no flow was found, and changes
    nothing. *)
Theorem complete_auth_flow_twice e fuel project_id user_session w state flow_data
    credentials file_path w' :
  auth_flows w = [(state, flow_data)] ->
  Auth.complete_auth_flow e fuel project_id user_session w
    = (Return (Auth.Success credentials file_path), w') ->
  auth_flows w' = []
  /\ forall e' fuel' project_id' user_session',
       Auth.complete_auth_flow e' fuel' project_id' user_session' w'
       = (Return (Auth.Failure "未找到对应的认证流程"), w').
Proof.
  intros Hone Hrun.
  assert (Hempty : auth_flows w' = []).
  { destruct (complete_auth_flow_success _ _ _ _ _ _ _ _ Hrun)
      as (w1 & st & [_ [Hkeys _]] & Hin & ->).
    rewrite Hone in Hkeys. cbn [auth_flows Trace.after_teardown set_auth_flows].
    destruct (auth_flows w1) as [|[k d] [|? ?]]; try done.
    injection Hkeys as ->.
    unfold Dict.contains in Hin. cbn [Dict.get Dict.remove] in *.
    by destruct (String.eqb st state). }
  split; [done|]. intros. by apply complete_auth_flow_no_flows.
Qed.

Lemma complete_auth_flow_twice_witness :
  let e := Samples.env_with_projects [Samples.project_one] in
  let w := Samples.world_of 250
             [("alice_1", FlowData.set_completed true
                            (FlowData.set_code (Some "4/0AX")
                               (Samples.flow_at 1 None (Some "alice") 100)))] in
  exists w',
    Auth.complete_auth_flow e 601 None (Some "alice") w
    = (Return (Auth.Success
                 (Auth.CredsSummary "ya29.tok" "proj-1" (Some "2026-01-01T00:00:00"))
                 "proj-1-250.json"), w')
    /\ Auth.complete_auth_flow e 601 None (Some "alice") w'
       = (Return (Auth.Failure "未找到对应的认证流程"), w').
Proof.
  intros e w.
  destruct (Auth.complete_auth_flow e 601 None (Some "alice") w) as [r w'] eqn:Hrun.
  assert (Hr : r = Return (Auth.Success
                 (Auth.CredsSummary "ya29.tok" "proj-1" (Some "2026-01-01T00:00:00"))
                 "proj-1-250.json")).
  { vm_compute in Hrun. by injection Hrun as <- _. }
  subst r. exists w'. split; [done|].
  destruct (complete_auth_flow_twice e 601 None (Some "alice") w _ _ _ _ w' eq_refl Hrun)
    as [_ Hnext].
  apply Hnext.
Defined.

(** ** A pinned project *)

Lemma finish_flow_listing e projects select state credentials project_id :
  Auth.finish_flow (Trace.with_project_listing e projects select) state credentials project_id
  = Auth.finish_flow e state credentials project_id.
Proof. reflexivity. Qed.

Lemma wait_for_code_listing e projects select state flow_data : forall fuel,
  Auth.wait_for_code (Trace.with_project_listing e projects select) fuel state flow_data
  = Auth.wait_for_code e fuel state flow_data.
Proof.
  induction fuel as [|fuel IH]; [done|].
  cbn [Auth.wait_for_code]. by rewrite IH.
Qed.

Lemma wait_for_callback_listing e projects select fuel state flow_data :
  Auth.wait_for_callback (Trace.with_project_listing e projects select) fuel state flow_data
  = Auth.wait_for_callback e fuel state flow_data.
Proof. unfold Auth.wait_for_callback. by rewrite wait_for_code_listing. Qed.

Lemma detect_project_pinned e credentials flow_data project_id w :
  Py.truthy project_id = true ->
  Auth.detect_project e credentials flow_data project_id w = (Return (inr project_id), w).
Proof.
  intros Hpid. unfold Auth.detect_project. by rewrite Hpid, andb_false_r.
Qed.

Lemma exchange_and_finish_pinned e projects select state flow_data project_id w :
  Py.truthy project_id = true ->
  Auth.exchange_and_finish (Trace.with_project_listing e projects select) state flow_data
    project_id w
  = Auth.exchange_and_finish e state flow_data project_id w.
Proof.
  intros Hpid.
  unfold Auth.exchange_and_finish, Auth.read_flow, Py.try_except, Py.bind, Py.get_state,
    Py.ret, Py.lift.
  cbv zeta. cbn [Auth.import_oauthlib Auth.exchange_code Trace.with_project_listing].
  destruct (Auth.import_oauthlib e) as [[]|ex]; [|done].
  destruct (Auth.exchange_code e _ _) as [credentials|ex]; [|done].
  rewrite !detect_project_pinned by done.
  by rewrite finish_flow_listing.
Qed.

(** X14. With a pinned project the projects of the account are never
    listed: the outcome of [complete_auth_flow] and the state it leaves are
    the same whatever [get_user_projects] and [select_default_project] would
    answer. *)
Theorem complete_auth_flow_pinned_project e projects select fuel project_id user_session w :
  Py.truthy project_id = true ->
  Auth.complete_auth_flow (Trace.with_project_listing e projects select) fuel project_id
    user_session w
  = Auth.complete_auth_flow e fuel project_id user_session w.
Proof.
  intros Hpid. unfold Auth.complete_auth_flow, Py.try_except.
  unfold Py.bind at 1 3.
  destruct (Auth.get_auth_flow project_id user_session w) as [[[[state|] [flow_data|]]|ex|] w1];
    try done.
  destruct (negb (Py.truthy_str state)); [done|].
  cbv zeta. rewrite Hpid. cbn [negb andb].
  unfold Py.bind. rewrite wait_for_callback_listing.
  destruct (Auth.wait_for_callback e fuel state flow_data w1) as [[[|]|ex|] w2]; try done.
  by rewrite exchange_and_finish_pinned.
Qed.

Lemma complete_auth_flow_pinned_project_witness :
  Auth.complete_auth_flow
    (Trace.with_project_listing Samples.quiet_env
       (fun _ => Error (Exn OtherException "quota exceeded")) (fun _ => Ok None))
    601 (Some "proj-b") (Some "bob") (Samples.world_of 250 Samples.two_flows)
  = Auth.complete_auth_flow Samples.quiet_env 601 (Some "proj-b") (Some "bob")
      (Samples.world_of 250 Samples.two_flows).
Proof. apply complete_auth_flow_pinned_project. reflexivity. Defined.


(** ** The health of a record after [save_credentials] *)

Lemma save_credentials_table e creds project_id w client_id client_secret :
  Auth.get_oauth_client_id e = Ok client_id ->
  Auth.get_oauth_client_secret e = Ok client_secret ->
  _initialized (storage w) = true ->
  let filename := project_id ++ "-" ++ pretty (Auth.py_int (clock w)) ++ ".json" in
  let existing := default [] (Trace.credentials_table w !! filename) in
  let health := Dict.get_default existing "state" (JDict (Trace.default_state_at (clock w))) in
  exists w' blob,
    Auth.save_credentials e creds project_id w = (Return filename, w')
    /\ Dict.get blob "token" = Some (JStr (Auth.access_token creds))
    /\ Dict.get blob "project_id" = Some (JStr project_id)
    /\ Trace.credentials_table w'
       = <[filename :=
            [("credential", JDict blob);
             ("state", match health with
                       | JDict st => JDict (Dict.update st (Trace.default_state_at (clock w)))
                       | _ => health
                       end);
             ("stats", Dict.get_default existing "stats" (JDict Storage._get_default_stats))]]>
         (Trace.credentials_table w).
Proof.
  intros Hid Hsecret Hinit filename existing health.
  unfold Auth.save_credentials.
  unfold Py.bind at 1, time_time at 1. fold filename.
  rewrite Hid, Hsecret.
  unfold Py.bind at 1, Py.lift at 1. unfold Py.bind at 1, Py.lift at 1.
  set (creds_data := match Auth.expires_at creds with Some _ => _ | None => _ end).
  assert (Hblob : Dict.get creds_data "token" = Some (JStr (Auth.access_token creds))
                  /\ Dict.get creds_data "project_id" = Some (JStr project_id)).
  { unfold creds_data. by destruct (Auth.expires_at creds). }
  unfold Py.bind at 1.
  destruct (store_credential_run w filename creds_data Hinit)
    as (w1 & -> & Htab & Hinit1 & Hclock & _).
  fold existing in Htab. fold health in Htab.
  unfold Py.bind at 1, Py.try_except, Py.bind at 1, time_time at 1, Py.bind at 1.
  rewrite update_credential_state_run by done.
  assert (Hrec : Trace.record_or_fresh w1 filename
                 = [("credential", JDict creds_data); ("state", health);
                    ("stats", Dict.get_default existing "stats"
                                (JDict Storage._get_default_stats))]).
  { unfold Trace.record_or_fresh. rewrite Htab. norm_lookup. by rewrite lookup_insert_eq. }
  rewrite Hrec. cbn [Dict.get String.eqb Ascii.eqb Bool.eqb].
  rewrite Hclock.
  destruct health as [| | | | |st]; unfold Py.ret;
    (eexists _, creds_data; split; [reflexivity|]; split; [apply Hblob|];
     split; [apply Hblob|]); try exact Htab.
  rewrite credentials_table_with_table, Htab. cbn [Dict.set String.eqb Ascii.eqb Bool.eqb].
  by rewrite insert_insert_eq.
Qed.

(** X15. [save_credentials] resets the health of the name it writes: when the
    record stored under [<project>-<int(now)>.json], if there is one, has a
    dictionary as its state, the record left behind has the new credential
    and a state in which the record is enabled, has no error codes and
    succeeded last at the time of the call; the usage statistics of an
    existing record are kept. *)
Theorem save_credentials_health_reset e creds project_id w client_id client_secret :
  Auth.get_oauth_client_id e = Ok client_id ->
  Auth.get_oauth_client_secret e = Ok client_secret ->
  _initialized (storage w) = true ->
  let filename := project_id ++ "-" ++ pretty (Auth.py_int (clock w)) ++ ".json" in
  (forall old health, Trace.credentials_table w !! filename = Some old ->
     Dict.get old "state" = Some health -> exists st, health = JDict st) ->
  exists w' new blob st,
    Auth.save_credentials e creds project_id w = (Return filename, w')
    /\ Trace.credentials_table w' !! filename = Some new
    /\ Dict.get new "credential" = Some (JDict blob)
    /\ Dict.get blob "token" = Some (JStr (Auth.access_token creds))
    /\ Dict.get blob "project_id" = Some (JStr project_id)
    /\ Dict.get new "state" = Some (JDict st)
    /\ Dict.get st "disabled" = Some (JBool false)
    /\ Dict.get st "error_codes" = Some (JList [])
    /\ Dict.get st "last_success" = Some (JNum (clock w))
    /\ Dict.get st "user_email" = Some JNull
    /\ (forall old stats, Trace.credentials_table w !! filename = Some old ->
          Dict.get old "stats" = Some stats -> Dict.get new "stats" = Some stats).
Proof.
  intros Hid Hsecret Hinit filename Hdict.
  destruct (save_credentials_table e creds project_id w _ _ Hid Hsecret Hinit)
    as (w' & blob & Hrun & Htoken & Hproject & Htab).
  fold filename in Hrun, Htab.
  set (existing := default [] (Trace.credentials_table w !! filename)) in Htab.
  assert (Hhealth : exists st0,
            Dict.get_default existing "state" (JDict (Trace.default_state_at (clock w)))
            = JDict st0).
  { unfold Dict.get_default.
    destruct (Dict.get existing "state") as [health|] eqn:Hget; [|by eexists].
    unfold existing in Hget.
    destruct (Trace.credentials_table w !! filename) as [old|] eqn:Hold; [|done].
    by apply (Hdict old health). }
  destruct Hhealth as (st0 & Hst0). rewrite Hst0 in Htab.
  set (upd := Trace.default_state_at (clock w)) in *.
  assert (Hnd : NoDup (Dict.keys upd)).
  { apply (bool_decide_unpack _). vm_compute. exact I. }
  eexists w', _, blob, (Dict.update st0 upd).
  split; [exact Hrun|]. split; [rewrite Htab; norm_lookup; apply lookup_insert_eq|].
  repeat split; try done.
  - apply dict_get_update_in; [done | unfold upd; simpl; tauto].
  - apply dict_get_update_in; [done | unfold upd; simpl; tauto].
  - apply dict_get_update_in; [done | unfold upd; simpl; tauto].
  - apply dict_get_update_in; [done | unfold upd; simpl; tauto].
  - intros old stats Hold Hstats. cbn [Dict.get String.eqb Ascii.eqb Bool.eqb].
    unfold existing. norm_lookup. rewrite Hold. cbn [default from_option]. unfold id.
    unfold Dict.get_default. by rewrite Hstats.
Qed.

Lemma save_credentials_health_reset_witness :
  let w := World 1000 0 [] Samples.answered_flows
             (Manager true
                (Cache (<["proj-1-1000.json" := Samples.disabled_entry]> ∅) false) 1 []) in
  exists w' new st,
    Auth.save_credentials (Samples.env_with_projects []) Samples.sample_credentials "proj-1" w
    = (Return "proj-1-1000.json", w')
    /\ Trace.credentials_table w' !! "proj-1-1000.json" = Some new
    /\ Dict.get new "state" = Some (JDict st)
    /\ Dict.get st "disabled" = Some (JBool false).
Proof.
  intros w.
  destruct (save_credentials_health_reset (Samples.env_with_projects [])
              Samples.sample_credentials "proj-1" w "client-id" "client-secret"
              eq_refl eq_refl eq_refl)
    as (w' & new & blob & st & Hrun & Hnew & _ & _ & _ & Hstate & Hdisabled & _).
  - intros old health Hold Hget.
    assert (Hstored : Trace.credentials_table w !! "proj-1-1000.json"
                      = Some Samples.disabled_entry) by apply lookup_insert_eq.
    pose proof (eq_trans (eq_sym Hstored) Hold) as [= <-].
    vm_compute in Hget. injection Hget as <-. by eexists.
  - exists w', new, st. by repeat split.
Defined.


(** ** [cleanup_auth_flows] a second time *)

Lemma filter_all {A} (P : A -> bool) (l : list A) :
  (forall x, In x l -> P x = true) -> List.filter P l = l.
Proof.
  induction l as [|x l IH]; intros Hall; simpl; [done|].
  rewrite (Hall x) by (by left). f_equal. apply IH. intros y Hy. apply Hall. by right.
Qed.

Lemma filter_none {A} (P : A -> bool) (l : list A) :
  (forall x, In x l -> P x = false) -> List.filter P l = [].
Proof.
  induction l as [|x l IH]; intros Hall; simpl; [done|].
  rewrite (Hall x) by (by left). apply IH. intros y Hy. apply Hall. by right.
Qed.

Lemma after_cleanup_live e w sd :
  NoDup (Dict.keys (auth_flows w)) ->
  In sd (auth_flows (Trace.after_cleanup e w)) ->
  Trace.expired (clock w) sd = false.
Proof.
  intros Hnd. rewrite after_cleanup_flows by done.
  intros Hin.
  assert (Hlive : In sd (Trace.live_flows (clock w) (auth_flows w))).
  { destruct (10 <? length _)%nat; [|done].
    apply In_take in Hin.
    by rewrite <- list_elem_of_In, <- (sorted_newest_first_perm _), list_elem_of_In. }
  apply live_flows_In in Hlive as [_ Hage].
  unfold Trace.expired. by apply Qltb_false.
Qed.

Lemma clock_after_cleanup e w : clock (Trace.after_cleanup e w) = clock w.
Proof. unfold Trace.after_cleanup. by destruct (10 <? length _)%nat. Qed.

(** X16. [cleanup_auth_flows] is idempotent: a second run at the same time
    finds no expired flow and at most ten flows, so it calls no listener and
    leaves the service exactly as the first run left it. *)
Theorem cleanup_auth_flows_idempotent e w :
  NoDup (Dict.keys (auth_flows w)) ->
  exists w1,
    Auth.cleanup_auth_flows e w = (Return tt, w1)
    /\ Auth.cleanup_auth_flows e w1 = (Return tt, w1).
Proof.
  intros Hnd. exists (Trace.after_cleanup e w).
  split; [by apply cleanup_auth_flows_run|].
  destruct (after_cleanup_bounds e w Hnd) as [Hlen Hnd1].
  rewrite cleanup_auth_flows_run by done. f_equal.
  set (w1 := Trace.after_cleanup e w) in *.
  assert (Hlive : forall sd, In sd (auth_flows w1) -> Trace.expired (clock w1) sd = false).
  { intros sd Hin. unfold w1. rewrite clock_after_cleanup. by eapply after_cleanup_live. }
  unfold Trace.after_cleanup.
  assert (Trace.live_flows (clock w1) (auth_flows w1) = auth_flows w1) as ->.
  { apply filter_all. intros sd Hin. by rewrite Hlive. }
  assert (Auth.expired_states (clock w1) (auth_flows w1) = []) as ->.
  { unfold Auth.expired_states. rewrite filter_none; [done|].
    intros sd Hin. apply (Hlive sd Hin). }
  assert ((10 <? length (auth_flows w1))%nat = false) as -> by (apply Nat.ltb_ge; lia).
  cbn [Trace.expiry_events flat_map]. clearbody w1. destruct w1.
  unfold set_auth_flows, Trace.add_log. cbn. by rewrite app_nil_r.
Qed.

Lemma cleanup_auth_flows_idempotent_witness :
  exists w1,
    Auth.cleanup_auth_flows Samples.quiet_env (Samples.world_of 2000 Samples.twenty_flows)
    = (Return tt, w1)
    /\ Auth.cleanup_auth_flows Samples.quiet_env w1 = (Return tt, w1).
Proof.
  apply cleanup_auth_flows_idempotent.
  apply (bool_decide_unpack _). vm_compute. exact I.
Defined.

(** ** The listener's answer: [do_GET] *)

(** X17. The listener answers a redirect with 200 exactly when the request
    carries a non-empty code and a non-empty state under which a flow is
    registered; every other request is answered with 400 and changes
    nothing. *)
Theorem do_GET_status code state w :
  exists status w',
    Auth.do_GET code state w = (Return status, w')
    /\ (status = 200%Z \/ status = 400%Z)
    /\ (status = 200%Z <->
        exists c s, code = Some c /\ state = Some s /\ c <> "" /\ s <> ""
                    /\ Dict.contains (auth_flows w) s = true)
    /\ (status = 400%Z -> w' = w).
Proof.
  unfold Auth.do_GET.
  assert (Hbad : forall w0 : world,
            (~ exists c s, code = Some c /\ state = Some s /\ c <> "" /\ s <> ""
                           /\ Dict.contains (auth_flows w) s = true) ->
            exists status w', Py.ret 400%Z w0 = (Return status, w')
              /\ (status = 200%Z \/ status = 400%Z)
              /\ (status = 200%Z <->
                  exists c s, code = Some c /\ state = Some s /\ c <> "" /\ s <> ""
                              /\ Dict.contains (auth_flows w) s = true)
              /\ (status = 400%Z -> w' = w0)).
  { intros w0 Hnot. exists 400%Z, w0. split; [done|]. split; [by right|].
    split; [|done]. split; [done | by intros H; destruct (Hnot H)]. }
  destruct code as [c|]; [|apply Hbad; by intros (? & ? & [=] & _)].
  destruct state as [s|]; [|apply Hbad; by intros (? & ? & _ & [=] & _)].
  unfold Py.truthy_str.
  destruct (String.eqb_spec c "") as [->|Hc];
    [apply Hbad; by intros (? & ? & [= <-] & _ & ? & _)|].
  destruct (String.eqb_spec s "") as [->|Hs];
    [apply Hbad; by intros (? & ? & _ & [= <-] & _ & ? & _)|].
  cbn [negb andb].
  unfold Auth.handle_callback, Py.bind, Py.get_state, Py.modify, Py.ret.
  destruct (Dict.get (auth_flows w) s) as [flow_data|] eqn:Hget.
  - eexists 200%Z, _. split; [reflexivity|]. split; [by left|]. split; [|done].
    split; [|done]. intros _. exists c, s. unfold Dict.contains. by rewrite Hget.
  - apply (Hbad w). intros (c' & s' & [= <-] & [= <-] & _ & _ & Hin).
    unfold Dict.contains in Hin. by rewrite Hget in Hin.
Qed.

Lemma do_GET_status_witness :
  exists w',
    Auth.do_GET (Some "4/0AX") (Some "nobody_1") (Samples.world_of 300 Samples.two_flows)
    = (Return 400%Z, w')
    /\ w' = Samples.world_of 300 Samples.two_flows.
Proof.
  destruct (do_GET_status (Some "4/0AX") (Some "nobody_1")
              (Samples.world_of 300 Samples.two_flows))
    as (status & w' & Hrun & _ & _ & Hsame).
  assert (status = 400%Z) as -> by (vm_compute in Hrun; by injection Hrun as <- _).
  exists w'. split; [exact Hrun | by apply Hsame].
Defined.


(** ** Starting a flow, then the redirect *)

(** X18. [create_auth_url] never raises and never lets the map of flows grow
    beyond [MAX_AUTH_FLOWS]; and the state of a reply that reports success is
    the key of the new record, so that the redirect carrying that state is
    accepted by [handle_callback], which stores its code in the record. *)
Theorem create_auth_url_then_callback e s project_id user_session get_all_projects w r w' :
  NoDup (Dict.keys (auth_flows w)) ->
  (length (auth_flows w) <= Auth.MAX_AUTH_FLOWS)%nat ->
  Auth.create_auth_url e s project_id user_session get_all_projects w = (r, w') ->
  (exists reply, r = Return reply)
  /\ (length (auth_flows w') <= Auth.MAX_AUTH_FLOWS)%nat
  /\ NoDup (Dict.keys (auth_flows w'))
  /\ forall auth_url state port auto detected code,
       r = Return (Auth.Started auth_url state port auto detected) ->
       exists w'' flow_data,
         Auth.handle_callback state code w' = (Return true, w'')
         /\ Dict.get (auth_flows w'') state = Some flow_data
         /\ FlowData.code flow_data = Some code
         /\ FlowData.completed flow_data = true
         /\ FlowData.project_id flow_data = project_id
         /\ Dict.keys (auth_flows w'') = Dict.keys (auth_flows w').
Proof.
  intros Hnd Hlen Hrun.
  destruct (create_auth_url_registers _ _ _ _ _ _ _ _ Hnd Hrun)
    as (Hnd' & Hcap & Hreply & Hstarted).
  split; [done|]. split; [by apply Hcap|]. split; [done|].
  intros auth_url state port auto detected code ->.
  destruct (Hstarted _ _ _ _ _ eq_refl)
    as (flow_data & srv & Hget & _ & _ & _ & _ & Hproject & _).
  unfold Auth.handle_callback, Py.bind, Py.get_state, Py.modify, Py.ret.
  rewrite Hget. eexists _, _. split; [reflexivity|].
  cbn [auth_flows set_auth_flows]. rewrite dict_get_set_eq.
  split; [reflexivity|]. split; [done|]. split; [done|]. split; [by destruct flow_data|].
  apply dict_keys_set_present. unfold Dict.contains. by rewrite Hget.
Qed.

Lemma create_auth_url_then_callback_witness :
  let e := Samples.env_with_projects [Samples.project_one] in
  let w' := snd (Auth.create_auth_url e Samples.sample_start_env None (Some "alice") false
                   (Samples.world_of 250 [])) in
  exists w'',
    Auth.handle_callback "alice_0b5e" "4/0AX" w' = (Return true, w'').
Proof.
  intros e w'.
  destruct (Auth.create_auth_url e Samples.sample_start_env None (Some "alice") false
              (Samples.world_of 250 [])) as [r w0] eqn:Hrun.
  destruct (create_auth_url_then_callback e Samples.sample_start_env None (Some "alice")
              false (Samples.world_of 250 []) r w0) as (_ & _ & _ & Hcallback).
  - apply NoDup_nil_2.
  - cbn. unfold Auth.MAX_AUTH_FLOWS. lia.
  - exact Hrun.
  - assert (Hr : r = Return (Auth.Started
                   "https://accounts.example/o/oauth2/auth?state=alice_0b5e"
                   "alice_0b5e" 8081 true None)).
    { vm_compute in Hrun. by injection Hrun as <- _. }
    destruct (Hcallback _ _ _ _ _ "4/0AX" Hr) as (w'' & flow_data & Hcb & _).
    exists w''. exact Hcb.
Defined.


(** ** Tokens: [verify_token], [logout] *)

Lemma head_In {A} (l : list A) x : head l = Some x -> In x l.
Proof. destruct l; [done|]. intros [= ->]. by left. Qed.

Lemma token_rows_In token st user_id expires_at disabled :
  In (user_id, expires_at, disabled) (Users.token_rows token st)
  <-> In (token, user_id, expires_at) (Login.tokens st)
      /\ exists u, In u (Login.users st) /\ Login.u_id u = user_id
                   /\ Login.u_disabled u = disabled.
Proof.
  unfold Users.token_rows. rewrite in_flat_map. split.
  - intros ([[tok uid] exp] & Hin & Hrow).
    destruct (String.eqb_spec tok token) as [->|]; [|done].
    apply in_map_iff in Hrow as (u & [= <- <- <-] & Hu).
    apply filter_In in Hu as [Hu Hid]. apply String.eqb_eq in Hid.
    split; [done|]. by exists u.
  - intros (Hin & u & Hu & Hid & Hdis).
    exists (token, user_id, expires_at). split; [done|].
    rewrite String.eqb_refl. apply in_map_iff. exists u. split; [by rewrite Hdis|].
    apply filter_In. split; [done|]. by apply String.eqb_eq.
Qed.

Lemma verify_token_run e token st :
  Login.select_fails (Users.login_env e) = None ->
  token <> "" ->
  Users.verify_token e token st
  = match head (Users.token_rows token st) with
    | Some (user_id, expires_at, disabled) =>
        if disabled : bool then (Return None, st)
        else if Qltb (Login.now st) expires_at then (Return (Some user_id), st)
             else (Users.delete_token e token ;;; Py.ret None) st
    | None => (Return None, st)
    end.
Proof.
  intros Hselect Htoken. unfold Users.verify_token, Py.truthy_str.
  destruct (String.eqb_spec token ""); [done|]. cbn [negb].
  unfold Users.fetch_one. rewrite Hselect.
  unfold Py.bind at 1. unfold Py.bind at 1, Py.get_state at 1, Py.ret at 1.
  destruct (head _) as [[[user_id expires_at] [|]]|]; try done.
  unfold Py.bind at 1, Py.get_state at 1. by destruct (Qltb _ _).
Qed.

(** What [verify_token] has read when it returns a user: a row of the join,
    not disabled, with its expiry ahead. *)
Lemma verify_token_accepted_row e token st user_id st' :
  Users.verify_token e token st = (Return (Some user_id), st') ->
  st' = st
  /\ token <> ""
  /\ exists expires_at,
       In (user_id, expires_at, false) (Users.token_rows token st)
       /\ (Login.now st < expires_at)%Q.
Proof.
  intros Hrun.
  assert (Htoken : token <> "").
  { intros ->. by vm_compute in Hrun. }
  destruct (Login.select_fails (Users.login_env e)) as [ex|] eqn:Hselect.
  { unfold Users.verify_token, Py.truthy_str, Users.fetch_one in Hrun.
    rewrite Hselect in Hrun. by destruct (String.eqb token ""). }
  rewrite verify_token_run in Hrun by done.
  destruct (head _) as [[[uid expires_at] disabled]|] eqn:Hhead; [|done].
  destruct disabled; [done|].
  destruct (Qltb (Login.now st) expires_at) eqn:Hlive.
  - injection Hrun as -> ->. split; [done|]. split; [done|].
    exists expires_at. split; [by apply head_In | by apply Qltb_true].
  - unfold Py.bind, Users.delete_token, Users.execute_delete in Hrun.
    by destruct (Users.delete_fails e).
Qed.

Lemma verify_token_accepted e token st user_id st' :
  Users.verify_token e token st = (Return (Some user_id), st') ->
  st' = st
  /\ token <> ""
  /\ exists expires_at u,
       In (token, user_id, expires_at) (Login.tokens st)
       /\ (Login.now st < expires_at)%Q
       /\ In u (Login.users st) /\ Login.u_id u = user_id
       /\ Login.u_disabled u = false.
Proof.
  intros Hrun.
  destruct (verify_token_accepted_row _ _ _ _ _ Hrun) as (-> & Htoken & exp & Hrow & Hlive).
  apply token_rows_In in Hrow as (Hin & u & Hu & Hid & Hdis).
  split; [done|]. split; [done|]. by exists exp, u.
Qed.

(** ** Tokens on either backend

    The same facts for the database's own comparison of text: what
    [verify_token] reads, on SQLite and on MySQL. *)

(** [Users] is the instance of [Collated] for the exact comparison. *)
Lemma users_exact_instance :
  Collated.token_rows String.eqb = Users.token_rows
  /\ Collated.delete_token String.eqb = Users.delete_token
  /\ Collated.verify_token String.eqb = Users.verify_token
  /\ Collated.logout String.eqb = Users.logout
  /\ Collated.get_user_role String.eqb = Users.get_user_role
  /\ Collated.delete_user String.eqb = Users.delete_user
  /\ Collated.get_current_user_id String.eqb = Users.get_current_user_id
  /\ Collated.require_admin String.eqb = Users.require_admin.
Proof. repeat split. Qed.

Section Collation.
Variable same : string -> string -> bool.

Lemma collated_token_rows_In token st user_id expires_at disabled :
  In (user_id, expires_at, disabled) (Collated.token_rows same token st)
  <-> exists tok u,
        In (tok, user_id, expires_at) (Login.tokens st) /\ same tok token = true
        /\ In u (Login.users st) /\ same (Login.u_id u) user_id = true
        /\ Login.u_disabled u = disabled.
Proof.
  unfold Collated.token_rows. rewrite in_flat_map. split.
  - intros ([[tok uid] exp] & Hin & Hrow).
    destruct (same tok token) eqn:Htok; [|done].
    apply in_map_iff in Hrow as (u & [= <- <- <-] & Hu).
    apply filter_In in Hu as [Hu Hid]. by exists tok, u.
  - intros (tok & u & Hin & Htok & Hu & Hid & Hdis).
    exists (tok, user_id, expires_at). split; [done|].
    rewrite Htok. apply in_map_iff. exists u. split; [by rewrite Hdis|].
    apply filter_In. by split.
Qed.

Lemma collated_verify_token_run e token st :
  Login.select_fails (Users.login_env e) = None ->
  token <> "" ->
  Collated.verify_token same e token st
  = match head (Collated.token_rows same token st) with
    | Some (user_id, expires_at, disabled) =>
        if disabled : bool then (Return None, st)
        else if Qltb (Login.now st) expires_at then (Return (Some user_id), st)
             else (Collated.delete_token same e token ;;; Py.ret None) st
    | None => (Return None, st)
    end.
Proof.
  intros Hselect Htoken. unfold Collated.verify_token, Py.truthy_str.
  destruct (String.eqb_spec token ""); [done|]. cbn [negb].
  unfold Users.fetch_one. rewrite Hselect.
  unfold Py.bind at 1. unfold Py.bind at 1, Py.get_state at 1, Py.ret at 1.
  destruct (head _) as [[[user_id expires_at] [|]]|]; try done.
  unfold Py.bind at 1, Py.get_state at 1. by destruct (Qltb _ _).
Qed.

(** What [verify_token] has read when it returns a user: a row of the join,
    not disabled, with its expiry ahead. *)
Lemma collated_verify_token_accepted e token st user_id st' :
  Collated.verify_token same e token st = (Return (Some user_id), st') ->
  st' = st
  /\ token <> ""
  /\ exists expires_at,
       In (user_id, expires_at, false) (Collated.token_rows same token st)
       /\ (Login.now st < expires_at)%Q.
Proof.
  intros Hrun.
  assert (Htoken : token <> "").
  { intros ->. by vm_compute in Hrun. }
  destruct (Login.select_fails (Users.login_env e)) as [ex|] eqn:Hselect.
  { unfold Collated.verify_token, Py.truthy_str, Users.fetch_one in Hrun.
    rewrite Hselect in Hrun. by destruct (String.eqb token ""). }
  rewrite collated_verify_token_run in Hrun by done.
  destruct (head _) as [[[uid expires_at] disabled]|] eqn:Hhead; [|done].
  destruct disabled; [done|].
  destruct (Qltb (Login.now st) expires_at) eqn:Hlive.
  - injection Hrun as -> ->. split; [done|]. split; [done|].
    exists expires_at. split; [by apply head_In | by apply Qltb_true].
  - unfold Py.bind, Collated.delete_token, Users.execute_delete in Hrun.
    by destruct (Users.delete_fails e).
Qed.

Lemma collated_verify_token_refuses e token st user_id st' :
  (forall expires_at,
     ~ In (user_id, expires_at, false) (Collated.token_rows same token st)) ->
  Collated.verify_token same e token st <> (Return (Some user_id), st').
Proof.
  intros Hnone Hrun.
  destruct (collated_verify_token_accepted _ _ _ _ _ Hrun) as (_ & _ & exp & Hin & _).
  by apply (Hnone exp).
Qed.

Lemma collated_token_rows_at_time t token st :
  Collated.token_rows same token (Trace.at_time t st) = Collated.token_rows same token st.
Proof. done. Qed.

Lemma collated_token_rows_unique token tok user_id expires_at u st :
  In (tok, user_id, expires_at) (Login.tokens st) -> same tok token = true ->
  (forall tok' uid exp,
     In (tok', uid, exp) (Login.tokens st) -> same tok' token = true ->
     uid = user_id /\ exp = expires_at) ->
  In u (Login.users st) -> same (Login.u_id u) user_id = true ->
  (forall u', In u' (Login.users st) -> same (Login.u_id u') user_id = true -> u' = u) ->
  exists rest,
    Collated.token_rows same token st = (user_id, expires_at, Login.u_disabled u) :: rest.
Proof.
  intros Hin Hsame Htok Hu Hid Huniq.
  destruct (Collated.token_rows same token st) as [|[[uid exp] dis] rest] eqn:Hrows.
  - assert (H : In (user_id, expires_at, Login.u_disabled u)
                  (Collated.token_rows same token st)).
    { apply collated_token_rows_In. by exists tok, u. }
    by rewrite Hrows in H.
  - exists rest.
    assert (H : In (uid, exp, dis) (Collated.token_rows same token st))
      by (rewrite Hrows; by left).
    apply collated_token_rows_In in H as (tok' & u' & Hin' & Hsame' & Hu' & Hid' & Hdis').
    destruct (Htok _ _ _ Hin' Hsame') as [-> ->].
    by rewrite <- (Huniq u' Hu' Hid'), Hdis'.
Qed.

End Collation.

(** X19. [verify_token] accepts a token only if a row of the tokens table
    holds, for the returned user and with an expiry still ahead, a token
    that the database takes for the presented one, and a user whose id the
    database takes for that user id exists and is not disabled; accepting a
    token changes nothing in the database.  The database's comparison is
    [same]: on SQLite the stored token is the presented one, on the MySQL
    schema it may differ from it in case. *)
Theorem verify_token_sound (same : string -> string -> bool) e token st user_id st' :
  Collated.verify_token same e token st = (Return (Some user_id), st') ->
  st' = st
  /\ token <> ""
  /\ exists tok expires_at u,
       In (tok, user_id, expires_at) (Login.tokens st)
       /\ same tok token = true
       /\ (Login.now st < expires_at)%Q
       /\ In u (Login.users st) /\ same (Login.u_id u) user_id = true
       /\ Login.u_disabled u = false.
Proof.
  intros Hrun.
  destruct (collated_verify_token_accepted same _ _ _ _ _ Hrun)
    as (Hstate & Htoken & expires_at & Hrow & Hlive).
  apply collated_token_rows_In in Hrow as (tok & u & Hstored & Hsame & Huser & Hid & Henabled).
  split; [exact Hstate|]. split; [exact Htoken|].
  exists tok, expires_at, u. split; [exact Hstored|]. split; [exact Hsame|].
  split; [exact Hlive|]. split; [exact Huser|]. split; [exact Hid | exact Henabled].
Qed.

Lemma verify_token_sound_witness :
  exists tok expires_at u,
    In (tok, "u1", expires_at) (Login.tokens Samples.session_state)
    /\ Samples.same_ci tok "TOK-A" = true
    /\ (Login.now Samples.session_state < expires_at)%Q
    /\ In u (Login.users Samples.session_state)
    /\ Samples.same_ci (Login.u_id u) "u1" = true
    /\ Login.u_disabled u = false.
Proof.
  apply (verify_token_sound Samples.same_ci Samples.users_env "TOK-A"
           Samples.session_state "u1" Samples.session_state).
  reflexivity.
Defined.




(** ** From [login] to [verify_token] *)

Lemma login_success le username password st d st' :
  Login.login le username password st = (Return (Some d), st') ->
  exists u,
    In u (Login.users st)
    /\ Login.u_username u = username
    /\ Login.u_password_hash u = Login._hash_password le password
    /\ Login.u_disabled u = false
    /\ d = [("token", JStr (Login.token_urlsafe le));
            ("user_id", JStr (Login.u_id u));
            ("role", JStr (Login.u_role u));
            ("api_key", JStr (Login.u_api_key u))]
    /\ st' = Login.State (Login.users st)
               (Login.tokens st
                ++ [(Login.token_urlsafe le, Login.u_id u,
                     (Login.now st + 30 * 24 * 3600)%Q)])%list
               (Login.audit st) (Login.now st).
Proof.
  unfold Login.login, Login.select_user, Login.insert_token.
  destruct (Login.select_fails le); [done|].
  unfold Py.bind at 1. unfold Py.bind at 1, Py.get_state at 1, Py.ret at 1.
  destruct (find _ _) as [u|] eqn:Hfind; [|done].
  apply find_some in Hfind as [Hu Hmatch].
  apply andb_prop in Hmatch as [Hname Hhash].
  apply String.eqb_eq in Hname, Hhash.
  destruct (Login.u_disabled u) eqn:Hdis; [done|].
  unfold Py.bind at 1, Py.get_state at 1.
  destruct (Login.insert_fails le); [done|].
  unfold Py.bind, Py.modify, Py.ret. intros [= <- <-].
  by exists u.
Qed.





(** ** What ends a session *)

Lemma verify_token_refuses e token st user_id st' :
  (forall expires_at, ~ In (user_id, expires_at, false) (Users.token_rows token st)) ->
  Users.verify_token e token st <> (Return (Some user_id), st').
Proof.
  intros Hnone Hrun.
  destruct (verify_token_accepted _ _ _ _ _ Hrun)
    as (_ & _ & expires_at & u & Hin & _ & Hu & Hid & Hdis).
  apply (Hnone expires_at). apply token_rows_In. split; [done|]. by exists u.
Qed.

(** X21. After a [logout] that returned, the token is dead: whatever the
    clock shows, and for every user, [verify_token] no longer accepts it.
    The rows of the tokens table that went are those whose token the
    database takes for the presented one ([same]: on SQLite the token
    itself, on the MySQL schema also its variants in case); every other row
    is still there, and the users table is as before. *)
Theorem logout_then_verify_token (same : string -> string -> bool) e token st st1 :
  Collated.logout same e token st = (Return tt, st1) ->
  (forall t user_id st2,
     Collated.verify_token same e token (Trace.at_time t st1)
     <> (Return (Some user_id), st2))
  /\ (forall row, In row (Login.tokens st1)
                  <-> In row (Login.tokens st) /\ same (fst (fst row)) token = false)
  /\ Login.users st1 = Login.users st.
Proof.
  unfold Collated.logout, Collated.delete_token, Users.execute_delete.
  destruct (Users.delete_fails e); [done|].
  unfold Py.modify. intros [= <-]. cbn [Users.set_tokens Login.tokens Login.users].
  split; [|split; [|done]].
  - intros t user_id st2. apply collated_verify_token_refuses. intros expires_at Hin.
    apply collated_token_rows_In in Hin as (tok & u & Hin & Hsame & _).
    cbn [Trace.at_time Login.tokens] in Hin.
    apply filter_In in Hin as [_ Hne]. cbn [fst] in Hne.
    by rewrite Hsame in Hne.
  - intros row. rewrite filter_In.
    destruct (same (fst (fst row)) token); cbn [negb]; split; intros [? ?]; done.
Qed.

Lemma logout_then_verify_token_witness :
  exists st1,
    Collated.logout Samples.same_ci Samples.users_env "TOK-A" Samples.session_state
    = (Return tt, st1)
    /\ Collated.verify_token Samples.same_ci Samples.users_env "tok-a" st1
       = (Return None, st1)
    /\ ~ In ("tok-a", "u1", 6000%Q) (Login.tokens st1).
Proof.
  destruct (Collated.logout Samples.same_ci Samples.users_env "TOK-A" Samples.session_state)
    as [r st1] eqn:Hrun.
  assert (r = Return tt) as -> by (vm_compute in Hrun; by injection Hrun as <- _).
  destruct (logout_then_verify_token _ _ _ _ _ Hrun) as (_ & Hrows & _).
  exists st1. split; [done|]. split.
  - injection Hrun as <-. vm_compute. reflexivity.
  - intros Hin. apply Hrows in Hin as [_ Hne]. discriminate Hne.
Defined.

(** X22. Let the [SELECT] and the [DELETE] go through, and let the tables be
    as their primary keys make them: the database takes the token of one row
    only, [(tok, user_id, expires_at)], for the presented token, which is
    not empty, and the id of one user only, [u], for [user_id].  Let the
    token be presented at or after its expiry.  Then [verify_token] returns
    [None].  If [u] is not disabled, the row of the token is deleted (no
    other row, and no user), so that the token stays refused even if the
    clock is set back.  If [u] is disabled, the token is refused at line 317
    before its expiry is looked at, and nothing is deleted. *)
Theorem verify_token_expired (same : string -> string -> bool) e token st tok user_id
    expires_at u :
  Login.select_fails (Users.login_env e) = None ->
  Users.delete_fails e = None ->
  token <> "" ->
  In (tok, user_id, expires_at) (Login.tokens st) -> same tok token = true ->
  (forall tok' uid exp,
     In (tok', uid, exp) (Login.tokens st) -> same tok' token = true ->
     uid = user_id /\ exp = expires_at) ->
  In u (Login.users st) -> same (Login.u_id u) user_id = true ->
  (forall u', In u' (Login.users st) -> same (Login.u_id u') user_id = true -> u' = u) ->
  (expires_at <= Login.now st)%Q ->
  exists st1,
    Collated.verify_token same e token st = (Return None, st1)
    /\ (Login.u_disabled u = false ->
        (forall row, In row (Login.tokens st1)
                     <-> In row (Login.tokens st) /\ same (fst (fst row)) token = false)
        /\ Login.users st1 = Login.users st
        /\ forall t, Collated.verify_token same e token (Trace.at_time t st1)
                     = (Return None, Trace.at_time t st1))
    /\ (Login.u_disabled u = true -> st1 = st).
Proof.
  intros Hselect Hdelete Htoken Hin Hsame Htok Hu Hid Huniq Hlate.
  rewrite collated_verify_token_run by done.
  destruct (collated_token_rows_unique same token tok user_id expires_at u st)
    as (rest & ->); try done.
  cbn [head]. destruct (Login.u_disabled u) eqn:Hdis.
  { exists st. split; [done|]. split; [done | done]. }
  apply Qltb_false in Hlate as ->.
  unfold Py.bind, Collated.delete_token, Users.execute_delete. rewrite Hdelete.
  unfold Py.modify, Py.ret. eexists. split; [reflexivity|]. split; [|done].
  intros _. cbn [Users.set_tokens Login.tokens Login.users].
  assert (Hrows : forall row,
            In row (List.filter (fun t => negb (same (fst (fst t)) token)) (Login.tokens st))
            <-> In row (Login.tokens st) /\ same (fst (fst row)) token = false).
  { intros row. rewrite filter_In.
    destruct (same (fst (fst row)) token); cbn [negb]; split; intros [? ?]; done. }
  split; [done|]. split; [done|].
  intros t. rewrite collated_verify_token_run by done.
  rewrite collated_token_rows_at_time.
  destruct (Collated.token_rows same token _) as [|[[uid exp] dis] rest'] eqn:Hrows';
    [done|].
  exfalso.
  assert (H : In (uid, exp, dis)
                (Collated.token_rows same token
                   (Users.set_tokens
                      (List.filter (fun t => negb (same (fst (fst t)) token))
                         (Login.tokens st)) st))) by (rewrite Hrows'; by left).
  apply collated_token_rows_In in H as (tok' & u' & H & Hsame' & _).
  cbn [Users.set_tokens Login.tokens] in H. apply Hrows in H as [_ H].
  cbn [fst] in H. congruence.
Qed.

Lemma verify_token_expired_witness :
  exists st1,
    Collated.verify_token String.eqb Samples.users_env "tok-old" Samples.session_state
    = (Return None, st1)
    /\ Collated.verify_token String.eqb Samples.users_env "tok-old" (Trace.at_time 50 st1)
       = (Return None, Trace.at_time 50 st1).
Proof.
  destruct (verify_token_expired String.eqb Samples.users_env "tok-old"
              Samples.session_state "tok-old" "u3" 100
              (Login.UserRow "u3" "dave" "h:dpwgcli_static_salt" "user" "sk-gcli-3" false))
    as (st1 & Hrun & Hdeleted & _); try done.
  - cbn. tauto.
  - cbn. intros tok' uid exp [[= <- <- <-]|[[= <- <- <-]|[[= <- <- <-]|[[= <- <- <-]|[]]]]];
      done.
  - cbn. tauto.
  - cbn. intros u' [<-|[<-|[<-|[]]]]; done.
  - exists st1. split; [done|]. by apply Hdeleted.
Defined.

(** The second case, run: the expired token of a disabled user is refused
    and kept, and it is accepted again once the user is enabled and the
    clock set back. *)
Example verify_token_expired_disabled :
  let st := Login.State
              [Login.UserRow "u3" "dave" "h:dpwgcli_static_salt" "user" "sk-gcli-3" true]
              [("tok-old", "u3", 100%Q)] [] 5000 in
  Users.verify_token Samples.users_env "tok-old" st = (Return None, st)
  /\ fst (Users.verify_token Samples.users_env "tok-old"
            (Trace.at_time 50
               (snd (Users.update_user_status Samples.users_env "u3" (Some false) None st))))
     = Return (Some "u3").
Proof. vm_compute. split; reflexivity. Qed.


(** ** Disabling and deleting an account *)

(** X23. Disabling an account locks it out on every path: once
    [update_user_status] has set [disabled], [verify_token] accepts none of
    the tokens of that user, [login] does not log the user in, and
    [get_user_by_api_key] does not return the user. *)
Theorem update_user_status_locks_out e user_id quota_daily st st1 :
  Users.update_user_status e user_id (Some true) quota_daily st = (Return tt, st1) ->
  (forall token t st2,
     Users.verify_token e token (Trace.at_time t st1) <> (Return (Some user_id), st2))
  /\ (forall le username password d st2,
        Login.login le username password st1 = (Return (Some d), st2) ->
        Dict.get d "user_id" <> Some (JStr user_id))
  /\ (forall api_key st2,
        Users.get_user_by_api_key e api_key st1 <> (Return (Some user_id), st2)).
Proof.
  unfold Users.update_user_status, Users.execute_update.
  destruct (Users.update_fails e); [done|].
  unfold Py.modify. intros [= <-].
  set (st1 := Users.set_users _ st).
  assert (Hdisabled : forall u, In u (Login.users st1) -> Login.u_id u = user_id ->
                        Login.u_disabled u = true).
  { intros u Hu Hid. unfold st1 in Hu. cbn [Users.set_users Login.users] in Hu.
    apply in_map_iff in Hu as (u0 & <- & _).
    destruct (String.eqb_spec (Login.u_id u0) user_id) as [E|E]; [done|].
    by destruct Hid. }
  split; [|split].
  - intros token t st2. apply verify_token_refuses. intros expires_at Hin.
    apply token_rows_In in Hin as (_ & u & Hu & Hid & Hdis).
    by rewrite (Hdisabled u Hu Hid) in Hdis.
  - intros le username password d st2 Hlogin.
    destruct (login_success _ _ _ _ _ _ Hlogin) as (u & Hu & _ & _ & Hdis & -> & _).
    cbn. intros [= Hid]. by rewrite (Hdisabled u Hu Hid) in Hdis.
  - intros api_key st2. unfold Users.get_user_by_api_key, Users.fetch_one.
    destruct (Login.select_fails (Users.login_env e)); [done|].
    unfold Py.bind at 1. unfold Py.bind at 1, Py.get_state at 1, Py.ret at 1.
    destruct (head _) as [u|] eqn:Hhead; [|done].
    apply head_In in Hhead. unfold Users.users_by_api_key in Hhead.
    apply filter_In in Hhead as [Hu _].
    destruct (Login.u_disabled u) eqn:Hdis; [done|].
    intros [= Hid _]. by rewrite (Hdisabled u Hu Hid) in Hdis.
Qed.

Lemma update_user_status_locks_out_witness :
  exists st1,
    Users.update_user_status Samples.users_env "u1" (Some true) None Samples.session_state
    = (Return tt, st1)
    /\ Users.verify_token Samples.users_env "tok-a" st1 = (Return None, st1).
Proof.
  destruct (Users.update_user_status Samples.users_env "u1" (Some true) None
              Samples.session_state) as [r st1] eqn:Hrun.
  assert (r = Return tt) as -> by (vm_compute in Hrun; by injection Hrun as <- _).
  destruct (update_user_status_locks_out _ _ _ _ _ Hrun) as [Hdead _].
  exists st1. split; [done|].
  destruct (Users.verify_token Samples.users_env "tok-a" st1) as [r2 st2] eqn:Hverify.
  assert (Hst : st2 = st1 /\ r2 <> OutOfFuel /\ forall ex, r2 <> Raise ex).
  { revert Hverify. injection Hrun as <-. vm_compute. by intros [= <- <-]. }
  destruct Hst as (-> & Hfuel & Hraise).
  destruct r2 as [[uid|]|ex|]; try done.
  - assert (uid = "u1") as ->.
    { revert Hverify. injection Hrun as <-. vm_compute. by intros [=]. }
    destruct (Hdead "tok-a" (Login.now st1) st1). destruct st1. exact Hverify.
  - by destruct (Hraise ex).
Defined.

(** X24. A successful [delete_user] removes the users whose id the database
    takes for the given one, and the tokens whose [user_id] it takes for the
    given one, and nothing else ([same]: on SQLite the id itself, on the
    MySQL schema also its variants in case); afterwards [verify_token]
    accepts no token for that user id.  The account named "admin" is no
    exception: the comparison with its id has no effect. *)
Theorem delete_user_removes (same : string -> string -> bool) e user_id st st1 :
  Collated.delete_user same e user_id st = (Return true, st1) ->
  (forall u, In u (Login.users st1)
             <-> In u (Login.users st) /\ same (Login.u_id u) user_id = false)
  /\ (forall row, In row (Login.tokens st1)
                  <-> In row (Login.tokens st) /\ same (snd (fst row)) user_id = false)
  /\ (forall token t st2,
        Collated.verify_token same e token (Trace.at_time t st1)
        <> (Return (Some user_id), st2)).
Proof.
  unfold Collated.delete_user, Collated.get_user_by_username, Users.fetch_one,
    Users.execute_delete.
  destruct (Login.select_fails (Users.login_env e)); [done|].
  unfold Py.bind at 1. unfold Py.bind at 1. unfold Py.bind at 1, Py.get_state at 1, Py.ret at 1.
  unfold Py.ret at 1. unfold Py.try_except.
  destruct (Users.delete_fails e); [done|].
  unfold Py.bind, Py.modify, Py.ret. intros [= <-].
  cbn [Users.set_users Users.set_tokens Login.users Login.tokens].
  assert (Husers : forall u,
            In u (List.filter (fun u => negb (same (Login.u_id u) user_id))
                    (Login.users st))
            <-> In u (Login.users st) /\ same (Login.u_id u) user_id = false).
  { intros u. rewrite filter_In.
    destruct (same (Login.u_id u) user_id); cbn [negb]; split; intros [? ?]; done. }
  split; [done|]. split.
  - intros row. rewrite filter_In.
    destruct (same (snd (fst row)) user_id); cbn [negb]; split; intros [? ?]; done.
  - intros token t st2. apply collated_verify_token_refuses. intros expires_at Hin.
    apply collated_token_rows_In in Hin as (tok & u & _ & _ & Hu & Hid & _).
    cbn [Trace.at_time Login.users] in Hu. apply Husers in Hu as [_ Hne]. congruence.
Qed.

Lemma delete_user_removes_witness :
  exists st1,
    Collated.delete_user Samples.same_ci Samples.users_env "U1" Samples.session_state
    = (Return true, st1)
    /\ forall u, In u (Login.users st1) -> Login.u_username u <> "admin".
Proof.
  destruct (Collated.delete_user Samples.same_ci Samples.users_env "U1"
              Samples.session_state) as [r st1] eqn:Hrun.
  assert (r = Return true) as -> by (vm_compute in Hrun; by injection Hrun as <- _).
  destruct (delete_user_removes _ _ _ _ _ Hrun) as [Husers _].
  exists st1. split; [done|].
  intros u Hu. apply Husers in Hu as [Hu Hid].
  cbn in Hu. destruct Hu as [<-|[<-|[<-|[]]]]; done.
Defined.

(** X25. Changing a password revokes nothing: a successful [change_password]
    leaves the tokens table as it is, and [verify_token] gives for every
    token what it gave before. *)
Theorem change_password_keeps_tokens e user_id new_password st st1 :
  Users.change_password e user_id new_password st = (Return true, st1) ->
  Login.tokens st1 = Login.tokens st
  /\ forall token,
       fst (Users.verify_token e token st1) = fst (Users.verify_token e token st).
Proof.
  unfold Users.change_password, Users.execute_update, Py.try_except.
  destruct (Users.update_fails e); [done|].
  unfold Py.bind, Py.modify, Py.ret. intros [= <-].
  split; [done|]. intros token.
  set (st1 := Users.set_users _ st).
  assert (Hrows : Users.token_rows token st1 = Users.token_rows token st).
  { unfold Users.token_rows, st1. cbn [Users.set_users Login.tokens Login.users].
    apply flat_map_ext. intros [[tok uid] exp].
    destruct (String.eqb tok token); [|done].
    induction (Login.users st) as [|u us IH]; [done|]. cbn [map List.filter].
    destruct (String.eqb (Login.u_id u) user_id) eqn:Hu; cbn [Login.u_id].
    - destruct (String.eqb (Login.u_id u) uid); cbn [map Login.u_disabled]; by rewrite IH.
    - destruct (String.eqb (Login.u_id u) uid); cbn [map]; by rewrite IH.
  }
  destruct (String.eqb_spec token "") as [->|Htoken]; [done|].
  destruct (Login.select_fails (Users.login_env e)) as [ex|] eqn:Hselect.
  { unfold Users.verify_token, Users.fetch_one, Py.truthy_str. rewrite Hselect.
    by destruct (negb (negb (token =? ""))). }
  rewrite !verify_token_run by done. rewrite Hrows.
  destruct (head _) as [[[uid exp] [|]]|]; try done.
  subst st1. cbn [Login.now Users.set_users].
  destruct (Qltb (Login.now st) exp); [done|].
  unfold Py.bind, Users.delete_token, Users.execute_delete.
  by destruct (Users.delete_fails e).
Qed.

Lemma change_password_keeps_tokens_witness :
  exists st1,
    Users.change_password Samples.users_env "u1" "n3w" Samples.session_state
    = (Return true, st1)
    /\ fst (Users.verify_token Samples.users_env "tok-a" st1) = Return (Some "u1").
Proof.
  destruct (Users.change_password Samples.users_env "u1" "n3w" Samples.session_state)
    as [r st1] eqn:Hrun.
  assert (r = Return true) as -> by (vm_compute in Hrun; by injection Hrun as <- _).
  destruct (change_password_keeps_tokens _ _ _ _ _ Hrun) as [_ Hsame].
  exists st1. split; [done|]. by rewrite Hsame.
Defined.


(** ** The gate of the administrator routes: [require_admin] *)

(** X26. [require_admin] lets a request through only if the database takes a
    stored token, not expired, for its bearer token; the user of that token
    exists and is not disabled; and the role recorded for that user id is
    "admin".  Letting it through changes nothing in the database.  The
    database's comparison is [same]: on SQLite the stored token is the
    bearer token, on the MySQL schema it may differ from it in case. *)
Theorem require_admin_admits (same : string -> string -> bool) e token st st' :
  Collated.require_admin same e token st = (Return tt, st') ->
  st' = st
  /\ exists tok user_id expires_at,
       In (tok, user_id, expires_at) (Login.tokens st)
       /\ same tok token = true
       /\ (Login.now st < expires_at)%Q
       /\ (exists u, In u (Login.users st) /\ same (Login.u_id u) user_id = true
                     /\ Login.u_disabled u = false)
       /\ (exists a, In a (Login.users st) /\ same (Login.u_id a) user_id = true
                     /\ Login.u_role a = "admin").
Proof.
  unfold Collated.require_admin, Collated.get_current_user_role,
    Collated.get_current_user_id.
  unfold Py.bind at 1. unfold Py.bind at 1. unfold Py.bind at 1.
  destruct (Collated.verify_token same e token st) as [[[user_id|]|ex|] st0] eqn:Hverify;
    try done.
  destruct (collated_verify_token_accepted same _ _ _ _ _ Hverify)
    as (-> & _ & expires_at & Hrow & Hlive).
  apply collated_token_rows_In in Hrow as (tok & u & Hin & Hsame & Hu & Hid & Hdis).
  destruct (Py.truthy_str user_id); [|done].
  unfold Py.ret at 1. unfold Collated.get_user_role, Users.fetch_one.
  destruct (Login.select_fails (Users.login_env e)); [done|].
  unfold Py.bind at 1. unfold Py.bind at 1, Py.get_state at 1, Py.ret at 1.
  unfold Py.ret at 1.
  destruct (head (Collated.users_by_id same user_id st)) as [a|] eqn:Hhead.
  - destruct (String.eqb_spec (Login.u_role a) "admin") as [Hrole|]; [|done].
    cbn [negb]. intros [= <-]. split; [done|].
    exists tok, user_id, expires_at. split; [done|]. split; [done|]. split; [done|].
    split; [by exists u|].
    apply head_In in Hhead. unfold Collated.users_by_id in Hhead.
    apply filter_In in Hhead as [Ha Hida]. by exists a.
  - by cbn.
Qed.

Lemma require_admin_admits_witness :
  exists tok user_id expires_at,
    In (tok, user_id, expires_at) (Login.tokens Samples.session_state)
    /\ Samples.same_ci tok "Tok-A" = true
    /\ (Login.now Samples.session_state < expires_at)%Q
    /\ (exists u, In u (Login.users Samples.session_state)
                  /\ Samples.same_ci (Login.u_id u) user_id = true
                  /\ Login.u_disabled u = false)
    /\ (exists a, In a (Login.users Samples.session_state)
                  /\ Samples.same_ci (Login.u_id a) user_id = true
                  /\ Login.u_role a = "admin").
Proof.
  apply (require_admin_admits Samples.same_ci Samples.users_env "Tok-A"
           Samples.session_state Samples.session_state).
  reflexivity.
Defined.

(** ** [register] *)

Lemma find_app_last {A} (f : A -> bool) (l : list A) x :
  find f l = None -> find f (l ++ [x]) = if f x then Some x else None.
Proof.
  induction l as [|y l IH]; cbn [find app]; [done|].
  destruct (f y); [done | apply IH].
Qed.

Lemma register_run e username password role st :
  Users.register e username password role st
  = if existsb (fun u => String.eqb (Login.u_id u) (Users.token_hex e)
                         || String.eqb (Login.u_username u) username
                         || String.eqb (Login.u_api_key u)
                              ("sk-gcli-" ++ Users.api_key_token e))
         (Login.users st)
    then (Return false, st)
    else match Login.insert_fails (Users.login_env e) with
         | Some _ => (Return false, st)
         | None =>
             (Return true,
              Users.set_users
                (Login.users st
                 ++ [Login.UserRow (Users.token_hex e) username
                       (Login._hash_password (Users.login_env e) password) role
                       ("sk-gcli-" ++ Users.api_key_token e) false])%list
                st)
         end.
Proof.
  unfold Users.register, Users.insert_user, Py.try_except.
  unfold Py.bind at 1. unfold Py.bind at 1, Py.get_state at 1.
  destruct (existsb _ _); [done|].
  by destruct (Login.insert_fails (Users.login_env e)).
Qed.

(** X27. A user who has just been registered can log in: after a successful
    [register], [login] with the same name and password returns the
    dictionary of the new account, with the id, the role and the API key
    that [register] gave it. *)
Theorem register_then_login e username password role st st1 :
  Users.register e username password role st = (Return true, st1) ->
  Login.select_fails (Users.login_env e) = None ->
  exists st2,
    Login.login (Users.login_env e) username password st1
    = (Return (Some [("token", JStr (Login.token_urlsafe (Users.login_env e)));
                     ("user_id", JStr (Users.token_hex e));
                     ("role", JStr role);
                     ("api_key", JStr ("sk-gcli-" ++ Users.api_key_token e))]), st2).
Proof.
  rewrite register_run.
  destruct (existsb _ _) eqn:Hexists; [done|].
  destruct (Login.insert_fails (Users.login_env e)) eqn:Hinsert; [done|].
  intros [= <-] Hselect.
  unfold Login.login, Login.select_user, Login.insert_token. rewrite Hselect, Hinsert.
  unfold Py.bind at 1. unfold Py.bind at 1, Py.get_state at 1, Py.ret at 1.
  cbn [Users.set_users Login.users].
  rewrite find_app_last.
  - cbn [Login.u_username Login.u_password_hash]. rewrite !String.eqb_refl.
    cbn [andb Login.u_id Login.u_disabled Login.u_role Login.u_api_key].
    by eexists.
  - destruct (find _ _) as [u|] eqn:Hfind; [|done].
    apply find_some in Hfind as [Hu Hmatch].
    apply andb_prop in Hmatch as [Hname _].
    assert (H : existsb (fun u => String.eqb (Login.u_id u) (Users.token_hex e)
                                  || String.eqb (Login.u_username u) username
                                  || String.eqb (Login.u_api_key u)
                                       ("sk-gcli-" ++ Users.api_key_token e))
                  (Login.users st) = true).
    { apply existsb_exists. exists u. split; [done|]. rewrite Hname.
      by rewrite orb_true_r. }
    congruence.
Qed.

Lemma register_then_login_witness :
  exists st1 st2,
    Users.register Samples.users_env "erin" "s3cret" "user" Samples.session_state
    = (Return true, st1)
    /\ Login.login Samples.login_env "erin" "s3cret" st1
       = (Return (Some [("token", JStr "tok-123");
                        ("user_id", JStr "9f8e7d6c5b4a3f2e");
                        ("role", JStr "user");
                        ("api_key", JStr "sk-gcli-Zm9vYmFy")]), st2).
Proof.
  destruct (Users.register Samples.users_env "erin" "s3cret" "user" Samples.session_state)
    as [r st1] eqn:Hrun.
  assert (r = Return true) as -> by (vm_compute in Hrun; by injection Hrun as <- _).
  destruct (register_then_login _ _ _ _ _ _ Hrun eq_refl) as (st2 & Hlogin).
  by exists st1, st2.
Defined.

(** X28. [register] never raises, and a name that is taken is refused:
    the call returns [False] when an account of that name exists; whenever
    it returns [False] the database is unchanged, and when it returns [True]
    it has added exactly one account, enabled, with the given name and
    role. *)
Theorem register_refuses_duplicate e username password role st :
  exists ok st1,
    Users.register e username password role st = (Return ok, st1)
    /\ (ok = false -> st1 = st)
    /\ ((exists u, In u (Login.users st) /\ Login.u_username u = username) -> ok = false)
    /\ (ok = true ->
        Login.tokens st1 = Login.tokens st
        /\ exists u, Login.users st1 = (Login.users st ++ [u])%list
                     /\ Login.u_username u = username
                     /\ Login.u_role u = role
                     /\ Login.u_disabled u = false).
Proof.
  rewrite register_run.
  destruct (existsb _ _) eqn:Hexists.
  { exists false, st. repeat split; done. }
  assert (Hfree : ~ exists u, In u (Login.users st) /\ Login.u_username u = username).
  { intros (u & Hu & Hname).
    assert (H : existsb (fun u => String.eqb (Login.u_id u) (Users.token_hex e)
                                  || String.eqb (Login.u_username u) username
                                  || String.eqb (Login.u_api_key u)
                                       ("sk-gcli-" ++ Users.api_key_token e))
                  (Login.users st) = true).
    { apply existsb_exists. exists u. split; [done|].
      rewrite Hname, String.eqb_refl. by rewrite orb_true_r. }
    congruence. }
  destruct (Login.insert_fails (Users.login_env e)).
  { exists false, st. repeat split; done. }
  eexists true, _. split; [reflexivity|]. split; [done|]. split; [by intros H; destruct Hfree|].
  intros _. split; [done|]. by eexists.
Qed.

Lemma register_refuses_duplicate_witness :
  Users.register Samples.users_env "carol" "pw2" "user" Samples.session_state
  = (Return false, Samples.session_state).
Proof.
  destruct (register_refuses_duplicate Samples.users_env "carol" "pw2" "user"
              Samples.session_state) as (ok & st1 & Hrun & Hsame & Htaken & _).
  assert (ok = false) as ->.
  { apply Htaken.
    exists (Login.UserRow "u2" "carol" "h:pwgcli_static_salt" "user" "sk-gcli-2" true).
    split; [cbn; tauto | reflexivity]. }
  by rewrite <- (Hsame eq_refl) at 2.
Defined.


(** ** The route that refreshes a token *)

Lemma verify_token_tokens e token st r st1 :
  Users.verify_token e token st = (r, st1) ->
  r <> OutOfFuel
  /\ forall row, In row (Login.tokens st1) -> In row (Login.tokens st).
Proof.
  unfold Users.verify_token, Users.fetch_one.
  destruct (negb _); [by intros [= <- <-]|].
  destruct (Login.select_fails (Users.login_env e)); [by intros [= <- <-]|].
  unfold Py.bind at 1. unfold Py.bind at 1, Py.get_state at 1, Py.ret at 1.
  destruct (head _) as [[[uid exp] [|]]|]; try by intros [= <- <-].
  unfold Py.bind at 1, Py.get_state at 1.
  destruct (Qltb _ _); [by intros [= <- <-]|].
  unfold Py.bind, Users.delete_token, Users.execute_delete.
  destruct (Users.delete_fails e); [by intros [= <- <-]|].
  unfold Py.modify, Py.ret. intros [= <- <-]. split; [done|].
  intros row Hrow. cbn [Users.set_tokens Login.tokens] in Hrow.
  by apply filter_In in Hrow as [? _].
Qed.

Lemma get_current_user_id_run e token st r st0 :
  Users.get_current_user_id e token st = (r, st0) ->
  r <> OutOfFuel
  /\ (forall row, In row (Login.tokens st0) -> In row (Login.tokens st))
  /\ (forall user_id, r = Return user_id -> st0 = st).
Proof.
  unfold Users.get_current_user_id. unfold Py.bind at 1.
  destruct (Users.verify_token e token st) as [[[uid|]|ex|] st1] eqn:Hverify.
  - destruct (verify_token_accepted _ _ _ _ _ Hverify) as [-> _].
    destruct (Py.truthy_str uid); by intros [= <- <-].
  - destruct (verify_token_tokens _ _ _ _ _ Hverify) as [_ Hsub].
    by intros [= <- <-].
  - destruct (verify_token_tokens _ _ _ _ _ Hverify) as [_ Hsub].
    by intros [= <- <-].
  - by destruct (verify_token_tokens _ _ _ _ _ Hverify) as [? _].
Qed.

(** X29. [POST /auth/refresh-token] never answers with a token.  Every call
    ends in an exception; and when the bearer token is accepted, the
    exception is an [HTTPException] with status 500, whether the user exists
    (the method the handler calls on the user manager does not exist) or not
    (the 404 raised inside the [try] is caught by the handler's own
    [except Exception]).  No token is written. *)
Theorem refresh_user_token_never_answers e token st r st' :
  Routes.refresh_user_token e token st = (r, st') ->
  (exists ex, r = Raise ex)
  /\ (forall user_id st0,
        Users.get_current_user_id e token st = (Return user_id, st0) ->
        exists detail, r = Raise (Exn (HTTPException 500) detail))
  /\ forall row, In row (Login.tokens st') -> In row (Login.tokens st).
Proof.
  unfold Routes.refresh_user_token. unfold Py.bind at 1.
  destruct (Users.get_current_user_id e token st) as [[user_id|ex|] st0] eqn:Hid;
    destruct (get_current_user_id_run _ _ _ _ _ Hid) as (Hfuel & Hsub & Hsame);
    [| intros [= <- <-]; split; [by eexists|]; by split | done].
  rewrite (Hsame user_id eq_refl) in *. clear Hsame Hsub Hfuel.
  unfold Py.try_except, Users.get_user, Users.get_user_role, Users.fetch_one,
    Users.create_access_token.
  destruct (Login.select_fails (Users.login_env e)).
  { unfold Py.bind, Py.raise. intros [= <- <-].
    split; [by eexists|]. split; [|done]. intros ? ? _. by eexists. }
  unfold Py.bind at 1. unfold Py.bind at 1, Py.get_state at 1, Py.ret at 1.
  destruct (head (Users.users_by_id user_id st)) as [row|].
  - unfold Py.bind, Py.get_state, Py.ret, Py.raise. intros [= <- <-].
    split; [by eexists|]. split; [|done]. intros ? ? _. by eexists.
  - unfold Py.raise. intros [= <- <-].
    split; [by eexists|]. split; [|done]. intros ? ? _. by eexists.
Qed.

Lemma refresh_user_token_never_answers_witness :
  exists detail,
    fst (Routes.refresh_user_token Samples.users_env "tok-a" Samples.session_state)
    = Raise (Exn (HTTPException 500) detail).
Proof.
  destruct (Routes.refresh_user_token Samples.users_env "tok-a" Samples.session_state)
    as [r st'] eqn:Hrun.
  destruct (refresh_user_token_never_answers _ _ _ _ _ Hrun) as (_ & H500 & _).
  apply (H500 "u1" Samples.session_state). reflexivity.
Defined.


(** ** Impersonation *)


